(** * The ml5 NeuralNetwork data pipeline: a shallow embedding

    The development follows the three classes of the repository:
    - [NeuralNetwork]       : the generic class of [src/NeuralNetwork/index.js]
                              (its [predictInternal]: encoding of one sample,
                              decoding of the model output);
    - [LegacyNeuralNetwork] : the older class kept in the same file
                              (its constructor and its [normalize]);
    - [DiyNeuralNetwork]    : the wrapper class (data loading, meta data).

    JavaScript values are dynamically typed, so the embedding starts with a
    small model of the language, [JS]: numbers, values, coercions, arrays,
    objects, exceptions and [Array.prototype.sort].  [Float32] and
    [Binary64] are the roundings of the tensor elements and of the doubles.
    The class [NeuralNetworkData], which the wrapper delegates to, is not
    among the sources: its methods are an interface of [DiyNeuralNetwork],
    and [SpecModel] implements them after the specification.  The tensor
    library is not among the sources either: the calls that can refuse
    their arguments are parameters of the classes.

    The definitions come first, module by module; the properties follow, in
    [JSFacts], [Float32Facts], [Binary64Facts], [NeuralNetworkSpec],
    [LegacyNeuralNetworkSpec] and [DiyNeuralNetworkSpec], and in the modules
    on the rest of the three classes. *)

From Stdlib Require Import List String Ascii Bool ZArith QArith Qfield.
From Stdlib Require Import Lia Lqa Permutation Sorted DecimalString Floats.
From Stdlib Require Import Qround Qpower Qabs.
Import ListNotations.
Local Open Scope string_scope.
Local Open Scope list_scope.

(* ================================================================== *)
(** ** JavaScript numbers, values and coercions *)
(* ================================================================== *)

Module JS.

(** A JavaScript Number is an IEEE-754 double.  The model keeps the three
    special values and computes exactly on the finite ones, keeping every
    result in lowest terms: rounding, overflow and the sign of zero are
    abstracted (a zero denominator is the [+0] that [x - x] produces).
    These operations serve where the property does not depend on the
    rounding: which branch runs, which exception is thrown, which cells are
    paired or ordered, where a [NaN] or an infinity arises from a zero
    divisor.  Where it does, the exact operation is followed by the
    rounding, written out in [Binary64] for the doubles of the language and
    in [Float32] for the elements of the tensors. *)
Inductive num : Type :=
| Fin (q : Q)
| PInf
| NInf
| NaN.

Definition nneg (a : num) : num :=
  match a with
  | Fin q => Fin (Qred (- q))
  | PInf => NInf
  | NInf => PInf
  | NaN => NaN
  end.

Definition nadd (a b : num) : num :=
  match a, b with
  | NaN, _ | _, NaN => NaN
  | Fin p, Fin q => Fin (Qred (p + q))
  | PInf, NInf | NInf, PInf => NaN
  | PInf, _ | _, PInf => PInf
  | NInf, _ | _, NInf => NInf
  end.

(** [a - b] *)
Definition nsub (a b : num) : num := nadd a (nneg b).

(** The sign of a finite number, as a comparison with zero. *)
Definition Qsign (q : Q) : comparison := (q ?= 0)%Q.

Definition flip_by (c : comparison) (a : num) : num :=
  match c with
  | Eq => NaN
  | Gt => a
  | Lt => nneg a
  end.

(** [a * b] *)
Definition nmul (a b : num) : num :=
  match a, b with
  | NaN, _ | _, NaN => NaN
  | Fin p, Fin q => Fin (Qred (p * q))
  | Fin p, PInf => flip_by (Qsign p) PInf
  | Fin p, NInf => flip_by (Qsign p) NInf
  | PInf, Fin q => flip_by (Qsign q) PInf
  | NInf, Fin q => flip_by (Qsign q) NInf
  | PInf, PInf | NInf, NInf => PInf
  | PInf, NInf | NInf, PInf => NInf
  end.

(** [a / b].  [0 / 0] is [NaN]; a non-zero number over zero is an infinity
    of the sign of the numerator. *)
Definition ndiv (a b : num) : num :=
  match a, b with
  | NaN, _ | _, NaN => NaN
  | Fin p, Fin q =>
      match Qsign q with
      | Eq => flip_by (Qsign p) PInf
      | _ => Fin (Qred (p / q))
      end
  | Fin _, (PInf | NInf) => Fin 0
  | (PInf | NInf), (PInf | NInf) => NaN
  | PInf, Fin q => match Qsign q with Lt => NInf | _ => PInf end
  | NInf, Fin q => match Qsign q with Lt => PInf | _ => NInf end
  end.

(** Equality of numbers up to the representation of a rational. *)
Definition num_eq (a b : num) : Prop :=
  match a, b with
  | Fin p, Fin q => (p == q)%Q
  | PInf, PInf | NInf, NInf | NaN, NaN => True
  | _, _ => False
  end.



(** [a <= b] on numbers that are not [NaN]. *)
Definition nle (a b : num) : Prop :=
  match a, b with
  | NaN, _ | _, NaN => False
  | NInf, _ | _, PInf => True
  | Fin p, Fin q => (p <= q)%Q
  | _, _ => False
  end.

(** [Math.min]/[Math.max]-like binary minimum and maximum: [NaN] wins. *)
Definition nmin (a b : num) : num :=
  match a, b with
  | NaN, _ | _, NaN => NaN
  | NInf, _ | _, NInf => NInf
  | PInf, x | x, PInf => x
  | Fin p, Fin q => if Qle_bool p q then Fin p else Fin q
  end.

Definition nmax (a b : num) : num :=
  match a, b with
  | NaN, _ | _, NaN => NaN
  | PInf, _ | _, PInf => PInf
  | NInf, x | x, NInf => x
  | Fin p, Fin q => if Qle_bool p q then Fin q else Fin p
  end.

(** The double that a number of the model stands for: a finite one is the
    correctly rounded quotient of its numerator and denominator (exact below
    2^53). *)
Definition float_of_Z (z : Z) : float :=
  match z with
  | Z0 => 0%float
  | Zpos _ => PrimFloat.of_uint63 (Uint63.of_Z z)
  | Zneg p => PrimFloat.opp (PrimFloat.of_uint63 (Uint63.of_Z (Zpos p)))
  end.

Definition binary64 (a : num) : float :=
  match a with
  | Fin q => PrimFloat.div (float_of_Z (Qnum q)) (float_of_Z (Zpos (Qden q)))
  | PInf => infinity
  | NInf => neg_infinity
  | NaN => nan
  end.

#[local] Set Warnings "-register-all".

(** JavaScript values.  An array carries its elements, an object its own
    enumerable properties in [Object.entries] order. *)
Inductive value : Type :=
| VUndef
| VNull
| VBool (b : bool)
| VNum (n : num)
| VStr (s : string)
| VArr (elems : list value)
| VObj (props : list (string * value)).

(** The two conversions between numbers and strings are primitives of the
    language ([Number::toString] and [StringToNumber]); the embedding is
    parametric in them. *)
Class Runtime : Type := {
  Number_toString : num -> string;
  String_toNumber : string -> num
}.

Section Coercions.
Context {rt : Runtime}.

(** [ToString]; an array joins its elements with commas, holes printing as
    the empty string. *)
Fixpoint ToString (v : value) : string :=
  match v with
  | VUndef => "undefined"
  | VNull => "null"
  | VBool true => "true"
  | VBool false => "false"
  | VNum n => Number_toString n
  | VStr s => s
  | VArr l =>
      String.concat ","
        (map (fun e => match e with
                       | VUndef | VNull => EmptyString
                       | _ => ToString e
                       end) l)
  | VObj _ => "[object Object]"
  end.

(** [ToNumber] *)
Definition ToNumber (v : value) : num :=
  match v with
  | VUndef => NaN
  | VNull => Fin 0
  | VBool true => Fin 1
  | VBool false => Fin 0
  | VNum n => n
  | VStr s => String_toNumber s
  | VArr _ => String_toNumber (ToString v)
  | VObj _ => NaN
  end.

(** [ToPropertyKey], for a computed member access [o[v]]. *)
Definition ToPropertyKey (v : value) : string := ToString v.

End Coercions.

(** The runtime of the closed examples.  It is [Number::toString] and
    [StringToNumber] on the integers, written in decimal, and on the three
    special values; a number with a fractional part is printed as its
    integer part and any other string is read as [NaN], two cases that no
    example reaches. *)
Definition integer_toString (n : num) : string :=
  match n with
  | NaN => "NaN"
  | PInf => "Infinity"
  | NInf => "-Infinity"
  | Fin q => NilZero.string_of_int (Z.to_int (Qnum q / Zpos (Qden q)))
  end.

Definition integer_toNumber (s : string) : num :=
  if String.eqb s EmptyString then Fin 0
  else match NilZero.int_of_string s with
       | Some i => Fin (inject_Z (Z.of_int i))
       | None => NaN
       end.

Definition integer_runtime : Runtime :=
  {| Number_toString := integer_toString; String_toNumber := integer_toNumber |}.

(** [ToBoolean] *)
Definition truthy (v : value) : bool :=
  match v with
  | VUndef | VNull => false
  | VBool b => b
  | VNum (Fin q) => negb (Qeq_bool q 0)
  | VNum NaN => false
  | VNum _ => true
  | VStr s => negb (String.eqb s EmptyString)
  | VArr _ | VObj _ => true
  end.

(** [a || b] *)
Definition or_else (a b : value) : value := if truthy a then a else b.

(** *** Arrays and objects *)

(** [arr[i]] for an integer index: [undefined] out of range. *)
Definition array_get {A : Type} (arr : list A) (i : Z) : option A :=
  if (i <? 0)%Z then None else nth_error arr (Z.to_nat i).

Definition value_at (arr : list value) (i : Z) : value :=
  match array_get arr i with Some v => v | None => VUndef end.

(** An element of an array of numbers, read as a value. *)
Definition num_at (arr : list num) (i : Z) : value :=
  match array_get arr i with Some n => VNum n | None => VUndef end.

(** [arr.indexOf(x)]: the first index holding [x], or [-1]. *)
Fixpoint indexOf_from (arr : list string) (x : string) (i : Z) : Z :=
  match arr with
  | [] => (-1)%Z
  | y :: arr' => if String.eqb y x then i else indexOf_from arr' x (i + 1)%Z
  end.

Definition indexOf (arr : list string) (x : string) : Z := indexOf_from arr x 0.

(** Own-property lookup in an object given by its entries. *)
Fixpoint own_property {A : Type} (o : list (string * A)) (k : string) : option A :=
  match o with
  | [] => None
  | (k', v) :: o' => if String.eqb k' k then Some v else own_property o' k
  end.

(** [o[k]] on an object of values: [undefined] when [k] is not a property. *)
Definition get_prop (o : list (string * value)) (k : string) : value :=
  match own_property o k with Some v => v | None => VUndef end.

(** [Number.isInteger(v) && v > 0] *)
Definition positive_integer (v : value) : bool :=
  match v with
  | VNum (Fin q) => ((Zpos (Qden (Qred q)) =? 1) && (0 <? Qnum (Qred q)))%Z
  | _ => false
  end.

(** *** Errors *)

(** What a rejected promise or an exception carries.  [TypeError] is what
    the runtime raises, [TensorShapeError] and [ValueError] what the tensor
    library raises on a shape and on options that it refuses; the others
    are the named errors of the specification's taxonomy. *)
Inductive js_error : Type :=
| TypeError
| TensorShapeError
| ValueError
| UnsupportedFormat
| LoadError
| ValueNotInVocabulary
| ShapeMismatch
| ColumnTypeAmbiguous.

(** The outcome of a computation that may throw. *)
Definition result (A : Type) : Type := (js_error + A)%type.
Definition Ok {A : Type} (a : A) : result A := inr a.
Definition Throw {A : Type} (e : js_error) : result A := inl e.

Definition rbind {A B : Type} (r : result A) (k : A -> result B) : result B :=
  match r with
  | inl e => inl e
  | inr a => k a
  end.

(** [arr.forEach] with a body that updates an accumulator and may throw. *)
Fixpoint forEach {A S : Type} (body : S -> A -> result S) (arr : list A) (s : S)
  : result S :=
  match arr with
  | [] => Ok s
  | a :: arr' => rbind (body s a) (forEach body arr')
  end.

(** *** [Array.prototype.sort]

    ECMAScript 2019 requires the sort to be stable.  With a consistent
    comparator every stable sort returns the same array, so the model is the
    insertion sort (which is also what V8 ran on arrays of at most ten
    elements before its sort became stable).  The comparator returns a number;
    [NaN] counts as [+0]; a positive result puts the second argument first. *)
Definition positive_sign (r : num) : bool :=
  match r with
  | Fin q => match Qsign q with Gt => true | _ => false end
  | PInf => true
  | NInf | NaN => false
  end.

Section Sort.
Context {A : Type} (comparefn : A -> A -> num).

Fixpoint sort_insert (x : A) (l : list A) : list A :=
  match l with
  | [] => [x]
  | y :: l' =>
      if positive_sign (comparefn x y) then y :: sort_insert x l' else x :: l
  end.

Definition sort (l : list A) : list A := fold_right sort_insert [] l.

End Sort.

End JS.

(* ================================================================== *)
(** ** The binary32 numbers of the tensors *)
(* ================================================================== *)

Module Float32.
Import JS.
Local Open Scope Q_scope.

(** The tensors of the library hold IEEE-754 binary32 numbers.  A number
    is stored by rounding it to the nearest binary32 number, the one with
    the even significand of two that are equally near, and to an infinity
    from [2 ^ 128 - 2 ^ 103] on; an operation on two elements is the exact
    operation followed by this rounding.  The sign of zero is not kept. *)

(** [floor (log2 q)] for a positive rational. *)
Definition Qlog2 (q : Q) : Z :=
  let k := (Z.log2 (Qnum q) - Z.log2 (Zpos (Qden q)))%Z in
  if Qle_bool (2 ^ k) q then k else (k - 1)%Z.

(** The integer nearest to a rational, the even one of two that are equally
    near. *)
Definition rne (q : Q) : Z :=
  let f := Qfloor q in
  match (q - inject_Z f ?= 1 # 2)%Q with
  | Lt => f
  | Gt => (f + 1)%Z
  | Eq => if Z.even f then f else (f + 1)%Z
  end.

(** The exponent of the last place of the binary32 numbers around [q]:
    24 significant bits, and no exponent under -149. *)
Definition cexp (q : Q) : Z := Z.max (Qlog2 q - 23) (-149).

(** The multiple of [2 ^ cexp q] nearest to a positive rational. *)
Definition nearest (q : Q) : Q := inject_Z (rne (q / 2 ^ cexp q)) * 2 ^ cexp q.

Definition round_pos (q : Q) : num :=
  if Qle_bool (2 ^ 128) (nearest q) then PInf else Fin (Qred (nearest q)).

(** The binary32 number nearest to a number. *)
Definition round32 (a : num) : num :=
  match a with
  | Fin q =>
      match q ?= 0 with
      | Eq => Fin 0
      | Gt => round_pos q
      | Lt => nneg (round_pos (- q))
      end
  | _ => a
  end.

(** Subtraction and division of two binary32 numbers. *)
Definition sub32 (a b : num) : num := round32 (nsub a b).
Definition div32 (a b : num) : num := round32 (ndiv a b).

(** The binary32 numbers are multiples of [2 ^ -149]. *)
Definition on_grid (x : Q) : Prop := exists k : Z, x == inject_Z k * 2 ^ (-149).

End Float32.

(* ================================================================== *)
(** ** The binary64 numbers of the language *)
(* ================================================================== *)

Module Binary64.
Import JS Float32.
Local Open Scope Q_scope.

(** The arithmetic of [JS] is exact.  Where a property depends on the
    rounding of the doubles, the operation is the exact one followed by the
    rounding to the nearest binary64 number: 53 significant bits, no
    exponent under -1074, the even significand of two numbers that are
    equally near, and an infinity from [2 ^ 1024 - 2 ^ 970] on.  The sign
    of zero is not kept. *)
Definition cexp64 (q : Q) : Z := Z.max (Qlog2 q - 52) (-1074).

Definition nearest64 (q : Q) : Q :=
  inject_Z (rne (q / 2 ^ cexp64 q)) * 2 ^ cexp64 q.

Definition round_pos64 (q : Q) : num :=
  if Qle_bool (2 ^ 1024) (nearest64 q) then PInf else Fin (Qred (nearest64 q)).

Definition round64 (a : num) : num :=
  match a with
  | Fin q =>
      match q ?= 0 with
      | Eq => Fin 0
      | Gt => round_pos64 q
      | Lt => nneg (round_pos64 (- q))
      end
  | _ => a
  end.

Definition add64 (a b : num) : num := round64 (nadd a b).
Definition sub64 (a b : num) : num := round64 (nsub a b).
Definition mul64 (a b : num) : num := round64 (nmul a b).
Definition div64 (a b : num) : num := round64 (ndiv a b).

(** [(val - min) / (max - min)], line 393, and [(p * (max - min)) + min],
    line 439, on doubles. *)
Definition normVal64 (val mn mx : num) : num := div64 (sub64 val mn) (sub64 mx mn).

Definition denormVal64 (p mn mx : num) : num := add64 (mul64 p (sub64 mx mn)) mn.

(** The tolerance of a round trip: four units in the last place of the
    operands, and eight times the half of the smallest double for each
    unit of the range. *)
Definition tolerance (v mn mx : Q) : Q :=
  2 ^ (-51) * (Qabs (v - mn) + Qabs v) + 2 ^ (-1072) * (1 + (mx - mn)).

(** The same two expressions on the doubles of the kernel, and the number
    that a double stands for. *)
Definition normVal_float (val mn mx : float) : float := ((val - mn) / (mx - mn))%float.

Definition denormVal_float (p mn mx : float) : float := (p * (mx - mn) + mn)%float.

Definition number (f : float) : num :=
  match Prim2SF f with
  | S754_zero _ => Fin 0
  | S754_infinity false => PInf
  | S754_infinity true => NInf
  | S754_nan => NaN
  | S754_finite s m e =>
      Fin (Qred ((if s then - inject_Z (Zpos m) else inject_Z (Zpos m)) * 2 ^ e))
  end.

End Binary64.

(* ================================================================== *)
(** ** The generic class: [NeuralNetwork.predictInternal] *)
(* ================================================================== *)

Module NeuralNetwork.
Import JS.

Notation "x <- e ;; k" := (rbind e (fun x => k))
  (at level 100, e at next level, right associativity, only parsing).

(** The descriptor of a column in [this.data.meta.inputs] / [.outputs].
    [legend] maps each label of a categorical column to its one-hot array; the
    list is in [Object.entries] order. *)
Record ColumnMeta : Type := {
  dtype : string;
  legend : option (list (string * list num))
}.

Record Meta : Type := {
  inputs : list (string * ColumnMeta);
  outputs : list (string * ColumnMeta);
  inputUnits : Z;
  outputUnits : Z
}.

(** The fields of the instance that [predictInternal] reads:
    [this.config.architecture.task], [this.data.config.dataOptions.inputs],
    [this.data.meta], the bounds kept in [this.data.data] (absent until the
    data were normalized) and the model, a function from the input row to
    the output row. *)
Record Instance : Type := {
  task : string;
  config_inputs : list string;
  meta : Meta;
  inputMin : option (list num);
  inputMax : option (list num);
  outputMin : option (list num);
  outputMax : option (list num);
  model_predict : list num -> list num
}.

(** One element of a classification result. *)
Record Labelled : Type := {
  label : string;
  confidence : value
}.

(** [results.output] *)
Inductive Output : Type :=
| OutNull
| OutUndefined
| OutLabels (l : list Labelled)
| OutValue (v : num).

Record Results : Type := {
  output : Output;
  tensor : option (list num)
}.

(** [(val - min) / (max - min)], line 393 *)
Definition normVal (val mn mx : num) : num := ndiv (nsub val mn) (nsub mx mn).

(** [(p * (max - min)) + min], line 439 *)
Definition denormVal (p mn mx : num) : num := nadd (nmul p (nsub mx mn)) mn.

(** The element of an array of numbers, used as an operand of [-], [*] or
    [+]: a missing element is [undefined], hence [NaN]. *)
Definition operand (arr : list num) (i : Z) : num :=
  match array_get arr i with Some n => n | None => NaN end.

(** [arr.map((x, idx) => f x idx)] with a callback that may throw. *)
Fixpoint map_from {A B : Type} (f : A -> Z -> result B) (arr : list A) (idx : Z)
  : result (list B) :=
  match arr with
  | [] => Ok []
  | a :: arr' =>
      b <- f a idx ;;
      bs <- map_from f arr' (idx + 1)%Z ;;
      Ok (b :: bs)
  end.

Definition map_indexed {A B : Type} (f : A -> Z -> result B) (arr : list A)
  : result (list B) := map_from f arr 0%Z.

(** [tf.tensor(values, [1, units])]: the library refuses a shape that does
    not hold exactly the values given. *)
Definition tf_tensor (values : list num) (units : Z) : result (list num) :=
  if (Z.of_nat (List.length values) =? units)%Z then Ok values
  else Throw TensorShapeError.

Section PredictInternal.
Context {rt : Runtime}.
Variable this : Instance.

(** Step 1: the sample as an array of values in the order of the inputs. *)
Definition inputData (sample : value) : list value :=
  match sample with
  | VArr elems => elems
  | VObj props => map (fun prop => get_prop props prop) (config_inputs this)
  | _ => []
  end.

(** Step 2, the body of the [forEach] over [Object.entries(meta.inputs)]. *)
Definition encodeColumn (data : list value) (encodedInput : list num)
    (arr : string * ColumnMeta) : result (list num) :=
  let prop := fst arr in
  let valIndex := indexOf (config_inputs this) prop in
  let val := value_at data valIndex in
  if String.eqb (dtype (snd arr)) "number" then
    match inputMin this, inputMax this with
    | Some mn, Some mx =>
        Ok (encodedInput ++
              [normVal (ToNumber val) (operand mn valIndex) (operand mx valIndex)])
    | _, _ => Throw TypeError
    end
  else if String.eqb (dtype (snd arr)) "string" then
    match legend (snd arr) with
    | None => Throw TypeError
    | Some lg =>
        match own_property lg (ToPropertyKey val) with
        | Some onehotVal => Ok (encodedInput ++ onehotVal)
        | None => Throw TypeError
        end
    end
  else Ok encodedInput.

Definition encodeInput (sample : value) : result (list num) :=
  forEach (encodeColumn (inputData sample)) (inputs (meta this)) [].

(** [(a, b) => b.confidence - a.confidence] *)
Definition byConfidence (a b : Labelled) : num :=
  nsub (ToNumber (confidence b)) (ToNumber (confidence a)).

(** The callback of the inner [map], lines 421-426. *)
Definition labelConfidence (predictions : list num)
    (legendArr : string * list num) (idx : Z) : result Labelled :=
  Ok {| label := fst legendArr; confidence := num_at predictions idx |}.

(** The callback of the outer [map], lines 415-427: the labels of one
    output column with their confidences, sorted. *)
Definition rankColumn (predictions : list num)
    (arr : string * ColumnMeta) (_ : Z) : result (list Labelled) :=
  match legend (snd arr) with
  | None => Throw TypeError
  | Some lg =>
      labelled <- map_indexed (labelConfidence predictions) lg ;;
      Ok (sort byConfidence labelled)
  end.

(** The classification branch, lines 411-428. *)
Definition classificationOutput (predictions : list num) : result Output :=
  outputData <- map_indexed (rankColumn predictions) (outputs (meta this)) ;;
  Ok (match outputData with
      | [] => OutUndefined
      | first :: _ => OutLabels first
      end).

(** The callback of the regression branch, lines 437-442. *)
Definition regressionValue (predictions : list num)
    (item : string * ColumnMeta) (idx : Z) : result num :=
  match outputMin this, outputMax this with
  | Some mn, Some mx =>
      Ok (denormVal (operand predictions idx) (operand mn idx) (operand mx idx))
  | _, _ => Throw TypeError
  end.

(** The regression branch, lines 434-443. *)
Definition regressionOutput (predictions : list num) : result Output :=
  outputData <- map_indexed (regressionValue predictions) (outputs (meta this)) ;;
  Ok (match outputData with
      | [] => OutUndefined
      | first :: _ => OutValue first
      end).

Definition predictInternal (sample : value) : result Results :=
  encodedInput <- encodeInput sample ;;
  xs <- tf_tensor encodedInput (inputUnits (meta this)) ;;
  let ys := model_predict this xs in
  if String.eqb (task this) "classification" then
    out <- classificationOutput ys ;;
    Ok {| output := out; tensor := Some ys |}
  else if String.eqb (task this) "regression" then
    out <- regressionOutput ys ;;
    Ok {| output := out; tensor := Some ys |}
  else Ok {| output := OutNull; tensor := None |}.

(** The value that the sample holds for the column [prop], as
    [encodeColumn] reads it. *)
Definition sampleValue (sample : value) (prop : string) : value :=
  value_at (inputData sample) (indexOf (config_inputs this) prop).

End PredictInternal.







(** Modelled from the spec: the class [NeuralNetworkData], which infers the
    meta data and encodes the rows of the training tensor, is not among the
    sources.  Section 3 of the specification describes a column as numeric,
    with its minimum and maximum, or categorical, with its vocabulary in
    first-seen order; the width of a column is 1 for a numeric column and
    the size of the vocabulary for a categorical one, and [inputUnits] is
    the derived total width of the input columns. *)
Inductive ColumnKind : Type :=
| Numeric (min max : num)
| Categorical (vocabulary : list string).


Definition column_width (k : ColumnKind) : nat :=
  match k with
  | Numeric _ _ => 1%nat
  | Categorical vocabulary => List.length vocabulary
  end.









End NeuralNetwork.

(* ================================================================== *)
(** ** The older class: constructor and [normalize] *)
(* ================================================================== *)

Module LegacyNeuralNetwork.
Import JS Float32.

Notation "x <- e ;; k" := (rbind e (fun x => k))
  (at level 100, e at next level, right associativity, only parsing).

(** [DEFAULTS], lines 503-521. *)
Module DEFAULTS.
Definition task : value := VStr "regression".
Definition activationHidden : value := VStr "sigmoid".
Definition activationOutput : value := VStr "sigmoid".
Definition debug : value := VBool true.
Definition learningRate : value := VNum (Fin (1 # 4)).
Definition inputUnits : value := VNum (Fin 2).
Definition outputUnits : value := VNum (Fin 1).
Definition noVal : value := VNull.
Definition hiddenUnits : value := VNum (Fin 1).
Definition modelMetrics : value := VArr [VStr "accuracy"].
Definition modelLoss : value := VStr "meanSquaredError".
Definition modelOptimizer : value := VNull.
Definition batchSize : value := VNum (Fin 64).
Definition epochs : value := VNum (Fin 32).
End DEFAULTS.

(** [this.config].  [inputKeys] and [outputKeys] are absent until
    [loadDataInternal] sets them. *)
Record Config : Type := {
  task : value;
  debug : value;
  activationHidden : value;
  activationOutput : value;
  inputUnits : value;
  outputUnits : value;
  noVal : value;
  hiddenUnits : value;
  learningRate : value;
  modelMetrics : value;
  modelLoss : value;
  modelOptimizer : value;
  batchSize : value;
  epochs : value;
  inputKeys : option (list string);
  outputKeys : option (list string)
}.

(** The description of a compiled sequential model: a hidden and an output
    dense layer, or no layer at all. *)
Inductive Model : Type :=
| Sequential (hidden_units inputShape hidden_activation : value)
             (output_units output_activation : value)
             (optimizer loss metrics : value)
| EmptySequential.

Record Instance : Type := {
  config : Config;
  model : Model;
  data_xs : list value;
  data_ys : list value
}.

(** [tf.train.sgd(learningRate)] and [tf.train.adam()], as descriptions. *)
Definition tf_train_sgd (lr : value) : value :=
  VObj [("optimizer", VStr "sgd"); ("learningRate", lr)].

Definition tf_train_adam : value := VObj [("optimizer", VStr "adam")].

Definition set_modelOptimizer (c : Config) (v : value) : Config :=
  {| task := task c; debug := debug c;
     activationHidden := activationHidden c; activationOutput := activationOutput c;
     inputUnits := inputUnits c; outputUnits := outputUnits c; noVal := noVal c;
     hiddenUnits := hiddenUnits c; learningRate := learningRate c;
     modelMetrics := modelMetrics c; modelLoss := modelLoss c;
     modelOptimizer := v;
     batchSize := batchSize c; epochs := epochs c;
     inputKeys := inputKeys c; outputKeys := outputKeys c |}.

Definition set_classification (c : Config) : Config :=
  {| task := task c; debug := debug c;
     activationHidden := VStr "relu"; activationOutput := VStr "softmax";
     inputUnits := inputUnits c; outputUnits := outputUnits c; noVal := noVal c;
     hiddenUnits := VNum (Fin 16); learningRate := learningRate c;
     modelMetrics := modelMetrics c; modelLoss := VStr "categoricalCrossentropy";
     modelOptimizer := tf_train_adam;
     batchSize := batchSize c; epochs := epochs c;
     inputKeys := inputKeys c; outputKeys := outputKeys c |}.

(** [this.config.task === s] *)
Definition task_is (c : Config) (s : string) : bool :=
  match task c with
  | VStr t => String.eqb t s
  | _ => false
  end.

(** The configuration that the constructor writes, lines 531-547;
    [options] is the object given by the caller. *)
Definition initialConfig (options : list (string * value)) : Config :=
  let opt := get_prop options in
  {| task := or_else (opt "task") DEFAULTS.task;
     debug := or_else (opt "debug") DEFAULTS.debug;
     activationHidden := or_else (opt "activationHidden") DEFAULTS.activationHidden;
     activationOutput := or_else (opt "activationOutput") DEFAULTS.activationOutput;
     inputUnits := or_else (opt "inputs") DEFAULTS.inputUnits;
     outputUnits := or_else (opt "outputs") DEFAULTS.outputUnits;
     noVal := or_else (opt "noVal") (opt "outputs");
     hiddenUnits := or_else (opt "hiddenUnits") DEFAULTS.hiddenUnits;
     learningRate := or_else (opt "outputs") DEFAULTS.learningRate;
     modelMetrics := or_else (opt "modelMetrics") DEFAULTS.modelMetrics;
     modelLoss := or_else (opt "modelLoss") DEFAULTS.modelLoss;
     modelOptimizer := or_else (opt "modelOptimizer") DEFAULTS.modelOptimizer;
     batchSize := or_else (opt "batchSize") DEFAULTS.batchSize;
     epochs := or_else (opt "epochs") DEFAULTS.epochs;
     inputKeys := None;
     outputKeys := None |}.

Section Construction.

(** The tensor library is not among the sources.  [tf.layers.dense],
    [model.add] and [model.compile] validate what they are given and throw
    on what they refuse (units that are not a positive integer, an
    activation or a loss that the library does not know): from the
    description of the two layers and of the compilation, [tf_build] is the
    model, or the exception of the first call that refuses.  The class is
    defined for any such function. *)
Variable tf_build : Model -> result Model.

(** [createModelInternal], lines 587-619 (the model summary shown in debug
    mode is a display only). *)
Definition createModelInternal (c : Config) : result Model :=
  tf_build (Sequential (hiddenUnits c) (VArr [inputUnits c]) (activationHidden c)
                       (outputUnits c) (activationOutput c)
                       (modelOptimizer c) (modelLoss c) (modelMetrics c)).

(** [createModel], lines 561-581: the configuration as the method leaves it
    and the model it returns. *)
Definition createModel (c : Config) : result (Config * Model) :=
  if task_is c "regression" then
    let c' := set_modelOptimizer c (tf_train_sgd (learningRate c)) in
    m <- createModelInternal c' ;;
    Ok (c', m)
  else if task_is c "classification" then
    let c' := set_classification c in
    m <- createModelInternal c' ;;
    Ok (c', m)
  else Ok (c, EmptySequential).

(** The constructor, lines 528-555: the instance, or the exception of the
    tensor library. *)
Definition constructor (options : list (string * value)) : result Instance :=
  cm <- createModel (initialConfig options) ;;
  Ok {| config := fst cm; model := snd cm; data_xs := []; data_ys := [] |}.

End Construction.

(** A tensor library for the examples: it refuses the layers whose units
    are not a positive integer, and builds the model of any other
    description. *)
Definition checked_build (m : Model) : result Model :=
  match m with
  | Sequential hidden_units _ _ output_units _ _ _ _ =>
      if positive_integer hidden_units && positive_integer output_units then Ok m
      else Throw ValueError
  | EmptySequential => Ok m
  end.

(** The instance of an example, whose options the library accepts. *)
Definition built (r : result Instance) : Instance :=
  match r with
  | inr this => this
  | inl _ => {| config := initialConfig []; model := EmptySequential;
                data_xs := []; data_ys := [] |}
  end.

(** *** Tensors *)

(** A tensor, flattened: its elements are binary32 numbers (dtype
    [float32]) or 32-bit integers (dtype [int32]).  A scalar is what [max]
    and [min] return. *)
Inductive tensor : Type :=
| Float32 (cells : list num)
| Int32 (cells : list Z).

Inductive scalar : Type :=
| F32 (x : num)
| I32 (z : Z).

(** The conversion of a number to an element of an [int32] tensor. *)
Definition ToInt32 (n : num) : Z :=
  match n with
  | Fin q => ((Z.quot (Qnum q) (Zpos (Qden q)) + 2 ^ 31) mod 2 ^ 32 - 2 ^ 31)%Z
  | _ => 0%Z
  end.

(** An integer stored into an [int32] tensor. *)
Definition wrap32 (z : Z) : Z := ((z + 2 ^ 31) mod 2 ^ 32 - 2 ^ 31)%Z.

(** The cast of an [int32] element to [float32]. *)
Definition to_float32 (z : Z) : num := round32 (Fin (inject_Z z)).

Definition float_cells (t : tensor) : list num :=
  match t with
  | Float32 cells => cells
  | Int32 cells => map to_float32 cells
  end.

Definition float_scalar (s : scalar) : num :=
  match s with
  | F32 x => x
  | I32 z => to_float32 z
  end.

Definition size (t : tensor) : nat :=
  match t with
  | Float32 cells => List.length cells
  | Int32 cells => List.length cells
  end.

(** [tf.tensor(values)] on numbers, and [tf.tensor1d(values, 'int32')]. *)
Definition tf_tensor (values : list num) : tensor := Float32 (map round32 values).
Definition tf_tensor1d_int32 (values : list num) : list Z := map ToInt32 values.

(** The maximum and the minimum of binary32 numbers; [NaN] wins, and on no
    number at all the result is [NaN]. *)
Definition reduce_max (cells : list num) : num :=
  match cells with
  | [] => NaN
  | _ :: _ => fold_right nmax NInf cells
  end.

Definition reduce_min (cells : list num) : num :=
  match cells with
  | [] => NaN
  | _ :: _ => fold_right nmin PInf cells
  end.

(** [t.max()] and [t.min()] over all the elements of a tensor.  The
    [NaN] of an empty tensor is stored as 0 in an [int32] result. *)
Definition tensor_max (t : tensor) : scalar :=
  match t with
  | Float32 cells => F32 (reduce_max cells)
  | Int32 [] => I32 0
  | Int32 (z :: cells) => I32 (fold_right Z.max z cells)
  end.

Definition tensor_min (t : tensor) : scalar :=
  match t with
  | Float32 cells => F32 (reduce_min cells)
  | Int32 [] => I32 0
  | Int32 (z :: cells) => I32 (fold_right Z.min z cells)
  end.

(** The quotient of two [int32] elements: [Math.floor(x / z)] stored as an
    integer, which makes 0 of the [NaN] and of the infinities of a division
    by zero. *)
Definition floorDiv (x z : Z) : Z :=
  if (z =? 0)%Z then 0%Z else wrap32 (x / z).

(** [t.sub(s)] and [t.div(s)] for a scalar [s].  Two [int32] operands give
    an [int32] result, and [div] is then the floored division; any other
    pair is computed in [float32]. *)
Definition sub (t : tensor) (s : scalar) : tensor :=
  match t, s with
  | Int32 cells, I32 z => Int32 (map (fun x => wrap32 (x - z)) cells)
  | _, _ => Float32 (map (fun x => sub32 x (float_scalar s)) (float_cells t))
  end.

Definition div (t : tensor) (s : scalar) : tensor :=
  match t, s with
  | Int32 cells, I32 z => Int32 (map (fun x => floorDiv x z) cells)
  | _, _ => Float32 (map (fun x => div32 x (float_scalar s)) (float_cells t))
  end.

(** [a.sub(b)] for two scalars. *)
Definition sub_scalar (a b : scalar) : scalar :=
  match a, b with
  | I32 x, I32 z => I32 (wrap32 (x - z))
  | _, _ => F32 (sub32 (float_scalar a) (float_scalar b))
  end.

(** [tf.oneHot(indices, depth)], flattened, of dtype [int32]; the library
    refuses a depth under 2. *)
Definition oneHot_row (depth : nat) (i : Z) : list Z :=
  map (fun j => if (Z.of_nat j =? i)%Z then 1%Z else 0%Z) (seq 0 depth).

Definition tf_oneHot (indices : list Z) (depth : value) : result tensor :=
  match depth with
  | VNum (Fin q) =>
      if ((Zpos (Qden q) =? 1) && (2 <=? Qnum q))%Z
      then Ok (Int32 (flat_map (oneHot_row (Z.to_nat (Qnum q))) indices))
      else Throw TensorShapeError
  | _ => Throw TensorShapeError
  end.

(** [t.reshape([rows, cols])]: the sizes must agree. *)
Definition tf_reshape (t : tensor) (rows : nat) (cols : value) : result tensor :=
  match cols with
  | VNum (Fin q) =>
      if ((Zpos (Qden q) =? 1) &&
          (Z.of_nat (size t) =? Z.of_nat rows * Qnum q))%Z
      then Ok t
      else Throw TensorShapeError
  | _ => Throw TensorShapeError
  end.

(** *** [normalize] *)

(** An item of the loaded data: the features [xs] and the labels [ys], as
    [tf.data.csv] yields them for numeric columns. *)
Record Item : Type := {
  xs : list (string * num);
  ys : list (string * num)
}.

(** [d.xs[header]] placed in a tensor: a missing cell is [NaN]. *)
Definition cell (o : list (string * num)) (k : string) : num :=
  match own_property o k with Some n => n | None => NaN end.

(** What [normalize] returns: the two tensors (flattened) and the bounds. *)
Record Normalized : Type := {
  inputs : tensor;
  targets : tensor;
  inputMax : scalar;
  inputMin : scalar;
  targetMax : scalar;
  targetMin : scalar
}.

(** [data.map(d => d.ys[outputLabel])] *)
Definition targetColumn (outputKeys : list string) (data : list Item) : list num :=
  let outputLabel := match outputKeys with k :: _ => k | [] => "undefined" end in
  map (fun d => cell (ys d) outputLabel) data.

(** [normalize], lines 692-737. *)
Definition normalize (this : Instance) (data : list Item) : result Normalized :=
  match outputKeys (config this), inputKeys (config this) with
  | Some outputKeys, Some inputLabels =>
      let inputs := map (fun header => map (fun d => cell (xs d) header) data) inputLabels in
      let targets := targetColumn outputKeys data in
      let inputTensor := tf_tensor (List.concat inputs) in
      outputTensor <-
        (if task_is (config this) "classification"
         then tf_oneHot (tf_tensor1d_int32 targets) (noVal (config this))
         else Ok (tf_tensor targets)) ;;
      let inputMax := tensor_max inputTensor in
      let inputMin := tensor_min inputTensor in
      let targetMax := tensor_max outputTensor in
      let targetMin := tensor_min outputTensor in
      normalizedInputs <-
        tf_reshape
          (div (sub inputTensor targetMin) (sub_scalar targetMax inputMin))
          (List.length data) (inputUnits (config this)) ;;
      let normalizedOutputs :=
        div (sub outputTensor targetMin) (sub_scalar targetMax targetMin) in
      match inputLabels with
      | [] => Throw TensorShapeError
      | _ :: _ =>
          Ok {| inputs := normalizedInputs;
                targets := normalizedOutputs;
                inputMax := inputMax;
                inputMin := inputMin;
                targetMax := targetMax;
                targetMin := targetMin |}
      end
  | _, _ => Throw TypeError
  end.

(** The instance after [loadDataInternal] recorded the keys. *)
Definition with_keys (this : Instance) (ik ok : list string) : Instance :=
  {| config :=
       {| task := task (config this); debug := debug (config this);
          activationHidden := activationHidden (config this);
          activationOutput := activationOutput (config this);
          inputUnits := inputUnits (config this);
          outputUnits := outputUnits (config this); noVal := noVal (config this);
          hiddenUnits := hiddenUnits (config this);
          learningRate := learningRate (config this);
          modelMetrics := modelMetrics (config this);
          modelLoss := modelLoss (config this);
          modelOptimizer := modelOptimizer (config this);
          batchSize := batchSize (config this); epochs := epochs (config this);
          inputKeys := Some ik; outputKeys := Some ok |};
     model := model this;
     data_xs := data_xs this;
     data_ys := data_ys this |}.

(** *** A scenario *)

(** A regression on one input [x] and one output [y], after the keys were
    recorded. *)
Definition xyNet : Instance :=
  with_keys (built (constructor checked_build
                      [("inputs", VNum (Fin 1)); ("outputs", VNum (Fin 1))]))
            ["x"] ["y"].

Definition item (x y : Z) : Item :=
  {| xs := [("x", Fin (inject_Z x))]; ys := [("y", Fin (inject_Z y))] |}.

(** What [normalize] returns on the items (1, 10) and (2, 20). *)
Definition scaled : Normalized :=
  {| inputs := Float32 [Fin (-15894205 # 33554432); Fin (-7064091 # 16777216)];
     targets := Float32 [Fin 0; Fin 1];
     inputMax := F32 (Fin 2);
     inputMin := F32 (Fin 1);
     targetMax := F32 (Fin 20);
     targetMin := F32 (Fin 10) |}.

End LegacyNeuralNetwork.

(* ================================================================== *)
(** ** The wrapper class: [DiyNeuralNetwork] *)
(* ================================================================== *)

Module DiyNeuralNetwork.
Import JS.

(** An item of [neuralNetworkData.data.raw]. *)
Record RawRecord : Type := {
  xs : list (string * value);
  ys : list (string * value)
}.

(** The descriptor of a column; [min] and [max] are those that
    [summarizeData] adds. *)
Record ColumnMeta : Type := {
  dtype : string;
  min : option num;
  max : option num;
  legend : option (list (string * list num))
}.

Definition Columns : Type := list (string * ColumnMeta).

Record Meta : Type := {
  inputs : Columns;
  outputs : Columns;
  inputUnits : nat;
  outputUnits : nat
}.

(** An encoded item, as kept in [this.data.training]. *)
Record EncodedRecord : Type := {
  encoded_xs : list num;
  encoded_ys : list num
}.

(** [this.neuralNetworkData]: the fields that the wrapper reads and
    writes. *)
Record NeuralNetworkData : Type := {
  data_raw : list RawRecord;
  meta : Meta
}.

(** The argument of [loadDataInternal]. *)
Record Options : Type := {
  dataUrl : value;
  opt_inputs : value;
  opt_outputs : value
}.

(** The instance, and the lines written to the console. *)
Record Instance : Type := {
  neuralNetworkData : NeuralNetworkData;
  training : list EncodedRecord;
  console : list string
}.

(** Modelled from the spec: the class [NeuralNetworkData] is not among the
    sources; these are its methods that the wrapper calls.  Sections 4.1 to
    4.3 and 6 of the specification describe them: the loaders replace the raw
    data set or fail, and schema inference, the statistics pass and the
    encoding pass are pure functions of their arguments that may fail. *)
Class NeuralNetworkDataOps : Type := {
  loadCSV : string -> value -> value -> NeuralNetworkData -> result NeuralNetworkData;
  loadJSON : string -> value -> value -> NeuralNetworkData -> result NeuralNetworkData;
  loadBlob : string -> value -> value -> NeuralNetworkData -> result NeuralNetworkData;
  data_createMetaDataFromData : list RawRecord -> result Meta;
  getRawStats : list RawRecord -> Columns -> string -> result Columns;
  applyOneHotEncodingsToDataRaw : list RawRecord -> Meta -> result (list EncodedRecord)
}.

(** *** Methods: state and exceptions

    A method runs on the instance and either returns or throws; what it wrote
    before throwing stays written. *)
Definition M (A : Type) : Type := Instance -> result A * Instance.

Definition ret {A : Type} (a : A) : M A := fun s => (Ok a, s).

Definition bind {A B : Type} (m : M A) (k : A -> M B) : M B :=
  fun s =>
    match m s with
    | (inl e, s') => (inl e, s')
    | (inr a, s') => k a s'
    end.

Definition throw {A : Type} (e : js_error) : M A := fun s => (Throw e, s).

Definition lift {A : Type} (r : result A) : M A := fun s => (r, s).

Definition gets {A : Type} (f : Instance -> A) : M A := fun s => (Ok (f s), s).

Definition modify (f : Instance -> Instance) : M unit := fun s => (Ok tt, f s).

Notation "x <- e ;; k" := (bind e (fun x => k))
  (at level 100, e at next level, right associativity, only parsing).
Notation "e ;; k" := (bind e (fun _ => k))
  (at level 100, right associativity, only parsing).

Definition set_neuralNetworkData (d : NeuralNetworkData) (s : Instance) : Instance :=
  {| neuralNetworkData := d; training := training s; console := console s |}.

Definition set_meta (m : Meta) (s : Instance) : Instance :=
  set_neuralNetworkData {| data_raw := data_raw (neuralNetworkData s); meta := m |} s.

Definition set_training (t : list EncodedRecord) (s : Instance) : Instance :=
  {| neuralNetworkData := neuralNetworkData s; training := t; console := console s |}.

Definition console_log (line : string) : M unit :=
  modify (fun s => {| neuralNetworkData := neuralNetworkData s;
                      training := training s;
                      console := console s ++ [line] |}).

(** [s.endsWith(suffix)] and [s.includes(part)] *)
Fixpoint endsWith (s suffix : string) : bool :=
  String.eqb s suffix ||
  match s with
  | EmptyString => false
  | String _ s' => endsWith s' suffix
  end.

Fixpoint includes (s part : string) : bool :=
  String.prefix part s ||
  match s with
  | EmptyString => false
  | String _ s' => includes s' part
  end.

Section Methods.
Context {ops : NeuralNetworkDataOps}.

(** A call of a loader: it is awaited, and replaces the data it loaded. *)
Definition await_load
    (load : NeuralNetworkData -> result NeuralNetworkData) : M unit :=
  d <- gets neuralNetworkData ;;
  d' <- lift (load d) ;;
  modify (set_neuralNetworkData d').

(** An optional argument: [null] stands for the field of the instance. *)
Definition or_default {A : Type} (arg : option A) (field : Instance -> A) : M A :=
  match arg with
  | Some a => ret a
  | None => gets field
  end.

(** [createMetaDataFromData], lines 88-94. *)
Definition createMetaDataFromData (_dataRaw : option (list RawRecord)) : M Meta :=
  dataRaw <- or_default _dataRaw (fun s => data_raw (neuralNetworkData s)) ;;
  meta <- lift (data_createMetaDataFromData dataRaw) ;;
  modify (set_meta meta) ;;
  ret meta.

(** [summarizeData], lines 102-113. *)
Definition summarizeData (_dataRaw : option (list RawRecord)) (_meta : option Meta)
  : M Meta :=
  dataRaw <- or_default _dataRaw (fun s => data_raw (neuralNetworkData s)) ;;
  meta_ <- or_default _meta (fun s => meta (neuralNetworkData s)) ;;
  inputMeta <- lift (getRawStats dataRaw (inputs meta_) "xs") ;;
  outputMeta <- lift (getRawStats dataRaw (outputs meta_) "ys") ;;
  modify (fun s =>
            let m := meta (neuralNetworkData s) in
            set_meta {| inputs := inputMeta; outputs := outputs m;
                        inputUnits := inputUnits m; outputUnits := outputUnits m |} s) ;;
  modify (fun s =>
            let m := meta (neuralNetworkData s) in
            set_meta {| inputs := inputs m; outputs := outputMeta;
                        inputUnits := inputUnits m; outputUnits := outputUnits m |} s) ;;
  gets (fun s => meta (neuralNetworkData s)).

(** [warmUp], lines 120-139.  A [_meta] left out is the object
    [this.neuralNetworkData.meta] itself, so the encoding reads it as
    [summarizeData] updated it; a [_meta] given is read as it was given. *)
Definition warmUp (_dataRaw : option (list RawRecord)) (_meta : option Meta)
  : M (Meta * list EncodedRecord) :=
  dataRaw <- or_default _dataRaw (fun s => data_raw (neuralNetworkData s)) ;;
  meta0 <- or_default _meta (fun s => meta (neuralNetworkData s)) ;;
  updatedMeta <- summarizeData (Some dataRaw) (Some meta0) ;;
  meta <- or_default _meta (fun s => meta (neuralNetworkData s)) ;;
  encodedData <- lift (applyOneHotEncodingsToDataRaw dataRaw meta) ;;
  modify (set_training encodedData) ;;
  ret (updatedMeta, encodedData).

(** [loadDataInternal], lines 60-81. *)
Definition loadDataInternal (options : Options) : M unit :=
  match dataUrl options with
  | VStr url =>
      (if endsWith url ".csv" then
         await_load (loadCSV url (opt_inputs options) (opt_outputs options))
       else if endsWith url ".json" then
         await_load (loadJSON url (opt_inputs options) (opt_outputs options))
       else if includes url "blob" then
         await_load (loadBlob url (opt_inputs options) (opt_outputs options))
       else console_log "Not a valid data format. Must be csv or json") ;;
      createMetaDataFromData None ;;
      warmUp None None ;;
      ret tt
  | _ => throw TypeError
  end.

(** Schema inference followed by the statistics pass, on the same raw
    data. *)
Definition inferAndSummarize (dataRaw : list RawRecord) : M Meta :=
  createMetaDataFromData (Some dataRaw) ;;
  summarizeData (Some dataRaw) None.

(** What the two passes compute from the raw data alone: the columns with
    their statistics, and the widths of schema inference. *)
Definition summary (dataRaw : list RawRecord) : result Meta :=
  rbind (data_createMetaDataFromData dataRaw) (fun m =>
  rbind (getRawStats dataRaw (inputs m) "xs") (fun inputMeta =>
  rbind (getRawStats dataRaw (outputs m) "ys") (fun outputMeta =>
  Ok {| inputs := inputMeta; outputs := outputMeta;
        inputUnits := inputUnits m; outputUnits := outputUnits m |}))).

End Methods.

End DiyNeuralNetwork.

(* ================================================================== *)
(** ** A [NeuralNetworkData] after the specification *)
(* ================================================================== *)

Module SpecModel.
Import JS DiyNeuralNetwork.

Section Pipeline.
Context {rt : Runtime}.

(** A value is missing when it is [undefined] or [null]. *)
Definition present (v : value) : bool :=
  match v with
  | VUndef | VNull => false
  | _ => true
  end.

(** The side of a record that a column lives on: ["xs"] or ["ys"]. *)
Definition side (which : string) (r : RawRecord) : list (string * value) :=
  if String.eqb which "ys" then ys r else xs r.

Definition column_values (which : string) (raw : list RawRecord) (name : string)
  : list value :=
  map (fun r => get_prop (side which r) name) raw.

(** The columns are those of the first record. *)
Definition column_names (which : string) (raw : list RawRecord) : list string :=
  match raw with
  | [] => []
  | r :: _ => map fst (side which r)
  end.

(** Modelled from the spec: section 4.1, "the type of the first non-missing
    value" decides between numeric and categorical. *)
Definition infer_dtype (vs : list value) : string :=
  match find present vs with
  | Some (VNum _) => "number"
  | _ => "string"
  end.

(** Modelled from the spec: section 4.1, "the vocabulary is the set of
    distinct observed values in first-seen order". *)
Fixpoint distinct (seen l : list string) : list string :=
  match l with
  | [] => []
  | x :: l' =>
      if existsb (String.eqb x) seen then distinct seen l'
      else x :: distinct (x :: seen) l'
  end.

Definition vocabulary (vs : list value) : list string :=
  distinct [] (map ToString (filter present vs)).

(** Modelled from the spec: section 4.3, a one-hot vector of the length of
    the vocabulary, "1.0 at the index of value, 0 elsewhere". *)
Definition one_hot (n i : nat) : list num :=
  map (fun j => if Nat.eqb j i then Fin 1 else Fin 0) (seq 0 n).

Definition legend_of (vocab : list string) : list (string * list num) :=
  map (fun il => (snd il, one_hot (List.length vocab) (fst il)))
      (combine (seq 0 (List.length vocab)) vocab).

Definition infer_column (which : string) (raw : list RawRecord) (name : string)
  : string * ColumnMeta :=
  let vs := column_values which raw name in
  let dt := infer_dtype vs in
  (name, {| dtype := dt;
            min := None;
            max := None;
            legend := if String.eqb dt "string"
                      then Some (legend_of (vocabulary vs)) else None |}).

(** Modelled from the spec: section 3, the width of a column is 1 when it is
    numeric and the size of its vocabulary when it is categorical. *)
Definition column_width (cm : ColumnMeta) : nat :=
  match legend cm with
  | Some lg => List.length lg
  | None => 1%nat
  end.

Definition total_width (cols : Columns) : nat :=
  list_sum (map (fun c => column_width (snd c)) cols).

(** Modelled from the spec: section 4.1, schema inference. *)
Definition spec_createMetaDataFromData (raw : list RawRecord) : result Meta :=
  let ins := map (infer_column "xs" raw) (column_names "xs" raw) in
  let outs := map (infer_column "ys" raw) (column_names "ys" raw) in
  Ok {| inputs := ins; outputs := outs;
        inputUnits := total_width ins; outputUnits := total_width outs |}.

(** Modelled from the spec: section 4.2, the statistics pass records the
    minimum and the maximum of every numeric column over all the rows. *)
Definition spec_getRawStats (raw : list RawRecord) (cols : Columns) (which : string)
  : result Columns :=
  Ok (map (fun c =>
             if String.eqb (dtype (snd c)) "number" then
               let ns := map ToNumber (column_values which raw (fst c)) in
               (fst c, {| dtype := dtype (snd c);
                          min := Some (fold_right nmin PInf ns);
                          max := Some (fold_right nmax NInf ns);
                          legend := legend (snd c) |})
             else c)
          cols).

(** Modelled from the spec: section 2, stage 3, the encoding pass lets a
    numeric value through and expands a categorical value into the one-hot
    vector of its label; section 4.3 names the failure on a value that the
    vocabulary does not hold. *)
Definition encode_cell (v : value) (c : string * ColumnMeta) : result (list num) :=
  match legend (snd c) with
  | None => Ok [ToNumber v]
  | Some lg =>
      match own_property lg (ToString v) with
      | Some onehot => Ok onehot
      | None => Throw ValueNotInVocabulary
      end
  end.

Fixpoint encode_side (r : list (string * value)) (cols : Columns) : result (list num) :=
  match cols with
  | [] => Ok []
  | c :: cols' =>
      rbind (encode_cell (get_prop r (fst c)) c) (fun cells =>
      rbind (encode_side r cols') (fun rest => Ok (cells ++ rest)))
  end.

Fixpoint spec_encode (raw : list RawRecord) (m : Meta) : result (list EncodedRecord) :=
  match raw with
  | [] => Ok []
  | r :: raw' =>
      rbind (encode_side (xs r) (inputs m)) (fun ex =>
      rbind (encode_side (ys r) (outputs m)) (fun ey =>
      rbind (spec_encode raw' m) (fun rest =>
      Ok ({| encoded_xs := ex; encoded_ys := ey |} :: rest))))
  end.

(** Modelled from the spec: section 6, a loader "returns the ordered raw
    dataset or fails with LoadError"; [world] tells what each locator
    holds. *)
Definition spec_load (world : string -> option (list RawRecord))
    (url : string) (_ _ : value) (d : NeuralNetworkData) : result NeuralNetworkData :=
  match world url with
  | Some rows => Ok {| data_raw := rows; meta := meta d |}
  | None => Throw LoadError
  end.

Definition spec_ops (world : string -> option (list RawRecord)) : NeuralNetworkDataOps :=
  {| loadCSV := spec_load world;
     loadJSON := spec_load world;
     loadBlob := spec_load world;
     data_createMetaDataFromData := spec_createMetaDataFromData;
     getRawStats := spec_getRawStats;
     applyOneHotEncodingsToDataRaw := spec_encode |}.

End Pipeline.

(** A world with one data set, the scenario of section 8 of the
    specification. *)
Definition colorSize : list RawRecord :=
  [{| xs := [("color", VStr "red")]; ys := [("size", VNum (Fin 3))] |};
   {| xs := [("color", VStr "blue")]; ys := [("size", VNum (Fin 5))] |}].

Definition smallWorld (url : string) : option (list RawRecord) :=
  if String.eqb url "colors.csv" then Some colorSize else None.

Definition emptyMeta : Meta :=
  {| inputs := []; outputs := []; inputUnits := 0; outputUnits := 0 |}.

(** A fresh instance. *)
Definition fresh : Instance :=
  {| neuralNetworkData := {| data_raw := []; meta := emptyMeta |};
     training := [];
     console := [] |}.

(** The pipeline of the specification over that world, with the runtime of
    the examples. *)
Definition small_ops : NeuralNetworkDataOps :=
  @spec_ops integer_runtime smallWorld.

End SpecModel.

(* ================================================================== *)
(** ** Scenarios *)
(* ================================================================== *)

Module Scenarios.
Import JS NeuralNetwork.

Definition int (z : Z) : num := Fin (inject_Z z).

(** A model that answers every input with the given activations. *)
Definition constant_model (ys : list num) : list num -> list num := fun _ => ys.

(** One categorical input [color] with the vocabulary [red], [blue]. *)
Definition colorLegend : list (string * list num) :=
  [("red", [int 1; int 0]); ("blue", [int 0; int 1])].

Definition colorNet : Instance :=
  {| task := "classification";
     config_inputs := ["color"];
     meta := {| inputs := [("color", {| dtype := "string"; legend := Some colorLegend |})];
                outputs := [("kind", {| dtype := "string"; legend := Some colorLegend |})];
                inputUnits := 2;
                outputUnits := 2 |};
     inputMin := Some [];
     inputMax := Some [];
     outputMin := Some [];
     outputMax := Some [];
     model_predict := constant_model [int 0; int 1] |}.

(** One numeric input [x] whose training rows all held 7, and one numeric
    output [y] between 3 and 5. *)
Definition constantNet : Instance :=
  {| task := "regression";
     config_inputs := ["x"];
     meta := {| inputs := [("x", {| dtype := "number"; legend := None |})];
                outputs := [("y", {| dtype := "number"; legend := None |})];
                inputUnits := 1;
                outputUnits := 1 |};
     inputMin := Some [int 7];
     inputMax := Some [int 7];
     outputMin := Some [int 3];
     outputMax := Some [int 5];
     model_predict := constant_model [Fin (1 # 2)] |}.


(** Three labels, two of which receive the same activation. *)
Definition tieLegend : list (string * list num) :=
  [("a", [int 1; int 0; int 0]);
   ("b", [int 0; int 1; int 0]);
   ("c", [int 0; int 0; int 1])].

Definition tieNet : Instance :=
  {| task := "classification";
     config_inputs := ["x"];
     meta := {| inputs := [("x", {| dtype := "number"; legend := None |})];
                outputs := [("kind", {| dtype := "string"; legend := Some tieLegend |})];
                inputUnits := 1;
                outputUnits := 3 |};
     inputMin := Some [int 0];
     inputMax := Some [int 10];
     outputMin := Some [];
     outputMax := Some [];
     model_predict := constant_model [Fin (1 # 4); Fin (1 # 2); Fin (1 # 4)] |}.



(** A categorical and a numeric input; the meta data iterate [color] first,
    the configuration lists [size] first. *)
Definition mixedNet : Instance :=
  {| task := "regression";
     config_inputs := ["size"; "color"];
     meta := {| inputs := [("color", {| dtype := "string"; legend := Some colorLegend |});
                           ("size", {| dtype := "number"; legend := None |})];
                outputs := [("y", {| dtype := "number"; legend := None |})];
                inputUnits := 3;
                outputUnits := 1 |};
     inputMin := Some [int 3; NaN];
     inputMax := Some [int 5; NaN];
     outputMin := Some [int 3];
     outputMax := Some [int 5];
     model_predict := constant_model [Fin (1 # 2)] |}.


End Scenarios.

(* ================================================================== *)
(** ** The rest of [NeuralNetwork]: notions for its properties *)
(* ================================================================== *)

Module NeuralNetworkRest.
Import JS NeuralNetwork.

(** The columns that [encodeColumn] encodes: those of dtype ['number'] or
    ['string']. *)
Definition encoded_dtype (arr : string * ColumnMeta) : bool :=
  String.eqb (dtype (snd arr)) "number" || String.eqb (dtype (snd arr)) "string".

(** An instance with other input columns. *)
Definition with_inputs (this : Instance) (cols : list (string * ColumnMeta)) : Instance :=
  {| task := task this;
     config_inputs := config_inputs this;
     meta := {| inputs := cols;
                outputs := outputs (meta this);
                inputUnits := inputUnits (meta this);
                outputUnits := outputUnits (meta this) |};
     inputMin := inputMin this;
     inputMax := inputMax this;
     outputMin := outputMin this;
     outputMax := outputMax this;
     model_predict := model_predict this |}.

(** A classification whose output column is numeric: it has no legend. *)
Definition numericOutputNet : Instance :=
  {| task := "classification";
     config_inputs := ["x"];
     meta := {| inputs := [("x", {| dtype := "number"; legend := None |})];
                outputs := [("y", {| dtype := "number"; legend := None |})];
                inputUnits := 1;
                outputUnits := 1 |};
     inputMin := Some [Fin 0];
     inputMax := Some [Fin 10];
     outputMin := Some [Fin 0];
     outputMax := Some [Fin 1];
     model_predict := fun _ => [Fin (1 # 2)] |}.

End NeuralNetworkRest.

(* ================================================================== *)
(** ** More of the language: the [Array] constructor, [typeof], objects *)
(* ================================================================== *)

Module JSMore.
Import JS.

(** An exception: a [RangeError] of the runtime, or one of [js_error]. *)
Inductive exn : Type :=
| RangeError
| Js (e : js_error).

(** [new Array(x)]: a number must be an integer in [0, 2^32) and gives that
    many empty slots; any other value gives the array that holds it. *)
Definition new_Array (x : value) : exn + list value :=
  match x with
  | VNum (Fin q) =>
      if ((Zpos (Qden (Qred q)) =? 1) && (0 <=? Qnum (Qred q)) &&
          (Qnum (Qred q) <? 2 ^ 32))%Z
      then inr (repeat VUndef (Z.to_nat (Qnum (Qred q))))
      else inl RangeError
  | VNum _ => inl RangeError
  | v => inr [v]
  end.

(** [arr.fill(null).map((v, idx) => idx)] *)
Definition indices (arr : list value) : list value :=
  map (fun i => VNum (Fin (inject_Z (Z.of_nat i)))) (seq 0 (List.length arr)).

(** A value or a function, for the arguments that may be callbacks. *)
Inductive arg : Type :=
| Val (v : value)
| Fun (name : string).

(** [typeof a] *)
Definition typeof (a : arg) : string :=
  match a with
  | Fun _ => "function"
  | Val VUndef => "undefined"
  | Val (VBool _) => "boolean"
  | Val (VNum _) => "number"
  | Val (VStr _) => "string"
  | Val VNull | Val (VArr _) | Val (VObj _) => "object"
  end.

(** [ToBoolean] of an argument: a function is truthy. *)
Definition arg_truthy (a : arg) : bool :=
  match a with
  | Fun _ => true
  | Val v => truthy v
  end.

(** A property of an object whose properties may be functions:
    [undefined] when absent. *)
Definition get_arg (o : list (string * arg)) (k : string) : arg :=
  match own_property o k with Some a => a | None => Val VUndef end.

(** [o[k] = v] on the own properties of an object: a property that exists
    keeps its place. *)
Fixpoint assign {A : Type} (o : list (string * A)) (k : string) (v : A)
  : list (string * A) :=
  match o with
  | [] => [(k, v)]
  | (k', v') :: o' =>
      if String.eqb k' k then (k', v) :: o' else (k', v') :: assign o' k v
  end.

(** An object literal: its properties, and those of the objects it spreads,
    are assigned from left to right to an empty object. *)
Definition literal {A : Type} (props : list (string * A)) : list (string * A) :=
  fold_left (fun o kv => assign o (fst kv) (snd kv)) props [].

(** The property that the last assignment of [k] in [props] gave. *)
Definition last_assigned {A : Type} (props : list (string * A)) (k : string) : option A :=
  own_property (rev props) k.

End JSMore.

(* ================================================================== *)
(** ** The configuration of the class and the options of its training *)
(* ================================================================== *)

Module NeuralNetworkSetup.
Import JS JSMore.

(** What a property of [this.config] holds: a value or a function as the
    options or the defaults gave it, what a factory of the tensor library
    ([tf.train.adam], [tf.train.sgd]) made of its argument, an array, or an
    object. *)
#[local] Set Warnings "-register-all".
Inductive setting : Type :=
| Plain (a : arg)
| Made (factory : string) (argument : setting)
| Items (items : list setting)
| Group (props : list (string * setting)).

Definition setting_truthy (s : setting) : bool :=
  match s with
  | Plain a => arg_truthy a
  | _ => true
  end.

(** [o.k] on an object that holds settings: [undefined] when absent. *)
Definition get_setting (o : list (string * setting)) (k : string) : setting :=
  match own_property o k with Some s => s | None => Plain (Val VUndef) end.

(** [a || b], where [a] was read from the options. *)
Definition setting_or (a : arg) (b : setting) : setting :=
  if arg_truthy a then Plain a else b.

(** [s === str], for a string [str]. *)
Definition setting_is (s : setting) (str : string) : bool :=
  match s with
  | Plain (Val (VStr t)) => String.eqb t str
  | _ => false
  end.

Section Constructor.

(** The object that [./NeuralNetworkDefaults] exports; the module is not
    among the sources, and the object is any. *)
Variable DEFAULTS : list (string * arg).

(** [options.k || DEFAULTS.k] *)
Definition option_or_default (options : list (string * arg)) (k : string) : setting :=
  setting_or (get_arg options k) (Plain (get_arg DEFAULTS k)).

(** The constructor, lines 25-83: [this.config] and the lines on the
    console, for the options object [options].  The three inner objects are
    completed before the configuration is put together. *)
Definition constructor (options : list (string * arg))
  : list (string * setting) * list string :=
  let architecture :=
    [("task", option_or_default options "task");
     ("layers", Items []);
     ("activations", Items []);
     ("hiddenUnits", option_or_default options "hiddenUnits")] in
  let training :=
    [("batchSize", option_or_default options "batchSize");
     ("epochs", option_or_default options "epochs");
     ("learningRate", option_or_default options "learningRate");
     ("modelMetrics", option_or_default options "modelMetrics");
     ("modelLoss", option_or_default options "modelLoss");
     ("modelOptimizer", option_or_default options "modelOptimizer")] in
  let dataOptions :=
    [("dataUrl", setting_or (get_arg options "dataUrl") (Plain (Val VNull)));
     ("inputs", option_or_default options "inputs");
     ("outputs", option_or_default options "outputs");
     ("normalizationOptions",
      setting_or (get_arg options "normalizationOptions") (Plain (Val VNull)))] in
  let config architecture training :=
    [("debug", option_or_default options "debug");
     ("architecture", Group architecture);
     ("training", Group training);
     ("dataOptions", Group dataOptions)] in
  if setting_is (get_setting architecture "task") "regression" then
    let activationHidden := option_or_default options "activationHidden" in
    let activationOutput := option_or_default options "activationOutput" in
    let training :=
      assign training "modelOptimizer"
        (setting_or (get_arg options "modelOptimizer")
           (Made "tf.train.adam" (get_setting training "learningRate"))) in
    let architecture :=
      assign architecture "activations" (Items [activationHidden; activationOutput]) in
    (config architecture training, [])
  else if setting_is (get_setting architecture "task") "classification" then
    let activationHidden := option_or_default options "activationHidden" in
    let activationOutput :=
      setting_or (get_arg options "activationOutput") (Plain (Val (VStr "softmax"))) in
    let architecture :=
      assign architecture "activations" (Items [activationHidden; activationOutput]) in
    let training :=
      assign training "modelLoss"
        (setting_or (get_arg options "modelLoss")
           (Plain (Val (VStr "categoricalCrossentropy")))) in
    let training :=
      assign training "modelOptimizer"
        (setting_or (get_arg options "modelOptimizer")
           (Made "tf.train.sgd" (get_setting training "learningRate"))) in
    (config architecture training, [])
  else
    (config architecture training,
     ["task not defined. please set task: classification OR regression"]).

End Constructor.

(** A callback of [model.fit]: the visualisation of [this.vis.trainingVis()],
    or an object with the function [onEpochEnd]. *)
Inductive Callback : Type :=
| TrainingVis
| OnEpochEnd (f : arg).

(** The third argument of [model.fit]. *)
Record FitOptions : Type := {
  fit_shuffle : bool;
  fit_batchSize : setting;
  fit_epochs : setting;
  fit_validationSplit : num;
  fit_callbacks : list Callback
}.

Definition logAccuracy : arg :=
  Fun "(epoch, logs) => console.log(`Epoch: ${epoch} - accuracy: ${logs.loss.toFixed(3)}`)".

(** [trainInternal], lines 286-333: the options that [model.fit] is called
    with, for the configuration [config] and the properties of the options
    of the call. *)
Definition trainInternal (config : list (string * setting))
    (options : list (string * arg)) (whileTrainingCallback : arg) : FitOptions :=
  let batchSize := setting_or (get_arg options "batchSize") (get_setting config "batchSize") in
  let epochs := setting_or (get_arg options "epochs") (get_setting config "epochs") in
  let whileTraining :=
    if String.eqb (typeof whileTrainingCallback) "function"
    then whileTrainingCallback else logAccuracy in
  let modelFitCallbacks :=
    if setting_truthy (get_setting config "debug")
    then [TrainingVis; OnEpochEnd whileTraining]
    else [OnEpochEnd whileTraining] in
  {| fit_shuffle := true;
     fit_batchSize := batchSize;
     fit_epochs := epochs;
     fit_validationSplit := Fin (1 # 10);
     fit_callbacks := modelFitCallbacks |}.

(** Defaults and options for the examples. *)
Definition someDefaults : list (string * arg) :=
  [("task", Val (VStr "regression")); ("debug", Val (VBool false));
   ("batchSize", Val (VNum (Fin 64))); ("epochs", Val (VNum (Fin 32)));
   ("learningRate", Val (VNum (Fin (1 # 4))));
   ("modelLoss", Val (VStr "meanSquaredError"));
   ("activationHidden", Val (VStr "sigmoid")); ("activationOutput", Val (VStr "sigmoid"))].

Definition otherDefaults : list (string * arg) :=
  [("task", Val (VStr "regression")); ("debug", Val (VBool false));
   ("batchSize", Val (VNum (Fin 64))); ("epochs", Val (VNum (Fin 32)));
   ("learningRate", Val (VNum (Fin (1 # 4))));
   ("modelLoss", Val (VStr "absoluteDifference"));
   ("modelOptimizer", Fun "tf.train.momentum");
   ("activationHidden", Val (VStr "sigmoid")); ("activationOutput", Val (VStr "relu"))].

End NeuralNetworkSetup.

(* ================================================================== *)
(** ** The rest of the older class *)
(* ================================================================== *)

Module LegacyNeuralNetworkRest.
Import JS JSMore LegacyNeuralNetwork.

(** [x instanceof Object], for a value. *)
Definition instanceof_Object (v : value) : bool :=
  match v with
  | VArr _ | VObj _ => true
  | _ => false
  end.

(** The own properties of an array, read as an options object. *)
Definition array_props (elems : list value) : list (string * value) :=
  combine (map (fun i => NilZero.string_of_uint (Nat.to_uint i))
               (seq 0 (List.length elems)))
          elems ++
  [("length", VNum (Fin (inject_Z (Z.of_nat (List.length elems)))))].

Section Factory.

(** The tensor library, as for the constructor. *)
Variable tf_build : Model -> result Model.

(** The factory [neuralNetwork], lines 846-859. *)
Definition neuralNetwork (inputsOrOptions outputs : value) : result Instance :=
  match inputsOrOptions with
  | VObj props => constructor tf_build props
  | VArr elems => constructor tf_build (array_props elems)
  | _ => constructor tf_build [("input", inputsOrOptions); ("outputs", outputs)]
  end.

End Factory.

(** The options of [loadData]: the keys, when given, are arrays. *)
Record LoadOptions : Type := {
  dataUrl : value;
  opt_inputKeys : option (list value);
  opt_outputKeys : option (list value)
}.

(** [this.inputUnits] and [this.outputUnits]: the class assigns
    [this.config], [this.model] and [this.data] only, so both are
    [undefined]. *)
Definition this_inputUnits : value := VUndef.
Definition this_outputUnits : value := VUndef.

Definition set_inputKeys (this : Instance) (keys : list string) : Instance :=
  {| config :=
       {| task := task (config this); debug := debug (config this);
          activationHidden := activationHidden (config this);
          activationOutput := activationOutput (config this);
          inputUnits := inputUnits (config this);
          outputUnits := outputUnits (config this); noVal := noVal (config this);
          hiddenUnits := hiddenUnits (config this);
          learningRate := learningRate (config this);
          modelMetrics := modelMetrics (config this);
          modelLoss := modelLoss (config this);
          modelOptimizer := modelOptimizer (config this);
          batchSize := batchSize (config this); epochs := epochs (config this);
          inputKeys := Some keys; outputKeys := outputKeys (config this) |};
     model := model this;
     data_xs := data_xs this;
     data_ys := data_ys this |}.

Definition set_outputKeys (this : Instance) (keys : list string) : Instance :=
  {| config :=
       {| task := task (config this); debug := debug (config this);
          activationHidden := activationHidden (config this);
          activationOutput := activationOutput (config this);
          inputUnits := inputUnits (config this);
          outputUnits := outputUnits (config this); noVal := noVal (config this);
          hiddenUnits := hiddenUnits (config this);
          learningRate := learningRate (config this);
          modelMetrics := modelMetrics (config this);
          modelLoss := modelLoss (config this);
          modelOptimizer := modelOptimizer (config this);
          batchSize := batchSize (config this); epochs := epochs (config this);
          inputKeys := inputKeys (config this); outputKeys := Some keys |};
     model := model this;
     data_xs := data_xs this;
     data_ys := data_ys this |}.

Section Loading.
Context {rt : Runtime}.

(** [tf.data.csv(url, {columnConfigs: {[label]: {isLabel: true}}})] followed
    by [toArray()]: what the locator holds, split on the label column, or a
    failure. *)
Variable csv : value -> string -> result (list Item).

(** [options.keys || [...new Array(n).fill(null).map((v, idx) => idx)]] *)
Definition keys_or_default (given : option (list value)) (n : value)
  : exn + list value :=
  match given with
  | Some keys => inr keys
  | None =>
      match new_Array n with
      | inl e => inl e
      | inr arr => inr (indices arr)
      end
  end.

(** [loadDataInternal], lines 644-684 (the scatter plot of debug mode is a
    display only): the outcome and the instance as the method leaves it. *)
Definition loadDataInternal (this : Instance) (options : LoadOptions)
  : (exn + list Item) * Instance :=
  match keys_or_default (opt_inputKeys options) this_inputUnits with
  | inl e => (inl e, this)
  | inr inputKeys =>
      let this1 := set_inputKeys this (map ToPropertyKey inputKeys) in
      match keys_or_default (opt_outputKeys options)
              (VNum (ndiv (ToNumber this_outputUnits) (Fin 2))) with
      | inl e => (inl e, this1)
      | inr outputKeys =>
          let this2 := set_outputKeys this1 (map ToPropertyKey outputKeys) in
          let outputLabel := ToPropertyKey (value_at outputKeys 0) in
          match csv (dataUrl options) outputLabel with
          | inl e => (inl (Js e), this2)
          | inr data => (inr data, this2)
          end
      end
  end.

(** The argument of [loadData]: a locator or the options. *)
Inductive LoadArgument : Type :=
| Locator (url : string)
| Options (options : LoadOptions).

(** [loadData], lines 627-637. *)
Definition loadData (this : Instance) (optionsOrDataUrl : LoadArgument)
  : (exn + list Item) * Instance :=
  match optionsOrDataUrl with
  | Locator url =>
      loadDataInternal this
        {| dataUrl := VStr url; opt_inputKeys := None; opt_outputKeys := None |}
  | Options options => loadDataInternal this options
  end.

End Loading.

(** The numbers that [normalize] places in the tensor of the inputs. *)
Definition inputCells (inputLabels : list string) (data : list Item) : list num :=
  List.concat (map (fun header => map (fun d => cell (xs d) header) data) inputLabels).

(** A classification into three classes on one input, after the keys were
    recorded. *)
Definition classNet : Instance :=
  with_keys (built (constructor checked_build
                      [("task", VStr "classification"); ("inputs", VNum (Fin 1));
                       ("outputs", VNum (Fin 3))]))
            ["x"] ["y"].

(** What [normalize] returns for [classNet] on the items (1, 0) and
    (2, 2). *)
Definition hotScaled : Normalized :=
  {| inputs := Float32 [PInf; PInf];
     targets := Int32 [1; 0; 0; 0; 0; 1]%Z;
     inputMax := F32 (Fin 2);
     inputMin := F32 (Fin 1);
     targetMax := I32 1;
     targetMin := I32 0 |}.

(** One-hot cells are 0 or 1. *)
Definition bit (z : Z) : Prop := z = 0%Z \/ z = 1%Z.

(** A label is in range when it is one of the [depth] classes. *)
Definition in_range (depth : Z) (i : Z) : bool := ((0 <=? i) && (i <? depth))%Z.

Section Load.

(** The files given to [load], and [file.name]. *)
Variable File : Type.
Variable name : File -> string.

(** [load], lines 820-843, on files: the two files, [model] and [weights],
    that [tf.io.browserFiles] receives after the loop, [None] for
    [null]. *)
Definition pickFiles (files : list File) : option File * option File :=
  fold_left
    (fun picked file =>
       if DiyNeuralNetwork.includes (name file) ".json" then (Some file, snd picked)
       else if DiyNeuralNetwork.includes (name file) ".bin" then (fst picked, Some file)
       else picked)
    files (None, None).

End Load.

End LegacyNeuralNetworkRest.

(* ================================================================== *)
(** ** The rest of [DiyNeuralNetwork] *)
(* ================================================================== *)

Module DiyNeuralNetworkRest.
Import JS JSMore DiyNeuralNetwork.

(** [DEFAULTS], lines 6-11. *)
Definition DEFAULTS : list (string * value) :=
  [("inputs", VArr []); ("outputs", VArr []); ("dataUrl", VNull); ("task", VNull)].

(** [this.ready]: [true], or the promise of [loadData] with its outcome. *)
Inductive Ready : Type :=
| IsReady
| Loading (outcome : result unit).

(** The instance as the constructor leaves it. *)
Record Built : Type := {
  options : list (string * value);
  instance : Instance;
  ready : Ready
}.

(** [v !== null] *)
Definition not_null (v : value) : bool :=
  match v with
  | VNull => false
  | _ => true
  end.

Section Construction.
Context {ops : NeuralNetworkDataOps}.

(** What [new NeuralNetworkData()] holds. *)
Variable emptyData : NeuralNetworkData.

(** The constructor and [init], lines 14-44; [given] are the own properties
    of the options object. *)
Definition constructor (given : list (string * value)) : Built :=
  let options := literal (DEFAULTS ++ given) in
  let this := {| neuralNetworkData := emptyData; training := []; console := [] |} in
  if not_null (get_prop options "dataUrl") then
    let run := loadDataInternal
                 {| dataUrl := get_prop options "dataUrl";
                    opt_inputs := get_prop options "inputs";
                    opt_outputs := get_prop options "outputs" |} this in
    {| options := options; instance := snd run; ready := Loading (fst run) |}
  else {| options := options; instance := this; ready := IsReady |}.

End Construction.

(** *** Training *)

(** [train], lines 173-202: the options and the two callbacks that the
    three arguments stand for.  (The same lines open [train] of the generic
    class, lines 251-280 of [index.js].) *)
Definition trainArguments (optionsOrCallback optionsOrWhileTraining callback : arg)
  : arg * arg * arg :=
  if String.eqb (typeof optionsOrCallback) "object" &&
     String.eqb (typeof optionsOrWhileTraining) "function" &&
     String.eqb (typeof callback) "function"
  then (optionsOrCallback, optionsOrWhileTraining, callback)
  else if String.eqb (typeof optionsOrCallback) "object" &&
          String.eqb (typeof optionsOrWhileTraining) "function"
  then (optionsOrCallback, Val VNull, optionsOrWhileTraining)
  else if String.eqb (typeof optionsOrCallback) "function" &&
          String.eqb (typeof optionsOrWhileTraining) "function"
  then (Val (VObj []), optionsOrCallback, optionsOrWhileTraining)
  else (Val (VObj []), Val VNull, optionsOrCallback).

(** A layer made by [tf.layers.dense], with the options it was made
    from. *)
Inductive Layer : Type :=
| Dense (options : list (string * value)).

(** A property of the options given to [neuralNetwork.compile]: as the
    caller gave it, or the optimizer that
    [neuralNetwork.setOptimizerFunction(learningRate, optimizer)] made. *)
Inductive CompileOption : Type :=
| Given (a : arg)
| Optimizer (learningRate : arg) (optimizer : arg).

(** What a method does to its surroundings: the calls of
    [this.neuralNetwork], the conversion of the training data, the lines on
    the console. *)
Inductive Event : Type :=
| AddLayer (layer : Layer)
| Compile (options : list (string * CompileOption))
| Train (options : list (string * arg)) (finishedTrainingCb : arg)
| ConvertTrainingDataToTensors
| ConsoleLog (line : string).

(** [s.toLowerCase()] on the letters A-Z; the other characters of a task
    name are left as they are. *)
Definition lower_ascii (c : ascii) : ascii :=
  let n := nat_of_ascii c in
  if (65 <=? n)%nat && (n <=? 90)%nat then ascii_of_nat (n + 32) else c.

Fixpoint toLowerCase (s : string) : string :=
  match s with
  | EmptyString => EmptyString
  | String c s' => String (lower_ascii c) (toLowerCase s')
  end.

Definition unit_count (n : nat) : value := VNum (Fin (inject_Z (Z.of_nat n))).

(** A tensor library for the examples: its [tf.layers.dense] refuses units
    that are not a positive integer, and makes the layer of any other
    options. *)
Definition checked_dense (options : list (string * value)) : result Layer :=
  if positive_integer (get_prop options "units") then Ok (Dense options)
  else Throw ValueError.

Section Training.

(** [tf.layers.dense(options)].  The tensor library is not among the
    sources; it validates the options and throws on those it refuses (units
    that are not a positive integer, an activation it does not know).  The
    methods are defined for any such function. *)
Variable tf_layers_dense : list (string * value) -> result Layer.

(** [createDenseLayer], lines 371-380. *)
Definition createDenseLayer (_options : list (string * value)) : result Layer :=
  tf_layers_dense
    (literal ([("units", VNum (Fin 16)); ("activation", VStr "relu")] ++ _options)).

(** The two layers of a task, lines 261-268 and 272-279: each is made and
    then added, so a layer that the library refuses leaves the ones before it
    added. *)
Definition addTwoLayers (meta : Meta) (activation : string) : result unit * list Event :=
  match createDenseLayer [("inputShape", VArr [unit_count (inputUnits meta)])] with
  | inl e => (Throw e, [])
  | inr hidden =>
      match createDenseLayer [("units", unit_count (outputUnits meta));
                              ("activation", VStr activation)] with
      | inl e => (Throw e, [AddLayer hidden])
      | inr output => (Ok tt, [AddLayer hidden; AddLayer output])
      end
  end.

(** [addDefaultLayers], lines 253-285: the events, and the exception if
    any. *)
Definition addDefaultLayers (meta : Meta) (_task : value) : result unit * list Event :=
  match _task with
  | VStr task =>
      if String.eqb (toLowerCase task) "classification" then addTwoLayers meta "softmax"
      else if String.eqb (toLowerCase task) "regression" then addTwoLayers meta "sigmoid"
      else (Ok tt, [ConsoleLog "no imputUnits or outputUnits defined"])
  | _ => (Throw TypeError, [])
  end.

(** [this.options.task === s] *)
Definition task_is (task : value) (s : string) : bool :=
  match task with
  | VStr t => String.eqb t s
  | _ => false
  end.

(** An argument left out, [undefined], takes the default [null]. *)
Definition or_null (a : arg) : arg :=
  match a with
  | Val VUndef => Val VNull
  | _ => a
  end.

Definition is_null (a : arg) : bool :=
  match a with
  | Val VNull => true
  | _ => false
  end.

(** [compile], lines 292-320: the options that [neuralNetwork.compile]
    receives.  [_modelOptions] is [None] for [null]. *)
Definition compile (task : value) (_modelOptions : option (list (string * arg)))
    (_learningRate : arg) : list (string * CompileOption) :=
  let LEARNING_RATE :=
    if is_null (or_null _learningRate) then Val (VNum (Fin (1 # 4)))
    else _learningRate in
  let options :=
    match _modelOptions with
    | Some given => literal given
    | None =>
        if task_is task "classification" then
          [("loss", Val (VStr "categoricalCrossentropy"));
           ("optimizer", Fun "tf.train.sgd");
           ("metrics", Val (VArr [VStr "accuracy"]))]
        else if task_is task "regression" then
          [("loss", Val (VStr "meanSquaredError"));
           ("optimizer", Fun "tf.train.adam");
           ("metrics", Val (VArr [VStr "accuracy"]))]
        else []
    end in
  let optimizer :=
    if arg_truthy (get_arg options "optimizer")
    then Optimizer LEARNING_RATE (get_arg options "optimizer")
    else Optimizer LEARNING_RATE (Fun "tf.train.sgd") in
  assign (map (fun kv => (fst kv, Given (snd kv))) options) "optimizer" optimizer.

(** [predict], lines 323-338, and [classify], lines 340-354: the row that
    the tensor of the input is made of.  [Object.keys(meta.inputs)] lists
    the columns in the order of [inputs meta]. *)
Definition inputRow (meta : Meta) (_input : value) : list value :=
  match _input with
  | VArr items => items
  | VObj props => map (fun prop => get_prop props prop) (map fst (inputs meta))
  | _ => []
  end.

(** The defaults of [trainInternal], and its callback of the epochs when
    none is given. *)
Definition trainDefaults : list (string * arg) :=
  [("epochs", Val (VNum (Fin 10))); ("batchSize", Val (VNum (Fin 32)));
   ("validationSplit", Val (VNum (Fin (1 # 10))));
   ("whileTraining", Val VNull); ("compile", Val (VBool true))].

Definition logEpoch : arg := Fun "(epoch, loss) => console.log(epoch, loss.loss)".

(** The property [k] as the caller's options give it: [undefined] when
    they do not. *)
Definition option_given (o : list (string * arg)) (k : string) : arg :=
  match last_assigned o k with Some a => a | None => Val VUndef end.

(** An event that is not a call of [neuralNetwork.train]. *)
Definition before_training (ev : Event) : Prop :=
  match ev with
  | Train _ _ => False
  | _ => True
  end.

(** [this.convertTrainingDataToTensors()]: the two tensors that
    [NeuralNetworkData.convertRawToTensors], which is not among the sources,
    makes of the training data, or its failure. *)
Variable tensors : result (arg * arg).

(** [trainInternal], lines 209-250.  [isLayered] is what
    [this.neuralNetwork.isLayered] reads. *)
Definition trainInternal (task : value) (meta : Meta) (isLayered : value)
    (_options : list (string * arg)) (whileTrainingCb finishedTrainingCb : arg)
  : result unit * list Event :=
  let options0 := literal (trainDefaults ++ _options) in
  let options1 :=
    assign options0 "whileTraining"
      (if is_null whileTrainingCb then logEpoch else whileTrainingCb) in
  let converted :=
    if negb (arg_truthy (get_arg options1 "inputs")) &&
       negb (arg_truthy (get_arg options1 "outputs"))
    then match tensors with
         | inl e => inl e
         | inr (inputs, outputs) =>
             inr (assign (assign options1 "inputs" inputs) "outputs" outputs,
                  [ConvertTrainingDataToTensors])
         end
    else inr (options1, []) in
  match converted with
  | inl e => (Throw e, [ConvertTrainingDataToTensors])
  | inr (options, events1) =>
      let '(layered, events2) :=
        if negb (truthy isLayered) then addDefaultLayers meta task else (Ok tt, []) in
      match layered with
      | inl e => (Throw e, events1 ++ events2)
      | inr _ =>
          let events3 :=
            if arg_truthy (get_arg options "compile")
            then [Compile (compile task None (Val VUndef))] else [] in
          (Ok tt, events1 ++ events2 ++ events3 ++ [Train options finishedTrainingCb])
      end
  end.

End Training.

(** Meta data of one input unit and one output unit. *)
Definition unitMeta : Meta :=
  {| inputs := []; outputs := []; inputUnits := 1; outputUnits := 1 |}.

End DiyNeuralNetworkRest.

(* ================================================================== *)
(** ** Facts about the model of JavaScript *)
(* ================================================================== *)

Module JSFacts.
Import JS.

Lemma Qsign_Eq (q : Q) : Qsign q = Eq <-> (q == 0)%Q.
Proof. unfold Qsign. symmetry. apply Qeq_alt. Qed.

Lemma Qsign_Lt (q : Q) : Qsign q = Lt <-> (q < 0)%Q.
Proof. unfold Qsign. symmetry. apply Qlt_alt. Qed.

Lemma Qsign_Gt (q : Q) : Qsign q = Gt <-> (0 < q)%Q.
Proof. unfold Qsign. symmetry. apply Qgt_alt. Qed.

(** The sign of a difference is the comparison of its operands. *)
Lemma Qsign_difference (p q : Q) : Qsign (Qred (p + Qred (- q))) = (p ?= q)%Q.
Proof.
  destruct (Qcompare_spec p q) as [H | H | H].
  - apply Qsign_Eq. rewrite !Qred_correct. lra.
  - apply Qsign_Lt. rewrite !Qred_correct. lra.
  - apply Qsign_Gt. rewrite !Qred_correct. lra.
Qed.

Lemma nsub_Fin (p q : Q) : nsub (Fin p) (Fin q) = Fin (Qred (p + Qred (- q))).
Proof. reflexivity. Qed.

(** *** Agreement with binary64

    On the operands of the scenarios, the operations of the model give the
    numbers that the IEEE-754 operations give. *)

Example zero_by_zero_binary64 :
  binary64 (ndiv (nsub (Fin 7) (Fin 7)) (nsub (Fin 7) (Fin 7))) =
  ((7 - 7) / (7 - 7))%float /\
  PrimFloat.is_nan ((7 - 7) / (7 - 7))%float = true.
Proof. split; reflexivity. Qed.

Example nonzero_by_zero_binary64 :
  binary64 (ndiv (nsub (Fin 8) (Fin 7)) (nsub (Fin 7) (Fin 7))) =
  ((8 - 7) / (7 - 7))%float /\
  binary64 (ndiv (nsub (Fin 6) (Fin 7)) (nsub (Fin 7) (Fin 7))) =
  ((6 - 7) / (7 - 7))%float.
Proof. split; reflexivity. Qed.

Example scale_binary64 :
  binary64 (nadd (nmul (Fin (1 # 4)) (nsub (Fin 20) (Fin 10))) (Fin 10)) =
  (0.25 * (20 - 10) + 10)%float /\
  binary64 (ndiv (nsub (Fin 1) (Fin 10)) (nsub (Fin 20) (Fin 1))) =
  ((1 - 10) / (20 - 1))%float.
Proof. split; reflexivity. Qed.

(** *** Order on numbers *)





(** *** The sort *)

(** [indexOf] finds the first position of an element of the array, and
    answers [-1] for any other string. *)
Lemma indexOf_from_spec (arr : list string) (x : string) (i : Z) :
  (In x arr ->
   (i <= indexOf_from arr x i)%Z /\
   nth_error arr (Z.to_nat (indexOf_from arr x i - i)) = Some x) /\
  (~ In x arr -> indexOf_from arr x i = (-1)%Z).
Proof.
  revert i. induction arr as [| y arr IH]; intros i; simpl.
  - split; [contradiction | reflexivity].
  - destruct (String.eqb y x) eqn:E.
    + apply String.eqb_eq in E. subst y. split.
      * intros _. split; [lia |]. replace (i - i)%Z with 0%Z by lia. reflexivity.
      * intros H. exfalso. apply H. left. reflexivity.
    + apply String.eqb_neq in E. destruct (IH (i + 1)%Z) as [Hin Hout]. split.
      * intros [Heq | H]; [congruence |].
        destruct (Hin H) as [Hle Hnth]. split; [lia |].
        replace (Z.to_nat (indexOf_from arr x (i + 1) - i))
          with (S (Z.to_nat (indexOf_from arr x (i + 1) - (i + 1)))) by lia.
        exact Hnth.
      * intros H. apply Hout. intros H'. apply H. right. exact H'.
Qed.

Section SortFacts.
Context {A : Type} (comparefn : A -> A -> num).

Lemma sort_insert_perm (x : A) (l : list A) :
  Permutation (sort_insert comparefn x l) (x :: l).
Proof.
  induction l as [| y l IH]; simpl; [reflexivity |].
  destruct (positive_sign (comparefn x y)); [| reflexivity].
  rewrite IH. apply perm_swap.
Qed.

Lemma sort_perm (l : list A) : Permutation (sort comparefn l) l.
Proof.
  induction l as [| x l IH]; simpl; [reflexivity |].
  rewrite sort_insert_perm. apply perm_skip. exact IH.
Qed.




End SortFacts.

Section SortByKey.
Context {A : Type} (key : A -> num).

Let ranked : A -> A -> Prop := fun a b => nle (key b) (key a).




End SortByKey.

End JSFacts.

(* ================================================================== *)
(** ** Facts about the rounding to binary32 *)
(* ================================================================== *)

Module Float32Facts.
Import JS Float32.
Local Open Scope Q_scope.

Ltac compare_facts :=
  repeat match goal with
         | H : (_ ?= _) = Eq |- _ => apply Qeq_alt in H
         | H : (_ ?= _) = Lt |- _ => apply Qlt_alt in H
         | H : (_ ?= _) = Gt |- _ => apply Qgt_alt in H
         end.

Lemma rne_bounds (q : Q) : (Qfloor q <= rne q <= Qfloor q + 1)%Z.
Proof.
  unfold rne. destruct (q - inject_Z (Qfloor q) ?= 1 # 2); [| lia | lia].
  destruct (Z.even (Qfloor q)); lia.
Qed.

Lemma rne_Z (n : Z) : rne (inject_Z n) = n.
Proof.
  unfold rne. rewrite Qfloor_Z.
  assert (H : (inject_Z n - inject_Z n ?= 1 # 2) = Lt).
  { apply Qlt_alt. ring_simplify (inject_Z n - inject_Z n). reflexivity. }
  rewrite H. reflexivity.
Qed.

Lemma rne_monotone (x y : Q) : x <= y -> (rne x <= rne y)%Z.
Proof.
  intros Hxy. pose proof (Qfloor_resp_le x y Hxy) as Hf.
  pose proof (rne_bounds x) as Bx. pose proof (rne_bounds y) as By.
  destruct (Z.eq_dec (Qfloor x) (Qfloor y)) as [E | NE]; [| lia].
  unfold rne. rewrite <- E.
  destruct (x - inject_Z (Qfloor x) ?= 1 # 2) eqn:Cx;
    destruct (y - inject_Z (Qfloor x) ?= 1 # 2) eqn:Cy;
    try (destruct (Z.even (Qfloor x))); try lia; exfalso; compare_facts; lra.
Qed.

Lemma pow2_pos (e : Z) : 0 < 2 ^ e.
Proof. apply Qpower_0_lt. reflexivity. Qed.

Lemma pow2_succ (e : Z) : 2 ^ (e + 1) == 2 * 2 ^ e.
Proof. rewrite Qpower_plus by discriminate. change (2 ^ 1) with 2. ring. Qed.

Lemma pow2_monotone (a b : Z) : (a <= b)%Z -> 2 ^ a <= 2 ^ b.
Proof. intros H. apply Qpower_le_compat_l; [exact H | discriminate]. Qed.

Lemma pow2_lt_inv (a b : Z) : 2 ^ a < 2 ^ b -> (a < b)%Z.
Proof.
  intros H. destruct (Z.lt_ge_cases a b) as [Hlt | Hge]; [exact Hlt |].
  exfalso. pose proof (pow2_monotone b a Hge). lra.
Qed.

Lemma pow2_Z (e : Z) : (0 <= e)%Z -> inject_Z (2 ^ e) == 2 ^ e.
Proof. intros H. rewrite Zpower_Qpower by exact H. reflexivity. Qed.

Lemma Qlog2_spec (q : Q) : 0 < q -> 2 ^ Qlog2 q <= q /\ q < 2 ^ (Qlog2 q + 1).
Proof.
  intros Hq. destruct q as [n d]. unfold Qlog2. cbn [Qnum Qden].
  assert (Hn : (0 < n)%Z) by (unfold Qlt in Hq; simpl in Hq; lia).
  set (a := Z.log2 n). set (b := Z.log2 (Zpos d)).
  destruct (Z.log2_spec n Hn) as [Ha1 Ha2]. fold a in Ha1, Ha2.
  destruct (Z.log2_spec (Zpos d) eq_refl) as [Hb1 Hb2]. fold b in Hb1, Hb2.
  assert (Ha0 : (0 <= a)%Z) by apply Z.log2_nonneg.
  assert (Hb0 : (0 <= b)%Z) by apply Z.log2_nonneg.
  assert (HN1 : 2 ^ a <= inject_Z n).
  { rewrite <- pow2_Z by exact Ha0. rewrite <- Zle_Qle. exact Ha1. }
  assert (HN2 : inject_Z n < 2 * 2 ^ a).
  { rewrite <- pow2_succ. rewrite <- pow2_Z by lia. rewrite <- Zlt_Qlt.
    replace (a + 1)%Z with (Z.succ a) by lia. exact Ha2. }
  assert (HD1 : 2 ^ b <= inject_Z (Zpos d)).
  { rewrite <- pow2_Z by exact Hb0. rewrite <- Zle_Qle. exact Hb1. }
  assert (HD2 : inject_Z (Zpos d) < 2 * 2 ^ b).
  { rewrite <- pow2_succ. rewrite <- pow2_Z by lia. rewrite <- Zlt_Qlt.
    replace (b + 1)%Z with (Z.succ b) by lia. exact Hb2. }
  assert (Hk : 2 ^ a == 2 ^ (a - b) * 2 ^ b).
  { rewrite <- Qpower_plus by discriminate. replace (a - b + b)%Z with a by lia.
    reflexivity. }
  assert (Hqd : n # d == inject_Z n / inject_Z (Zpos d)) by apply Qmake_Qdiv.
  pose proof (pow2_pos a) as Pa. pose proof (pow2_pos b) as Pb.
  pose proof (pow2_pos (a - b)) as Pk.
  assert (HD0 : 0 < inject_Z (Zpos d)) by lra.
  assert (Hmul : (n # d) * inject_Z (Zpos d) == inject_Z n).
  { rewrite Hqd. field. lra. }
  destruct (Qle_bool (2 ^ (a - b)) (n # d)) eqn:Htest.
  - apply Qle_bool_iff in Htest. split; [exact Htest |].
    rewrite pow2_succ.
    apply Qnot_le_lt. intros Hc.
    assert (2 * 2 ^ (a - b) * inject_Z (Zpos d) <= (n # d) * inject_Z (Zpos d))
      by (apply Qmult_le_compat_r; lra).
    assert (2 * 2 ^ (a - b) * 2 ^ b <= 2 * 2 ^ (a - b) * inject_Z (Zpos d))
      by (apply Qmult_le_l; lra).
    lra.
  - assert (Hlt : n # d < 2 ^ (a - b)).
    { apply Qnot_le_lt. intros Hc. apply Qle_bool_iff in Hc. congruence. }
    replace (a - b - 1 + 1)%Z with (a - b)%Z by lia. split; [| exact Hlt].
    assert (Hhalf : 2 ^ (a - b) == 2 * 2 ^ (a - b - 1)).
    { rewrite <- pow2_succ. replace (a - b - 1 + 1)%Z with (a - b)%Z by lia.
      reflexivity. }
    pose proof (pow2_pos (a - b - 1)) as Pk1.
    apply Qnot_lt_le. intros Hc.
    assert ((n # d) * inject_Z (Zpos d) <= 2 ^ (a - b - 1) * inject_Z (Zpos d))
      by (apply Qmult_le_compat_r; lra).
    assert (2 ^ (a - b - 1) * inject_Z (Zpos d) < 2 ^ (a - b - 1) * (2 * 2 ^ b))
      by (apply Qmult_lt_l; lra).
    assert (E : 2 ^ (a - b - 1) * (2 * 2 ^ b) == 2 ^ a) by (rewrite Hk, Hhalf; ring).
    lra.
Qed.

Lemma Qlog2_monotone (x y : Q) : 0 < x -> x <= y -> (Qlog2 x <= Qlog2 y)%Z.
Proof.
  intros Hx Hxy.
  destruct (Qlog2_spec x Hx) as [Hx1 _].
  destruct (Qlog2_spec y) as [_ Hy2]; [lra |].
  assert (H : (Qlog2 x < Qlog2 y + 1)%Z) by (apply pow2_lt_inv; lra).
  lia.
Qed.

Lemma rne_le_Z (z : Q) (n : Z) : z <= inject_Z n -> (rne z <= n)%Z.
Proof. intros H. rewrite <- (rne_Z n). apply rne_monotone. exact H. Qed.

Lemma rne_ge_Z (z : Q) (n : Z) : inject_Z n <= z -> (n <= rne z)%Z.
Proof. intros H. rewrite <- (rne_Z n). apply rne_monotone. exact H. Qed.

Lemma cexp_monotone (x y : Q) : 0 < x -> x <= y -> (cexp x <= cexp y)%Z.
Proof.
  intros Hx Hxy. unfold cexp. pose proof (Qlog2_monotone x y Hx Hxy). lia.
Qed.

Lemma pow2_split (a b : Z) : 2 ^ a == 2 ^ (a - b) * 2 ^ b.
Proof.
  rewrite <- Qpower_plus by discriminate. replace (a - b + b)%Z with a by lia.
  reflexivity.
Qed.

Lemma nearest_nonneg (q : Q) : 0 < q -> 0 <= nearest q.
Proof.
  intros Hq. unfold nearest. pose proof (pow2_pos (cexp q)) as Hp.
  apply Qmult_le_0_compat; [| lra].
  change 0 with (inject_Z 0). rewrite <- Zle_Qle. apply rne_ge_Z.
  apply Qle_shift_div_l; [exact Hp |]. change (inject_Z 0) with 0. lra.
Qed.

(** What is rounded lies under a power of two, and so does the result. *)
Lemma nearest_upper (q : Q) (M : Z) :
  (cexp q <= M)%Z -> q <= 2 ^ M -> nearest q <= 2 ^ M.
Proof.
  intros He Hq. unfold nearest. pose proof (pow2_pos (cexp q)) as Hp.
  rewrite (pow2_split M (cexp q)).
  apply Qmult_le_compat_r; [| lra].
  assert (Hz : inject_Z (2 ^ (M - cexp q)) == 2 ^ (M - cexp q)) by (apply pow2_Z; lia).
  apply Qle_trans with (inject_Z (2 ^ (M - cexp q))); [| rewrite Hz; apply Qle_refl].
  rewrite <- Zle_Qle. apply rne_le_Z. rewrite Hz.
  apply Qle_shift_div_r; [exact Hp |].
  apply Qle_trans with (2 ^ M); [exact Hq |].
  rewrite <- (pow2_split M (cexp q)). apply Qle_refl.
Qed.

Lemma nearest_lower (q : Q) (m : Z) :
  (cexp q <= m)%Z -> 2 ^ m <= q -> 2 ^ m <= nearest q.
Proof.
  intros He Hq. unfold nearest. pose proof (pow2_pos (cexp q)) as Hp.
  rewrite (pow2_split m (cexp q)).
  apply Qmult_le_compat_r; [| lra].
  assert (Hz : inject_Z (2 ^ (m - cexp q)) == 2 ^ (m - cexp q)) by (apply pow2_Z; lia).
  apply Qle_trans with (inject_Z (2 ^ (m - cexp q))); [rewrite Hz; apply Qle_refl |].
  rewrite <- Zle_Qle. apply rne_ge_Z. rewrite Hz.
  apply Qle_shift_div_l; [exact Hp |].
  apply Qle_trans with (2 ^ m); [| exact Hq].
  rewrite <- (pow2_split m (cexp q)). apply Qle_refl.
Qed.

Lemma nearest_monotone (x y : Q) : 0 < x -> x <= y -> nearest x <= nearest y.
Proof.
  intros Hx Hxy.
  pose proof (cexp_monotone x y Hx Hxy) as He.
  destruct (Z.eq_dec (cexp x) (cexp y)) as [E | NE].
  - unfold nearest. rewrite <- E. pose proof (pow2_pos (cexp x)) as Hp.
    apply Qmult_le_compat_r; [| lra].
    rewrite <- Zle_Qle. apply rne_monotone.
    apply Qmult_le_compat_r; [exact Hxy |].
    apply Qlt_le_weak. apply Qinv_lt_0_compat. exact Hp.
  - assert (Hlt : (cexp x < cexp y)%Z) by lia.
    destruct (Qlog2_spec x Hx) as [_ Hx2].
    destruct (Qlog2_spec y) as [Hy1 _]; [lra |].
    pose proof (Qlog2_monotone x y Hx Hxy) as Hl.
    unfold cexp in Hlt.
    apply Qle_trans with (2 ^ Qlog2 y).
    + apply Qle_trans with (2 ^ Z.max (Qlog2 x + 1) (cexp x)).
      * apply nearest_upper; [lia |].
        apply Qle_trans with (2 ^ (Qlog2 x + 1)); [lra |].
        apply pow2_monotone. lia.
      * apply pow2_monotone. unfold cexp. lia.
    + apply nearest_lower; [unfold cexp; lia | exact Hy1].
Qed.

Lemma round_pos_monotone (x y : Q) :
  0 < x -> x <= y -> nle (round_pos x) (round_pos y).
Proof.
  intros Hx Hxy. pose proof (nearest_monotone x y Hx Hxy) as H.
  unfold round_pos.
  destruct (Qle_bool (2 ^ 128) (nearest x)) eqn:Ox;
    destruct (Qle_bool (2 ^ 128) (nearest y)) eqn:Oy; cbn [nle]; try exact I.
  - apply Qle_bool_iff in Ox.
    assert (Hc : Qle_bool (2 ^ 128) (nearest y) = true)
      by (apply Qle_bool_iff; lra).
    congruence.
  - rewrite !Qred_correct. exact H.
Qed.

Lemma round_pos_nonneg (q : Q) : 0 < q -> nle (Fin 0) (round_pos q).
Proof.
  intros Hq. unfold round_pos.
  destruct (Qle_bool (2 ^ 128) (nearest q)); cbn [nle]; [exact I |].
  rewrite Qred_correct. apply nearest_nonneg. exact Hq.
Qed.

Lemma round32_nonneg (a : Q) : 0 <= a -> nle (Fin 0) (round32 (Fin a)).
Proof.
  intros Ha. unfold round32. destruct (a ?= 0) eqn:C; compare_facts.
  - cbn [nle]. lra.
  - lra.
  - apply round_pos_nonneg. exact C.
Qed.

Lemma round32_monotone (a b : Q) :
  0 <= a -> a <= b -> nle (round32 (Fin a)) (round32 (Fin b)).
Proof.
  intros Ha Hab. unfold round32.
  destruct (a ?= 0) eqn:Ca; destruct (b ?= 0) eqn:Cb; compare_facts; try lra.
  - cbn [nle]. lra.
  - apply round_pos_nonneg. exact Cb.
  - apply round_pos_monotone; assumption.
Qed.

Lemma round32_one : round32 (Fin 1) = Fin 1.
Proof. vm_compute. reflexivity. Qed.

Lemma round32_unit_interval (a : Q) :
  0 <= a -> a <= 1 ->
  nle (Fin 0) (round32 (Fin a)) /\ nle (round32 (Fin a)) (Fin 1).
Proof.
  intros H0 H1. split; [apply round32_nonneg; exact H0 |].
  rewrite <- round32_one. apply round32_monotone; assumption.
Qed.

Lemma nearest_on_grid (q : Q) : on_grid (nearest q).
Proof.
  unfold nearest.
  assert (He : (-149 <= cexp q)%Z) by (unfold cexp; lia).
  exists (rne (q / 2 ^ cexp q) * 2 ^ (cexp q + 149))%Z.
  rewrite inject_Z_mult, pow2_Z by lia.
  rewrite <- Qmult_assoc. rewrite <- Qpower_plus by discriminate.
  replace (cexp q + 149 + -149)%Z with (cexp q) by lia. reflexivity.
Qed.

Lemma round_pos_on_grid (q x : Q) : round_pos q = Fin x -> on_grid x.
Proof.
  unfold round_pos. destruct (Qle_bool (2 ^ 128) (nearest q)); [discriminate |].
  intros H. assert (Hx : x = Qred (nearest q)) by congruence. subst x.
  destruct (nearest_on_grid q) as [k Hk]. exists k.
  apply Qeq_trans with (nearest q); [apply Qred_correct | exact Hk].
Qed.

Lemma round32_on_grid (a : num) (x : Q) : round32 a = Fin x -> on_grid x.
Proof.
  destruct a as [q | | |]; try discriminate. unfold round32.
  destruct (q ?= 0).
  - intros [= <-]. exists 0%Z. reflexivity.
  - destruct (round_pos (- q)) as [y | | |] eqn:Hy; try discriminate.
    cbn [nneg]. intros H. assert (Hx : x = Qred (- y)) by congruence. subst x.
    destruct (round_pos_on_grid _ _ Hy) as [k Hk].
    exists (- k)%Z. apply Qeq_trans with (- y); [apply Qred_correct |].
    rewrite Hk, inject_Z_opp. ring.
  - apply round_pos_on_grid.
Qed.

(** Two binary32 numbers that differ, differ by [2 ^ -149] at least, and
    their difference does not round to zero. *)
Lemma grid_gap (x y : Q) : on_grid x -> on_grid y -> y < x -> 2 ^ (-149) <= x - y.
Proof.
  intros [k Hk] [l Hl] Hlt. pose proof (pow2_pos (-149)) as Hu.
  assert (Hkl : (l < k)%Z).
  { destruct (Z.lt_ge_cases l k) as [H | H]; [exact H |]. exfalso.
    assert (inject_Z k <= inject_Z l) by (rewrite <- Zle_Qle; exact H).
    assert (inject_Z k * 2 ^ (-149) <= inject_Z l * 2 ^ (-149))
      by (apply Qmult_le_compat_r; lra).
    lra. }
  assert (H1 : inject_Z (l + 1) <= inject_Z k) by (rewrite <- Zle_Qle; lia).
  rewrite inject_Z_plus in H1.
  assert ((inject_Z l + inject_Z 1) * 2 ^ (-149) <= inject_Z k * 2 ^ (-149))
    by (apply Qmult_le_compat_r; lra).
  change (inject_Z 1) with 1 in *. lra.
Qed.

Lemma round32_smallest : round32 (Fin (2 ^ (-149))) = Fin (Qred (2 ^ (-149))).
Proof. vm_compute. reflexivity. Qed.

Lemma round32_positive (d : Q) :
  2 ^ (-149) <= d -> nle (Fin (2 ^ (-149))) (round32 (Fin d)).
Proof.
  intros H. pose proof (pow2_pos (-149)) as Hu.
  pose proof (round32_monotone (2 ^ (-149)) d (Qlt_le_weak _ _ Hu) H) as Hm.
  rewrite round32_smallest in Hm.
  destruct (round32 (Fin d)) as [r | | |]; cbn [nle] in *; exact Hm.
Qed.

End Float32Facts.

(* ================================================================== *)
(** ** Properties of the binary64 rounding *)
(* ================================================================== *)

Module Binary64Facts.
Import JS JSFacts Float32 Float32Facts Binary64.
Local Open Scope Q_scope.

Lemma rne_error (t : Q) :
  inject_Z (rne t) - t <= 1 # 2 /\ t - inject_Z (rne t) <= 1 # 2.
Proof.
  pose proof (Qfloor_le t) as Hlo. pose proof (Qlt_floor t) as Hhi.
  rewrite inject_Z_plus in Hhi. change (inject_Z 1) with 1 in Hhi.
  unfold rne. destruct (t - inject_Z (Qfloor t) ?= 1 # 2) eqn:C; compare_facts.
  - destruct (Z.even (Qfloor t)).
    + split; lra.
    + rewrite inject_Z_plus. change (inject_Z 1) with 1. split; lra.
  - split; lra.
  - rewrite inject_Z_plus. change (inject_Z 1) with 1. split; lra.
Qed.

Lemma nearest64_error (q : Q) :
  0 < q ->
  nearest64 q - q <= 2 ^ cexp64 q * (1 # 2) /\ q - nearest64 q <= 2 ^ cexp64 q * (1 # 2).
Proof.
  intros Hq. unfold nearest64. set (c := cexp64 q). pose proof (pow2_pos c) as Hp.
  destruct (rne_error (q / 2 ^ c)) as [H1 H2].
  set (R := inject_Z (rne (q / 2 ^ c))) in *.
  assert (Ht : q / 2 ^ c * 2 ^ c == q) by (field; lra).
  assert (G1 : (R - q / 2 ^ c) * 2 ^ c <= (1 # 2) * 2 ^ c)
    by (apply Qmult_le_compat_r; lra).
  assert (G2 : (q / 2 ^ c - R) * 2 ^ c <= (1 # 2) * 2 ^ c)
    by (apply Qmult_le_compat_r; lra).
  assert (E1 : (R - q / 2 ^ c) * 2 ^ c == R * 2 ^ c - q) by (rewrite <- Ht at 2; ring).
  assert (E2 : (q / 2 ^ c - R) * 2 ^ c == q - R * 2 ^ c) by (rewrite <- Ht at 2; ring).
  split; lra.
Qed.

(** Half a unit in the last place is a relative error of [2 ^ -53], or
    half the smallest double. *)
Lemma half_ulp64 (q : Q) :
  0 < q -> 2 ^ cexp64 q * (1 # 2) <= 2 ^ (-53) * q + 2 ^ (-1075).
Proof.
  intros Hq. destruct (Qlog2_spec q Hq) as [Hl _].
  pose proof (pow2_pos (-1075)) as Heta. pose proof (pow2_pos (-53)) as Hu.
  assert (Huq : 0 <= 2 ^ (-53) * q) by (apply Qmult_le_0_compat; lra).
  unfold cexp64. destruct (Z.max_spec (Qlog2 q - 52) (-1074)) as [[_ ->] | [_ ->]].
  - assert (E : 2 ^ (-1074) * (1 # 2) == 2 ^ (-1075)) by reflexivity.
    lra.
  - assert (E : 2 ^ (Qlog2 q - 52) * (1 # 2) == 2 ^ (-53) * 2 ^ Qlog2 q).
    { replace (Qlog2 q - 52)%Z with (Qlog2 q + (-52))%Z by lia.
      rewrite Qpower_plus by discriminate.
      assert (E' : 2 ^ (-52) * (1 # 2) == 2 ^ (-53)) by reflexivity.
      rewrite <- E'. ring. }
    assert (2 ^ (-53) * 2 ^ Qlog2 q <= 2 ^ (-53) * q) by (apply Qmult_le_l; lra).
    lra.
Qed.

Lemma round_pos64_error (q y : Q) :
  0 < q -> round_pos64 q = Fin y ->
  y - q <= 2 ^ (-53) * q + 2 ^ (-1075) /\ q - y <= 2 ^ (-53) * q + 2 ^ (-1075).
Proof.
  intros Hq. unfold round_pos64.
  destruct (Qle_bool (2 ^ 1024) (nearest64 q)); [discriminate |].
  intros H. assert (Hy : y = Qred (nearest64 q)) by congruence. subst y.
  destruct (nearest64_error q Hq) as [H1 H2]. pose proof (half_ulp64 q Hq) as Hh.
  pose proof (Qred_correct (nearest64 q)) as Hr.
  split; lra.
Qed.

(** The error of a rounding that does not overflow, for a number of
    magnitude [m] at most. *)
Lemma round64_error (x y m : Q) :
  round64 (Fin x) = Fin y -> x <= m -> - x <= m ->
  y - x <= 2 ^ (-53) * m + 2 ^ (-1075) /\ x - y <= 2 ^ (-53) * m + 2 ^ (-1075).
Proof.
  intros H Hm1 Hm2.
  pose proof (pow2_pos (-1075)) as Heta. pose proof (pow2_pos (-53)) as Hu.
  unfold round64 in H. destruct (x ?= 0) eqn:C; compare_facts.
  - assert (Hy : y = 0) by congruence. subst y.
    assert (0 <= 2 ^ (-53) * m) by (apply Qmult_le_0_compat; lra).
    split; lra.
  - destruct (round_pos64 (- x)) as [z | | |] eqn:Hz; try discriminate.
    cbn [nneg] in H. assert (Hy : y = Qred (- z)) by congruence. subst y.
    assert (Hpos : 0 < - x) by lra.
    destruct (round_pos64_error (- x) z Hpos Hz) as [H1 H2].
    pose proof (Qred_correct (- z)) as Hr.
    assert (2 ^ (-53) * (- x) <= 2 ^ (-53) * m) by (apply Qmult_le_l; lra).
    split; lra.
  - destruct (round_pos64_error x y C H) as [H1 H2].
    assert (2 ^ (-53) * x <= 2 ^ (-53) * m) by (apply Qmult_le_l; lra).
    split; lra.
Qed.

(** A finite result has finite operands. *)
Lemma round64_Fin (a : num) (y : Q) : round64 a = Fin y -> exists x : Q, a = Fin x.
Proof. destruct a as [x | | |]; try discriminate. intros _. exists x. reflexivity. Qed.

Lemma add64_Fin (a b : num) (r : Q) :
  add64 a b = Fin r ->
  exists x y : Q, a = Fin x /\ b = Fin y /\ round64 (Fin (Qred (x + y))) = Fin r.
Proof.
  unfold add64. destruct a as [x | | |], b as [y | | |]; try discriminate.
  intros H. exists x, y. repeat split. exact H.
Qed.

Lemma mul64_Fin (a b : num) (r : Q) :
  mul64 a b = Fin r ->
  exists x y : Q, a = Fin x /\ b = Fin y /\ round64 (Fin (Qred (x * y))) = Fin r.
Proof.
  unfold mul64.
  destruct a as [x | | |], b as [y | | |]; cbn [nmul]; try discriminate;
    try (destruct (Qsign _); discriminate).
  intros H. exists x, y. repeat split. exact H.
Qed.

Lemma div64_Fin (a : num) (d r : Q) :
  div64 a (Fin d) = Fin r ->
  exists x : Q, a = Fin x /\ ~ d == 0 /\ round64 (Fin (Qred (x / d))) = Fin r.
Proof.
  unfold div64. destruct a as [x | | |]; cbn [ndiv]; try discriminate;
    try (destruct (Qsign d); discriminate).
  unfold Qsign. destruct (d ?= 0) eqn:C; compare_facts.
  - destruct (x ?= 0); discriminate.
  - intros H. exists x. repeat split; [lra | exact H].
  - intros H. exists x. repeat split; [lra | exact H].
Qed.

Lemma nearest64_nonneg (q : Q) : 0 < q -> 0 <= nearest64 q.
Proof.
  intros Hq. unfold nearest64. pose proof (pow2_pos (cexp64 q)) as Hp.
  apply Qmult_le_0_compat; [| lra].
  change 0 with (inject_Z 0). rewrite <- Zle_Qle. apply rne_ge_Z.
  apply Qle_shift_div_l; [exact Hp |]. change (inject_Z 0) with 0. lra.
Qed.

Lemma round64_nonneg (x y : Q) : round64 (Fin x) = Fin y -> 0 <= x -> 0 <= y.
Proof.
  intros H Hx. unfold round64 in H. destruct (x ?= 0) eqn:C; compare_facts.
  - assert (Hy : y = 0) by congruence. subst y. lra.
  - lra.
  - unfold round_pos64 in H.
    destruct (Qle_bool (2 ^ 1024) (nearest64 x)); [discriminate |].
    assert (Hy : y = Qred (nearest64 x)) by congruence. subst y.
    rewrite Qred_correct. apply nearest64_nonneg. exact C.
Qed.

(** The magnitude of a number bounds it on both sides. *)
Lemma Qabs_bounds (x : Q) : x <= Qabs x /\ - x <= Qabs x.
Proof.
  split; [apply Qle_Qabs |]. rewrite <- Qabs_opp. apply Qle_Qabs.
Qed.

(** *** Agreement with the doubles of the kernel

    On these operands, among them a tie under the smallest double and the
    two sides of the overflow threshold, the four operations of the model
    give the numbers that the IEEE-754 operations give. *)
Example round64_binary64 :
  number (1 / 3)%float = div64 (Fin 1) (Fin 3) /\
  number (0x1p-1074 / 2)%float = div64 (Fin (2 ^ (-1074))) (Fin 2) /\
  number (0x1.8p-1073 * 0.5)%float = mul64 (Fin (3 * 2 ^ (-1074))) (Fin (1 # 2)) /\
  number (0x1p53 + 1)%float = add64 (Fin (2 ^ 53)) (Fin 1) /\
  number (0x1p53 + 3)%float = add64 (Fin (2 ^ 53)) (Fin 3) /\
  number (0x1.fffffffffffffp1023 + 0x1p969)%float =
    add64 (Fin (2 ^ 1024 - 2 ^ 971)) (Fin (2 ^ 969)) /\
  number (0x1.fffffffffffffp1023 + 0x1p970)%float =
    add64 (Fin (2 ^ 1024 - 2 ^ 971)) (Fin (2 ^ 970)) /\
  number (0x1p1023 - -0x1p1023)%float = sub64 (Fin (2 ^ 1023)) (Fin (- 2 ^ 1023)) /\
  number (0 / 0)%float = div64 (Fin 0) (Fin 0) /\
  number (-1 / 0)%float = div64 (Fin (-1)) (Fin 0).
Proof. repeat split; vm_compute; reflexivity. Qed.

End Binary64Facts.


(* ================================================================== *)
(** ** Properties of [NeuralNetwork.predictInternal] *)
(* ================================================================== *)

Module NeuralNetworkSpec.
Import JS JSFacts Float32Facts Binary64 Binary64Facts NeuralNetwork Scenarios.

Section Encoding.
Context {rt : Runtime}.
Variable this : Instance.

(** The only exception that the encoding of a column raises is a
    [TypeError] of the runtime. *)
Lemma encodeColumn_throws (data : list value) (acc : list num)
    (arr : string * ColumnMeta) (e : js_error) :
  encodeColumn this data acc arr = Throw e -> e = TypeError.
Proof.
  unfold encodeColumn, Throw, Ok.
  destruct (String.eqb (dtype (snd arr)) "number").
  - destruct (inputMin this), (inputMax this); congruence.
  - destruct (String.eqb (dtype (snd arr)) "string"); [| congruence].
    destruct (legend (snd arr)) as [lg |]; [| congruence].
    destruct (own_property lg _); congruence.
Qed.

Lemma forEach_encodeColumn_throws (data : list value) (cols : list (string * ColumnMeta))
    (acc : list num) (e : js_error) :
  forEach (encodeColumn this data) cols acc = Throw e -> e = TypeError.
Proof.
  revert acc. induction cols as [| c cols IH]; intros acc; simpl.
  - discriminate.
  - destruct (encodeColumn this data acc c) as [e' | acc'] eqn:Hc; simpl.
    + intros H. injection H as <-. eapply encodeColumn_throws; eassumption.
    + apply IH.
Qed.

(** A categorical column whose legend does not hold the value stops the
    loop, whatever was encoded before it. *)
Lemma encodeColumn_unseen (data : list value) (acc : list num)
    (arr : string * ColumnMeta) (lg : list (string * list num)) :
  dtype (snd arr) = "string" ->
  legend (snd arr) = Some lg ->
  own_property lg
    (ToPropertyKey (value_at data (indexOf (config_inputs this) (fst arr)))) = None ->
  encodeColumn this data acc arr = Throw TypeError.
Proof.
  intros Hd Hl Hk. unfold encodeColumn. rewrite Hd, Hl, Hk. reflexivity.
Qed.

Lemma forEach_encodeColumn_unseen (data : list value)
    (cols : list (string * ColumnMeta)) (acc : list num)
    (arr : string * ColumnMeta) (lg : list (string * list num)) :
  In arr cols ->
  dtype (snd arr) = "string" ->
  legend (snd arr) = Some lg ->
  own_property lg
    (ToPropertyKey (value_at data (indexOf (config_inputs this) (fst arr)))) = None ->
  forEach (encodeColumn this data) cols acc = Throw TypeError.
Proof.
  intros Hin Hd Hl Hk. revert acc.
  induction cols as [| c cols IH]; intros acc; [contradiction |].
  simpl. destruct Hin as [-> | Hin].
  - rewrite (encodeColumn_unseen data acc arr lg Hd Hl Hk). reflexivity.
  - destruct (encodeColumn this data acc c) as [e | acc'] eqn:Hc; simpl.
    + apply encodeColumn_throws in Hc. subst e. reflexivity.
    + apply IH. exact Hin.
Qed.

(** C1 (as amended): a sample that holds, for some categorical input column,
    a value that is not a label of the legend of that column is not encoded:
    [predictInternal] is rejected with the [TypeError] that the runtime
    raises on spreading the missing legend entry, before any vector reaches
    the model. *)
Theorem predictInternal_unseen_value (sample : value)
    (prop : string) (cm : ColumnMeta) (lg : list (string * list num)) :
  In (prop, cm) (inputs (meta this)) ->
  dtype cm = "string" ->
  legend cm = Some lg ->
  own_property lg (ToPropertyKey (sampleValue this sample prop)) = None ->
  encodeInput this sample = Throw TypeError /\
  predictInternal this sample = Throw TypeError.
Proof.
  intros Hin Hd Hl Hk.
  assert (He : encodeInput this sample = Throw TypeError).
  { unfold encodeInput.
    apply (forEach_encodeColumn_unseen _ _ _ (prop, cm) lg); assumption. }
  split; [exact He |].
  unfold predictInternal. rewrite He. reflexivity.
Qed.

(** What the normalisation of a value [v] computes on a column whose
    recorded minimum and maximum are both [m]. *)
Lemma normVal_constant (v m : Q) :
  normVal (Fin v) (Fin m) (Fin m) =
  match (v ?= m)%Q with
  | Eq => NaN
  | Lt => NInf
  | Gt => PInf
  end.
Proof.
  unfold normVal. rewrite !nsub_Fin. unfold ndiv.
  rewrite !Qsign_difference.
  assert (Hm : (m ?= m)%Q = Eq) by (apply Qeq_alt; reflexivity).
  rewrite Hm. unfold flip_by. destruct (v ?= m)%Q; reflexivity.
Qed.

(** C2 (as amended): on a numeric input column whose recorded minimum and
    maximum are the same number [m], the division is not guarded: a value
    equal to [m] is encoded as [NaN], a larger one as [+Infinity] and a
    smaller one as [-Infinity]. *)
Theorem encodeColumn_constant_column (data : list value) (acc : list num)
    (prop : string) (cm : ColumnMeta) (mn mx : list num) (m v : Q) :
  dtype cm = "number" ->
  inputMin this = Some mn ->
  inputMax this = Some mx ->
  operand mn (indexOf (config_inputs this) prop) = Fin m ->
  operand mx (indexOf (config_inputs this) prop) = Fin m ->
  ToNumber (value_at data (indexOf (config_inputs this) prop)) = Fin v ->
  encodeColumn this data acc (prop, cm) =
  Ok (acc ++ [match (v ?= m)%Q with
              | Eq => NaN
              | Lt => NInf
              | Gt => PInf
              end]).
Proof.
  intros Hd Hmn Hmx Hlo Hhi Hv. unfold encodeColumn. simpl.
  rewrite Hd, Hmn, Hmx, Hlo, Hhi, Hv. simpl.
  rewrite normVal_constant. reflexivity.
Qed.

End Encoding.

Section Regression.
Variable this : Instance.

Lemma map_from_regressionValue (predictions mn mx : list num)
    (cols : list (string * ColumnMeta)) (k : nat) :
  outputMin this = Some mn ->
  outputMax this = Some mx ->
  map_from (regressionValue this predictions) cols (Z.of_nat k) =
  Ok (map (fun i => denormVal (operand predictions (Z.of_nat i))
                              (operand mn (Z.of_nat i)) (operand mx (Z.of_nat i)))
          (seq k (List.length cols))).
Proof.
  intros Hmn Hmx. revert k.
  induction cols as [| c cols IH]; intros k; simpl; [reflexivity |].
  unfold regressionValue at 1. rewrite Hmn, Hmx. simpl.
  replace (Z.of_nat k + 1)%Z with (Z.of_nat (S k)) by lia.
  rewrite IH. reflexivity.
Qed.


(** Decoding undoes the normalisation, in exact arithmetic. *)
Lemma denormVal_normVal (v mn mx : Q) :
  (mn < mx)%Q ->
  num_eq (denormVal (normVal (Fin v) (Fin mn) (Fin mx)) (Fin mn) (Fin mx)) (Fin v).
Proof.
  intros Hlt. unfold denormVal, normVal. rewrite !nsub_Fin. unfold ndiv.
  rewrite Qsign_difference.
  assert (Hgt : (mx ?= mn)%Q = Gt) by (apply Qgt_alt; exact Hlt).
  rewrite Hgt. unfold nmul, nadd, num_eq. rewrite !Qred_correct. field. lra.
Qed.

(** Without rounding, for every output column whose recorded bounds
    satisfy [min < max], decoding the encoding [(v - min) / (max - min)] of
    a value [v] by [p * (max - min) + min] gives [v] back, and for the
    first column that is the value returned. *)
Lemma regressionValue_undoes_normVal (predictions mn mx : list num) (i : nat)
    (v lo hi : Q) :
  outputMin this = Some mn ->
  outputMax this = Some mx ->
  (i < List.length (outputs (meta this)))%nat ->
  operand mn (Z.of_nat i) = Fin lo ->
  operand mx (Z.of_nat i) = Fin hi ->
  (lo < hi)%Q ->
  operand predictions (Z.of_nat i) = normVal (Fin v) (Fin lo) (Fin hi) ->
  exists (decoded : list num) (r : num),
    map_indexed (regressionValue this predictions) (outputs (meta this)) = Ok decoded /\
    nth_error decoded i = Some r /\
    num_eq r (Fin v) /\
    (i = 0%nat -> regressionOutput this predictions = Ok (OutValue r)).
Proof.
  intros Hmn Hmx Hi Hlo Hhi Hlt Hp.
  pose proof (map_from_regressionValue predictions mn mx (outputs (meta this)) 0 Hmn Hmx)
    as Hmap.
  eexists. exists (denormVal (operand predictions (Z.of_nat i))
                             (operand mn (Z.of_nat i)) (operand mx (Z.of_nat i))).
  split; [exact Hmap |]. split; [| split].
  - rewrite nth_error_map, nth_error_seq.
    apply Nat.ltb_lt in Hi. rewrite Hi. reflexivity.
  - rewrite Hlo, Hhi, Hp. apply denormVal_normVal. exact Hlt.
  - intros ->. unfold regressionOutput, map_indexed. change 0%Z with (Z.of_nat 0).
    rewrite Hmap. destruct (outputs (meta this)); [simpl in Hi; lia | reflexivity].
Qed.

End Regression.

Section RoundTrip.
Local Open Scope Q_scope.

(** C4 (as amended): on doubles, for bounds [min < max] and a value [v],
    decoding the encoding [(v - min) / (max - min)] of [v] by
    [p * (max - min) + min] gives, whenever the decoded value is finite, a
    number [r] with
    [|r - v| <= 2^-51 * (|v - min| + |v|) + 2^-1072 * (1 + (max - min))];
    and when [max - min] overflows, the decoded value is [NaN]. *)
Theorem regression_round_trip (v mn mx : Q) :
  mn < mx ->
  (forall r : Q,
     denormVal64 (normVal64 (Fin v) (Fin mn) (Fin mx)) (Fin mn) (Fin mx) = Fin r ->
     Qabs (r - v) <= tolerance v mn mx) /\
  (sub64 (Fin mx) (Fin mn) = PInf ->
   denormVal64 (normVal64 (Fin v) (Fin mn) (Fin mx)) (Fin mn) (Fin mx) = NaN).
Proof.
  intros Hlt. split.
  2: { intros HD. unfold denormVal64, normVal64. rewrite HD.
       destruct (sub64 (Fin v) (Fin mn)) as [A | | |]; reflexivity. }
  intros r H. unfold denormVal64, normVal64 in H.
  apply add64_Fin in H. destruct H as (M & mn' & HM & Hmn & Hr).
  assert (mn' = mn) by congruence. subst mn'. clear Hmn.
  apply mul64_Fin in HM. destruct HM as (p & D & Hp & HD & HMr).
  rewrite HD in Hp. apply div64_Fin in Hp. destruct Hp as (A & HA & HDnz & Hpr).
  unfold sub64 in HD, HA. rewrite nsub_Fin in HD, HA.
  pose proof (Qred_correct (mx + Qred (- mn))) as Ed.
  pose proof (Qred_correct (v + Qred (- mn))) as Ea.
  pose proof (Qred_correct (- mn)) as Emn.
  pose proof (Qred_correct (A / D)) as Eq.
  pose proof (Qred_correct (p * D)) as Em.
  pose proof (Qred_correct (M + mn)) as Es.
  set (d' := Qred (mx + Qred (- mn))) in *.
  set (a' := Qred (v + Qred (- mn))) in *.
  set (q' := Qred (A / D)) in *.
  set (m' := Qred (p * D)) in *.
  set (s' := Qred (M + mn)) in *.
  destruct (Qabs_bounds (v - mn)) as [Ba1 Ba2].
  destruct (Qabs_bounds v) as [Bv1 Bv2].
  assert (E8 : 2 ^ (-1072) == 8 * 2 ^ (-1075)) by reflexivity.
  assert (Heta : 0 < 2 ^ (-1075)) by apply pow2_pos.
  assert (Heta1 : 2 ^ (-1075) <= 1) by (apply Qle_bool_iff; vm_compute; reflexivity).
  apply Qabs_Qle_condition. unfold tolerance. rewrite E8.
  (* the five roundings *)
  assert (HD0 : 0 < D).
  { pose proof (round64_nonneg d' D HD). lra. }
  destruct (round64_error d' D d' HD) as [D1 D2]; [lra | lra |].
  destruct (round64_error a' A (Qabs (v - mn)) HA) as [A1 A2]; [lra | lra |].
  set (Aa := Qabs (v - mn)) in *. set (Av := Qabs v) in *.
  set (X := (1 + 2 ^ (-53)) * Aa + 2 ^ (-1075)).
  assert (HX1 : A <= X) by (unfold X; lra).
  assert (HX2 : - A <= X) by (unfold X; lra).
  assert (Hinv : 0 < / D) by (apply Qinv_lt_0_compat; exact HD0).
  assert (Q1 : q' <= X / D).
  { rewrite Eq. unfold Qdiv. apply Qmult_le_compat_r; lra. }
  assert (Q2 : - q' <= X / D).
  { rewrite Eq. setoid_replace (- (A / D)) with ((- A) / D) by (field; lra).
    unfold Qdiv. apply Qmult_le_compat_r; lra. }
  destruct (round64_error q' p (X / D) Hpr Q1 Q2) as [P1 P2].
  assert (PD1 : p * D - A <= 2 ^ (-53) * X + 2 ^ (-1075) * D).
  { assert (G : (p - q') * D <= (2 ^ (-53) * (X / D) + 2 ^ (-1075)) * D)
      by (apply Qmult_le_compat_r; lra).
    assert (G1 : (p - q') * D == p * D - A) by (rewrite Eq; field; lra).
    assert (G2 : (2 ^ (-53) * (X / D) + 2 ^ (-1075)) * D ==
                 2 ^ (-53) * X + 2 ^ (-1075) * D) by (field; lra).
    lra. }
  assert (PD2 : A - p * D <= 2 ^ (-53) * X + 2 ^ (-1075) * D).
  { assert (G : (q' - p) * D <= (2 ^ (-53) * (X / D) + 2 ^ (-1075)) * D)
      by (apply Qmult_le_compat_r; lra).
    assert (G1 : (q' - p) * D == A - p * D) by (rewrite Eq; field; lra).
    assert (G2 : (2 ^ (-53) * (X / D) + 2 ^ (-1075)) * D ==
                 2 ^ (-53) * X + 2 ^ (-1075) * D) by (field; lra).
    lra. }
  set (Y := X + 2 ^ (-53) * X + 2 ^ (-1075) * D).
  destruct (round64_error m' M Y HMr) as [M1 M2]; [unfold Y; lra | unfold Y; lra |].
  set (S := (2 ^ (-53) * Y + 2 ^ (-1075)) + (2 ^ (-53) * X + 2 ^ (-1075) * D) +
            (2 ^ (-53) * Aa + 2 ^ (-1075))).
  destruct (round64_error s' r (Av + S) Hr) as [R1 R2];
    [unfold S; lra | unfold S; lra |].
  (* the range *)
  assert (HetaD : 2 ^ (-1075) * D <=
                  2 ^ (-1075) * ((1 + 2 ^ (-53)) * (mx - mn) + 1)).
  { apply Qmult_le_l; lra. }
  assert (Hetad : 0 <= 2 ^ (-1075) * (mx - mn)) by (apply Qmult_le_0_compat; lra).
  assert (HAa : 0 <= Aa) by apply Qabs_nonneg.
  assert (HAv : 0 <= Av) by apply Qabs_nonneg.
  unfold S, Y, X in *.
  change (2 ^ (-53)) with (1 # 9007199254740992) in *.
  change (2 ^ (-51)) with (1 # 2251799813685248) in *.
  set (eta := 2 ^ (-1075)) in *. clearbody eta.
  split; lra.
Qed.

End RoundTrip.

Section Classification.
Context {rt : Runtime}.
Variable this : Instance.








End Classification.

Section Layout.
Context {rt : Runtime}.
Variable this : Instance.

(** What a column adds does not depend on what was encoded before it. *)
Lemma encodeColumn_acc (data : list value) (acc : list num) (arr : string * ColumnMeta) :
  encodeColumn this data acc arr =
  rbind (encodeColumn this data [] arr) (fun seg => Ok (acc ++ seg)).
Proof.
  unfold encodeColumn.
  destruct (String.eqb (dtype (snd arr)) "number").
  - destruct (inputMin this), (inputMax this); reflexivity.
  - destruct (String.eqb (dtype (snd arr)) "string").
    + destruct (legend (snd arr)) as [lg |]; [| reflexivity].
      destruct (own_property lg _); reflexivity.
    + simpl. rewrite app_nil_r. reflexivity.
Qed.

Lemma own_property_In {A : Type} (o : list (string * A)) (k : string) (a : A) :
  own_property o k = Some a -> exists k', In (k', a) o.
Proof.
  induction o as [| [k' v] o IH]; simpl; [discriminate |].
  destruct (String.eqb k' k).
  - intros [= ->]. exists k'. left. reflexivity.
  - intros H. destruct (IH H) as [k'' Hin]. exists k''. right. exact Hin.
Qed.






End Layout.

Section Closed.
#[local] Existing Instance integer_runtime.

Lemma predictInternal_unseen_value_witness :
  encodeInput colorNet (VObj [("color", VStr "green")]) = Throw TypeError /\
  predictInternal colorNet (VObj [("color", VStr "green")]) = Throw TypeError.
Proof.
  apply (predictInternal_unseen_value colorNet _ "color"
           {| dtype := "string"; legend := Some colorLegend |} colorLegend).
  - simpl. left. reflexivity.
  - reflexivity.
  - reflexivity.
  - reflexivity.
Defined.

(** C1, as stated, fails: the unseen label [green] is refused with a
    [TypeError], not with [ValueNotInVocabulary]. *)
Lemma predictInternal_green_not_ValueNotInVocabulary :
  predictInternal colorNet (VObj [("color", VStr "green")]) = Throw TypeError /\
  predictInternal colorNet (VObj [("color", VStr "green")]) <> Throw ValueNotInVocabulary.
Proof. split; [reflexivity | discriminate]. Qed.

Lemma encodeColumn_constant_column_witness :
  encodeColumn constantNet [VNum (int 7)] []
    ("x", {| dtype := "number"; legend := None |}) = Ok [NaN].
Proof.
  apply (encodeColumn_constant_column constantNet [VNum (int 7)] [] "x"
           {| dtype := "number"; legend := None |} [int 7] [int 7] 7 7);
    reflexivity.
Defined.

(** C2, as stated, fails: on the constant column [x], whose rows all held 7,
    the value 7 is encoded as [NaN] and handed to the model. *)
Lemma encodeInput_constant_column_NaN :
  encodeInput constantNet (VObj [("x", VNum (int 7))]) = Ok [NaN] /\
  predictInternal constantNet (VObj [("x", VNum (int 7))]) =
    Ok {| output := OutValue (Fin 4); tensor := Some [Fin (1 # 2)] |}.
Proof. split; reflexivity. Qed.



(** With the bounds 0 and 26, the value 15 comes back as
    [15 - 2^-49]: the round trip is not exact. *)
Lemma regression_round_trip_witness :
  denormVal64 (normVal64 (Fin 15) (Fin 0) (Fin 26)) (Fin 0) (Fin 26) =
    Fin (8444249301319679 # 562949953421312) /\
  (Qabs ((8444249301319679 # 562949953421312) - 15) <= tolerance 15 0 26)%Q.
Proof.
  split; [vm_compute; reflexivity |].
  refine (proj1 (regression_round_trip 15 0 26 eq_refl)
                (8444249301319679 # 562949953421312) _).
  vm_compute. reflexivity.
Defined.

(** C4, as stated, fails: with the bounds [-2^1023] and [2^1023] the range
    [max - min] overflows, and the value 0 comes back as [NaN]; the doubles
    of the kernel agree. *)
Lemma regression_round_trip_overflow :
  ((- 2 ^ 1023 < 2 ^ 1023)%Q) /\
  denormVal64 (normVal64 (Fin 0) (Fin (- 2 ^ 1023)) (Fin (2 ^ 1023)))
              (Fin (- 2 ^ 1023)) (Fin (2 ^ 1023)) = NaN /\
  number (-0x1p1023)%float = Fin (Qred (- 2 ^ 1023)) /\
  number 0x1p1023%float = Fin (Qred (2 ^ 1023)) /\
  number (denormVal_float (normVal_float 0 (-0x1p1023) 0x1p1023)
                          (-0x1p1023) 0x1p1023) = NaN.
Proof. repeat split; vm_compute; reflexivity. Qed.

(** A value inside the bounds can come back as an infinity while
    [max - min] is finite: with the largest double as [max] and as the
    value, and [min = 3 * 2^970]. *)
Example regression_round_trip_infinite :
  denormVal64 (normVal64 (Fin (2 ^ 1024 - 2 ^ 971)) (Fin (3 * 2 ^ 970))
                         (Fin (2 ^ 1024 - 2 ^ 971)))
              (Fin (3 * 2 ^ 970)) (Fin (2 ^ 1024 - 2 ^ 971)) = PInf /\
  number (denormVal_float
            (normVal_float 0x1.fffffffffffffp1023 0x1.8p971 0x1.fffffffffffffp1023)
            0x1.8p971 0x1.fffffffffffffp1023) = PInf.
Proof. split; vm_compute; reflexivity. Qed.

(** The tolerance is relative to the magnitude of the operands: between
    the bounds [-2^54] and [2^54] the value 1 is absorbed by the bound and
    comes back as 0, an error of 1 under a tolerance of 8 and more. *)
Example regression_round_trip_absorbed :
  denormVal64 (normVal64 (Fin 1) (Fin (- 2 ^ 54)) (Fin (2 ^ 54)))
              (Fin (- 2 ^ 54)) (Fin (2 ^ 54)) = Fin 0 /\
  (8 <= tolerance 1 (- 2 ^ 54) (2 ^ 54))%Q.
Proof. split; [vm_compute; reflexivity |]. apply Qle_bool_iff. vm_compute. reflexivity. Qed.

(** On these operands the rounding of the model is that of the doubles of
    the kernel. *)
Example round_trip_binary64 :
  number (denormVal_float (normVal_float 15 0 26) 0 26) =
    denormVal64 (normVal64 (Fin 15) (Fin 0) (Fin 26)) (Fin 0) (Fin 26) /\
  number (denormVal_float (normVal_float 12 10 20) 10 20) =
    denormVal64 (normVal64 (Fin 12) (Fin 10) (Fin 20)) (Fin 10) (Fin 20) /\
  number (denormVal_float (normVal_float 1 (-0x1p54) 0x1p54) (-0x1p54) 0x1p54) =
    denormVal64 (normVal64 (Fin 1) (Fin (- 2 ^ 54)) (Fin (2 ^ 54)))
                (Fin (- 2 ^ 54)) (Fin (2 ^ 54)).
Proof. repeat split; vm_compute; reflexivity. Qed.



(** The ranking of the scenario: [b] first, then [a] before [c], which tie
    and keep the order of the legend. *)
Example classificationOutput_tie :
  classificationOutput tieNet [Fin (1 # 4); Fin (1 # 2); Fin (1 # 4)] =
  Ok (OutLabels [{| label := "b"; confidence := VNum (Fin (1 # 2)) |};
                 {| label := "a"; confidence := VNum (Fin (1 # 4)) |};
                 {| label := "c"; confidence := VNum (Fin (1 # 4)) |}]).
Proof. reflexivity. Qed.


(** The encoding of the scenario: the one-hot cells of [color] come first,
    as in [meta.inputs], although the sample lists [size] first. *)
Example encodeInput_mixed :
  encodeInput mixedNet (VArr [VNum (int 4); VStr "blue"]) =
  Ok [int 0; int 1; Fin (1 # 2)].
Proof. reflexivity. Qed.

End Closed.

End NeuralNetworkSpec.

(* ================================================================== *)
(** ** Properties of the older class *)
(* ================================================================== *)

Module LegacyNeuralNetworkSpec.
Import JS JSFacts Float32 Float32Facts LegacyNeuralNetwork.

Section Construction.
Variable tf_build : Model -> result Model.

(** [createModel] leaves the units, the learning rate and the keys of the
    configuration alone. *)
Lemma createModel_fields (c c' : Config) (m : Model) :
  createModel tf_build c = Ok (c', m) ->
  learningRate c' = learningRate c /\
  inputUnits c' = inputUnits c /\
  outputUnits c' = outputUnits c /\
  inputKeys c' = inputKeys c /\
  outputKeys c' = outputKeys c.
Proof.
  unfold createModel.
  destruct (task_is c "regression").
  - destruct (createModelInternal tf_build _) as [e | m']; [discriminate |].
    intros [= <- _]. repeat split.
  - destruct (task_is c "classification").
    + destruct (createModelInternal tf_build _) as [e | m']; [discriminate |].
      intros [= <- _]. repeat split.
    + intros [= <- _]. repeat split.
Qed.

Lemma constructor_config (options : list (string * value)) (this : Instance) :
  constructor tf_build options = Ok this ->
  exists m : Model,
    createModel tf_build (initialConfig options) = Ok (config this, m).
Proof.
  unfold constructor.
  destruct (createModel tf_build (initialConfig options)) as [e | [c m]];
    [discriminate |].
  intros [= <-]. exists m. reflexivity.
Qed.

(** C10: when [options.outputs] is truthy, the learning rate of the
    configuration that the constructor writes is [options.outputs], and so
    is the learning rate of every instance that the constructor builds (the
    tensor library can refuse the layers, and the constructor then throws);
    and two option objects that differ in their [learningRate] only have
    the same outcome, the same instance or the same exception of the tensor
    library: that option is never read. *)
Theorem constructor_learningRate_is_outputs (options : list (string * value)) :
  truthy (get_prop options "outputs") = true ->
  learningRate (initialConfig options) = get_prop options "outputs" /\
  (forall this : Instance,
     constructor tf_build options = Ok this ->
     learningRate (config this) = get_prop options "outputs") /\
  forall options' : list (string * value),
    (forall k : string, k <> "learningRate" -> get_prop options' k = get_prop options k) ->
    constructor tf_build options' = constructor tf_build options.
Proof.
  intros Ht. split; [| split].
  - unfold initialConfig. cbn [learningRate]. unfold or_else. rewrite Ht. reflexivity.
  - intros this Hthis. destruct (constructor_config options this Hthis) as [m Hm].
    destruct (createModel_fields _ _ _ Hm) as [-> _].
    unfold initialConfig. cbn [learningRate]. unfold or_else. rewrite Ht. reflexivity.
  - intros options' Hsame. unfold constructor, initialConfig.
    rewrite !Hsame by discriminate. reflexivity.
Qed.

End Construction.

(** *** [normalize] *)

Lemma fold_min_Fin (qs : list Q) :
  qs <> [] ->
  exists lo : Q,
    fold_right nmin PInf (map Fin qs) = Fin lo /\ In lo qs /\
    forall q, In q qs -> (lo <= q)%Q.
Proof.
  induction qs as [| q qs IH]; [congruence |]. intros _.
  destruct qs as [| q' qs].
  - exists q. repeat split; [left; reflexivity |].
    intros x [<- | []]. apply Qle_refl.
  - destruct IH as (lo & Hlo & Hin & Hle); [discriminate |].
    cbn [map fold_right] in *. rewrite Hlo.
    cbn [nmin]. destruct (Qle_bool q lo) eqn:Hq.
    + apply Qle_bool_iff in Hq. exists q. repeat split; [left; reflexivity |].
      intros x [<- | Hx]; [apply Qle_refl |].
      apply Qle_trans with lo; [exact Hq | apply Hle; exact Hx].
    + assert (Hlt : (lo < q)%Q).
      { apply Qnot_le_lt. intros H. apply Qle_bool_iff in H. congruence. }
      exists lo. repeat split; [right; exact Hin |].
      intros x [<- | Hx]; [apply Qlt_le_weak; exact Hlt | apply Hle; exact Hx].
Qed.

Lemma fold_max_Fin (qs : list Q) :
  qs <> [] ->
  exists hi : Q,
    fold_right nmax NInf (map Fin qs) = Fin hi /\ In hi qs /\
    forall q, In q qs -> (q <= hi)%Q.
Proof.
  induction qs as [| q qs IH]; [congruence |]. intros _.
  destruct qs as [| q' qs].
  - exists q. repeat split; [left; reflexivity |].
    intros x [<- | []]. apply Qle_refl.
  - destruct IH as (hi & Hhi & Hin & Hle); [discriminate |].
    cbn [map fold_right] in *. rewrite Hhi.
    cbn [nmax]. destruct (Qle_bool q hi) eqn:Hq.
    + apply Qle_bool_iff in Hq. exists hi. repeat split; [right; exact Hin |].
      intros x [<- | Hx]; [exact Hq | apply Hle; exact Hx].
    + assert (Hlt : (hi < q)%Q).
      { apply Qnot_le_lt. intros H. apply Qle_bool_iff in H. congruence. }
      exists q. repeat split; [left; reflexivity |].
      intros x [<- | Hx]; [apply Qle_refl |].
      apply Qle_trans with hi; [apply Hle; exact Hx | apply Qlt_le_weak; exact Hlt].
Qed.

(** The minimum and the maximum of finite elements, one at least, are two
    of them and bound them all. *)
Lemma reduce_min_Fin (qs : list Q) :
  qs <> [] ->
  exists lo : Q,
    reduce_min (map Fin qs) = Fin lo /\ In lo qs /\
    forall q, In q qs -> (lo <= q)%Q.
Proof.
  intros H. destruct (fold_min_Fin qs H) as (lo & Hlo & Hrest).
  exists lo. split; [| exact Hrest].
  destruct qs; [congruence | exact Hlo].
Qed.

Lemma reduce_max_Fin (qs : list Q) :
  qs <> [] ->
  exists hi : Q,
    reduce_max (map Fin qs) = Fin hi /\ In hi qs /\
    forall q, In q qs -> (q <= hi)%Q.
Proof.
  intros H. destruct (fold_max_Fin qs H) as (hi & Hhi & Hrest).
  exists hi. split; [| exact Hrest].
  destruct qs; [congruence | exact Hhi].
Qed.

(** The elements of a tensor made of numbers that do not overflow are
    binary32 numbers. *)
Lemma cells_on_grid (qs xs : list Q) :
  map round32 (map Fin qs) = map Fin xs -> Forall on_grid xs.
Proof.
  revert xs. induction qs as [| q qs IH]; intros [| x xs]; cbn [map];
    try discriminate; [constructor |].
  intros H.
  assert (Hx : round32 (Fin q) = Fin x) by congruence.
  assert (Hrest : map round32 (map Fin qs) = map Fin xs) by congruence.
  constructor; [| apply IH; exact Hrest].
  eapply round32_on_grid. exact Hx.
Qed.

(** Min-max scaling in binary32 of an element between two distinct bounds
    whose difference does not overflow lies in [0, 1]. *)
Lemma scaled32_in_unit_interval (x lo hi : Q) :
  on_grid lo -> on_grid hi ->
  (lo <= x)%Q -> (x <= hi)%Q -> (lo < hi)%Q ->
  sub32 (Fin hi) (Fin lo) <> PInf ->
  nle (Fin 0) (div32 (sub32 (Fin x) (Fin lo)) (sub32 (Fin hi) (Fin lo))) /\
  nle (div32 (sub32 (Fin x) (Fin lo)) (sub32 (Fin hi) (Fin lo))) (Fin 1).
Proof.
  intros Glo Ghi Hlo Hhi Hlt. unfold sub32. rewrite !nsub_Fin.
  set (D := Qred (hi + Qred (- lo))). set (A := Qred (x + Qred (- lo))).
  assert (HD : (D == hi - lo)%Q) by (unfold D; rewrite !Qred_correct; ring).
  assert (HA : (A == x - lo)%Q) by (unfold A; rewrite !Qred_correct; ring).
  pose proof (grid_gap hi lo Ghi Glo Hlt) as Hgap.
  pose proof (pow2_pos (-149)) as Hu.
  assert (HDu : (2 ^ (-149) <= D)%Q) by lra.
  pose proof (round32_positive D HDu) as HDpos.
  assert (HA0 : (0 <= A)%Q) by lra.
  assert (HAD : (A <= D)%Q) by lra.
  pose proof (round32_nonneg A HA0) as HAnn.
  pose proof (round32_monotone A D HA0 HAD) as HAm.
  intros Hfin.
  destruct (round32 (Fin D)) as [d | | |]; cbn [nle] in HDpos;
    try contradiction; try congruence.
  destruct (round32 (Fin A)) as [a | | |]; cbn [nle] in HAnn, HAm; try contradiction.
  unfold div32, ndiv, Qsign.
  destruct (d ?= 0)%Q eqn:Cd; compare_facts; try lra.
  apply round32_unit_interval; rewrite Qred_correct.
  - apply Qle_shift_div_l; lra.
  - apply Qle_shift_div_r; lra.
Qed.

(** Min-max scaling in binary32 between equal bounds is [0 / 0]. *)
Lemma scaled32_constant (x lo hi : Q) :
  (x == lo)%Q -> (hi == lo)%Q ->
  div32 (sub32 (Fin x) (Fin lo)) (sub32 (Fin hi) (Fin lo)) = NaN.
Proof.
  intros Hx Hh.
  assert (Hzero : forall a : Q, (a == lo)%Q -> sub32 (Fin a) (Fin lo) = Fin 0).
  { intros a Ha. unfold sub32. rewrite nsub_Fin. unfold round32.
    assert (Hc : (Qred (a + Qred (- lo)) ?= 0)%Q = Eq).
    { apply Qeq_alt. rewrite !Qred_correct, Ha. ring. }
    rewrite Hc. reflexivity. }
  rewrite (Hzero x Hx), (Hzero hi Hh). reflexivity.
Qed.

(** C6 (as amended): in a regression, [normalize] stores the target column
    in binary32 and rescales every element [v] to [(v - min) / (max - min)],
    computed in binary32, with the minimum and the maximum of that column
    over the same items.  For elements that are finite, the results lie in
    [0, 1] as soon as two of the elements differ and [max - min] does not
    overflow, and are all [NaN] when the column holds one distinct value.
    (Nothing is said of the input columns.) *)
Theorem normalize_targets (this : Instance) (data : list Item) (r : Normalized)
    (keys : list string) (qs xs : list Q) :
  task_is (config this) "classification" = false ->
  outputKeys (config this) = Some keys ->
  targetColumn keys data = map Fin qs ->
  map round32 (map Fin qs) = map Fin xs ->
  normalize this data = Ok r ->
  let lo := reduce_min (map Fin xs) in
  let hi := reduce_max (map Fin xs) in
  targetMin r = F32 lo /\
  targetMax r = F32 hi /\
  targets r = Float32 (map (fun v => div32 (sub32 v lo) (sub32 hi lo)) (map Fin xs)) /\
  ((exists a b : Q, In a xs /\ In b xs /\ (a < b)%Q) ->
   sub32 hi lo <> PInf ->
   Forall (fun t => nle (Fin 0) t /\ nle t (Fin 1)) (float_cells (targets r))) /\
  ((xs <> [] /\ exists m : Q, forall x, In x xs -> (x == m)%Q) ->
   Forall (fun t => t = NaN) (float_cells (targets r))).
Proof.
  intros Htask Hkeys Hcol Hcells Hrun. cbv zeta.
  unfold normalize in Hrun. cbv zeta in Hrun.
  rewrite Hkeys, Htask, Hcol in Hrun.
  destruct (inputKeys (config this)) as [inputLabels |]; [| discriminate].
  unfold tf_tensor in Hrun. rewrite Hcells in Hrun.
  cbn [rbind Ok tensor_max tensor_min sub sub_scalar div float_cells float_scalar]
    in Hrun.
  destruct (tf_reshape _ _ _) as [e | normalizedInputs]; [discriminate |].
  cbn [rbind] in Hrun.
  destruct inputLabels as [| l ls]; [discriminate |].
  injection Hrun as <-. cbn [targetMin targetMax targets float_cells].
  rewrite map_map.
  split; [reflexivity |]. split; [reflexivity |]. split; [reflexivity |].
  pose proof (cells_on_grid qs xs Hcells) as Hgrid. rewrite Forall_forall in Hgrid.
  split.
  - intros (a & b & Ha & Hb & Hab).
    assert (Hne : xs <> []) by (intros ->; contradiction).
    destruct (reduce_min_Fin xs Hne) as (lo & -> & Hinlo & Hlo).
    destruct (reduce_max_Fin xs Hne) as (hi & -> & Hinhi & Hhi).
    assert (Hlt : (lo < hi)%Q).
    { pose proof (Hlo a Ha). pose proof (Hhi b Hb). lra. }
    intros Hfin. rewrite map_map. apply Forall_forall. intros t Ht.
    apply in_map_iff in Ht. destruct Ht as (v & <- & Hv).
    apply scaled32_in_unit_interval; auto.
  - intros (Hne & m & Hm).
    destruct (reduce_min_Fin xs Hne) as (lo & -> & Hinlo & _).
    destruct (reduce_max_Fin xs Hne) as (hi & -> & Hinhi & _).
    rewrite map_map. apply Forall_forall. intros t Ht.
    apply in_map_iff in Ht. destruct Ht as (v & <- & Hv).
    apply scaled32_constant.
    + rewrite (Hm v Hv), (Hm lo Hinlo). reflexivity.
    + rewrite (Hm hi Hinhi), (Hm lo Hinlo). reflexivity.
Qed.

Section Closed.

(** The options of the example are accepted, and the instance has the
    learning rate 3. *)
Lemma constructor_learningRate_is_outputs_witness :
  learningRate (initialConfig [("outputs", VNum (Fin 3));
                               ("learningRate", VNum (Fin (1 # 100)))]) =
    VNum (Fin 3) /\
  (exists this : Instance,
     constructor checked_build [("outputs", VNum (Fin 3));
                                ("learningRate", VNum (Fin (1 # 100)))] = Ok this /\
     learningRate (config this) = VNum (Fin 3)) /\
  forall options' : list (string * value),
    (forall k : string, k <> "learningRate" ->
       get_prop options' k =
       get_prop [("outputs", VNum (Fin 3)); ("learningRate", VNum (Fin (1 # 100)))] k) ->
    constructor checked_build options' =
    constructor checked_build [("outputs", VNum (Fin 3));
                               ("learningRate", VNum (Fin (1 # 100)))].
Proof.
  destruct (constructor_learningRate_is_outputs checked_build
              [("outputs", VNum (Fin 3)); ("learningRate", VNum (Fin (1 # 100)))]
              eq_refl) as (Hwritten & Hrate & Hsame).
  split; [exact Hwritten |]. split; [| exact Hsame].
  eexists. split; [reflexivity |]. apply Hrate. reflexivity.
Defined.

(** The learning rate given by the caller is lost, and the optimizer of a
    regression model descends with [options.outputs]. *)
Example constructor_ignores_learningRate :
  modelOptimizer
    (config (built (constructor checked_build
                      [("outputs", VNum (Fin 3));
                       ("learningRate", VNum (Fin (1 # 100)))]))) =
  tf_train_sgd (VNum (Fin 3)).
Proof. reflexivity. Qed.

(** Output units that are not a positive integer are refused by the
    library: no instance is built. *)
Example constructor_refused_units :
  constructor checked_build [("outputs", VNum (Fin (5 # 2)))] = Throw ValueError.
Proof. reflexivity. Qed.

(** The targets 10 and 20 become 0 and 1. *)
Lemma normalize_targets_witness :
  normalize xyNet [item 1 10; item 2 20] = Ok scaled /\
  targetMin scaled = F32 (Fin 10) /\
  targetMax scaled = F32 (Fin 20) /\
  targets scaled = Float32 [Fin 0; Fin 1] /\
  Forall (fun t => nle (Fin 0) t /\ nle t (Fin 1)) (float_cells (targets scaled)).
Proof.
  destruct (normalize_targets xyNet [item 1 10; item 2 20] scaled ["y"]
              [10; 20]%Q [10; 20]%Q eq_refl eq_refl eq_refl eq_refl eq_refl)
    as (Hmin & Hmax & Htargets & Hunit & _).
  split; [reflexivity |]. split; [exact Hmin |]. split; [exact Hmax |].
  split; [exact Htargets |].
  apply Hunit.
  - exists 10%Q, 20%Q. split; [left; reflexivity |].
    split; [right; left; reflexivity | reflexivity].
  - discriminate.
Defined.

(** C6, as stated, fails: a target column that holds 7 on every item
    normalizes to [NaN]. *)
Lemma normalize_constant_column_NaN :
  normalize xyNet [item 1 7; item 2 7] =
  Ok {| inputs := Float32 [Fin (-1); Fin (-13981013 # 16777216)];
        targets := Float32 [NaN; NaN];
        inputMax := F32 (Fin 2);
        inputMin := F32 (Fin 1);
        targetMax := F32 (Fin 7);
        targetMin := F32 (Fin 7) |}.
Proof. reflexivity. Qed.

(** Two targets that differ, [-3 * 2^126] and [3 * 2^126], whose
    difference overflows binary32: the larger one becomes
    [Infinity / Infinity]. *)
Example normalize_range_overflow :
  exists r : Normalized,
    normalize xyNet
      [ {| xs := [("x", Fin 1)]; ys := [("y", Fin (- (3 * 2 ^ 126)))] |};
        {| xs := [("x", Fin 2)]; ys := [("y", Fin (3 * 2 ^ 126))] |} ] = Ok r /\
    targets r = Float32 [Fin 0; NaN].
Proof. eexists. split; vm_compute; reflexivity. Qed.

(** Two targets that differ as numbers and not as binary32 numbers,
    [2^24] and [2^24 + 1], are one distinct value in the tensor. *)
Example normalize_targets_collapse :
  exists r : Normalized,
    normalize xyNet
      [ {| xs := [("x", Fin 1)]; ys := [("y", Fin 16777216)] |};
        {| xs := [("x", Fin 2)]; ys := [("y", Fin 16777217)] |} ] = Ok r /\
    targets r = Float32 [NaN; NaN].
Proof. eexists. split; vm_compute; reflexivity. Qed.

(** The inputs are rescaled with the bounds of the targets,
    [(x - targetMin) / (targetMax - inputMin)]: with inputs 1, 2 and targets
    10, 20 they are the binary32 numbers next to [-9/19] and [-8/19], and
    leave the unit interval. *)
Example normalize_inputs_use_target_bounds :
  normalize xyNet [item 1 10; item 2 20] = Ok scaled /\
  inputs scaled = Float32 [div32 (Fin (-9)) (Fin 19); div32 (Fin (-8)) (Fin 19)].
Proof. split; reflexivity. Qed.

End Closed.

End LegacyNeuralNetworkSpec.

(* ================================================================== *)
(** ** Properties of [DiyNeuralNetwork] *)
(* ================================================================== *)

Module DiyNeuralNetworkSpec.
Import JS DiyNeuralNetwork SpecModel.

Section Loading.
Context {ops : NeuralNetworkDataOps}.

(** The line on the console leaves the data alone. *)
Lemma console_log_run (line : string) (s : Instance) :
  console_log line s =
  (Ok tt, {| neuralNetworkData := neuralNetworkData s;
             training := training s;
             console := console s ++ [line] |}).
Proof. reflexivity. Qed.

(** C7 (as amended): on a locator that neither ends in [.csv] or [.json] nor
    contains [blob], [loadDataInternal] calls no loader and raises no error
    of its own: it writes "Not a valid data format. Must be csv or json" to
    the console and goes on, on the data it already had, with
    [createMetaDataFromData] and [warmUp], whose outcome is its outcome. *)
Theorem loadDataInternal_unrecognized_format (url : string) (ins outs : value)
    (s : Instance) :
  endsWith url ".csv" = false ->
  endsWith url ".json" = false ->
  includes url "blob" = false ->
  loadDataInternal {| dataUrl := VStr url; opt_inputs := ins; opt_outputs := outs |} s =
  bind (createMetaDataFromData None)
       (fun _ => bind (warmUp None None) (fun _ => ret tt))
       {| neuralNetworkData := neuralNetworkData s;
          training := training s;
          console := console s ++ ["Not a valid data format. Must be csv or json"] |}.
Proof.
  intros Hcsv Hjson Hblob. unfold loadDataInternal. cbn [dataUrl].
  rewrite Hcsv, Hjson, Hblob.
  unfold bind at 1. rewrite console_log_run. reflexivity.
Qed.

(** Running a method: the operations of [M] are unfolded on the state. *)
Ltac run_methods :=
  unfold inferAndSummarize, summary, createMetaDataFromData, summarizeData,
    bind, or_default, ret, lift, modify, gets, rbind, Ok.

Lemma inferAndSummarize_result (dataRaw : list RawRecord) (s : Instance) :
  fst (inferAndSummarize dataRaw s) = summary dataRaw.
Proof.
  run_methods.
  destruct (data_createMetaDataFromData dataRaw) as [e | m]; [reflexivity |]. cbn.
  destruct (getRawStats dataRaw (inputs m) "xs") as [e | inputMeta]; [reflexivity |].
  destruct (getRawStats dataRaw (outputs m) "ys") as [e | outputMeta]; reflexivity.
Qed.

Lemma inferAndSummarize_state (dataRaw : list RawRecord) (s : Instance) (m : Meta) :
  fst (inferAndSummarize dataRaw s) = Ok m ->
  snd (inferAndSummarize dataRaw s) = set_meta m s.
Proof.
  run_methods.
  destruct (data_createMetaDataFromData dataRaw) as [e | m0]; [discriminate |]. cbn.
  destruct (getRawStats dataRaw (inputs m0) "xs") as [e | inputMeta]; [discriminate |].
  destruct (getRawStats dataRaw (outputs m0) "ys") as [e | outputMeta]; [discriminate |].
  cbn. intros [= <-]. reflexivity.
Qed.

(** C9: schema inference followed by the statistics pass returns a result
    that depends on the raw data only: it is the same from any two states of
    the instance, and running the two again on the instance that a first
    successful run left returns the same meta data and leaves them in
    place. *)
Theorem inferAndSummarize_deterministic (dataRaw : list RawRecord) (s1 s2 : Instance) :
  fst (inferAndSummarize dataRaw s1) = fst (inferAndSummarize dataRaw s2) /\
  forall m : Meta,
    fst (inferAndSummarize dataRaw s1) = Ok m ->
    inferAndSummarize dataRaw (snd (inferAndSummarize dataRaw s1)) =
    (Ok m, snd (inferAndSummarize dataRaw s1)).
Proof.
  split.
  - rewrite !inferAndSummarize_result. reflexivity.
  - intros m Hm.
    pose proof (inferAndSummarize_state dataRaw s1 m Hm) as Hs1. rewrite Hs1.
    assert (Hm' : fst (inferAndSummarize dataRaw (set_meta m s1)) = Ok m).
    { rewrite inferAndSummarize_result, <- (inferAndSummarize_result dataRaw s1).
      exact Hm. }
    pose proof (inferAndSummarize_state dataRaw (set_meta m s1) m Hm') as Hs2.
    destruct (inferAndSummarize dataRaw (set_meta m s1)) as [r s'].
    cbn [fst snd] in *. subst r s'. reflexivity.
Qed.

End Loading.

Section Closed.
#[local] Existing Instance small_ops.

Lemma loadDataInternal_unrecognized_format_witness :
  loadDataInternal
    {| dataUrl := VStr "data.txt"; opt_inputs := VArr []; opt_outputs := VArr [] |} fresh =
  bind (createMetaDataFromData None)
       (fun _ => bind (warmUp None None) (fun _ => ret tt))
       {| neuralNetworkData := neuralNetworkData fresh;
          training := training fresh;
          console := console fresh ++ ["Not a valid data format. Must be csv or json"] |}.
Proof.
  apply (loadDataInternal_unrecognized_format "data.txt" (VArr []) (VArr []) fresh);
    reflexivity.
Defined.

(** C7, as stated, fails: the locator [data.txt] is of no supported format,
    and the operation neither fails with [UnsupportedFormat] nor stops: it
    completes, with the message on the console and the meta data of the
    (empty) data it had. *)
Lemma loadDataInternal_txt_continues :
  loadDataInternal
    {| dataUrl := VStr "data.txt"; opt_inputs := VArr []; opt_outputs := VArr [] |} fresh =
  (Ok tt,
   {| neuralNetworkData := {| data_raw := []; meta := emptyMeta |};
      training := [];
      console := ["Not a valid data format. Must be csv or json"] |}) /\
  fst (loadDataInternal
         {| dataUrl := VStr "data.txt"; opt_inputs := VArr []; opt_outputs := VArr [] |}
         fresh) <> Throw UnsupportedFormat.
Proof. split; [reflexivity | discriminate]. Qed.

(** A supported locator loads, and the pipeline of the specification gives
    the vocabulary, the bounds and the encoded rows of its scenario. *)
Example loadDataInternal_colors :
  loadDataInternal
    {| dataUrl := VStr "colors.csv"; opt_inputs := VArr [VStr "color"];
       opt_outputs := VArr [VStr "size"] |} fresh =
  (Ok tt,
   {| neuralNetworkData :=
        {| data_raw := colorSize;
           meta :=
             {| inputs := [("color", {| dtype := "string"; min := None; max := None;
                                        legend := Some [("red", [Fin 1; Fin 0]);
                                                        ("blue", [Fin 0; Fin 1])] |})];
                outputs := [("size", {| dtype := "number"; min := Some (Fin 3);
                                        max := Some (Fin 5); legend := None |})];
                inputUnits := 2;
                outputUnits := 1 |} |};
      training := [{| encoded_xs := [Fin 1; Fin 0]; encoded_ys := [Fin 3] |};
                   {| encoded_xs := [Fin 0; Fin 1]; encoded_ys := [Fin 5] |}];
      console := [] |}).
Proof. reflexivity. Qed.

(** The two passes on the scenario, from a fresh instance and from the
    instance that a load left: the same meta data. *)
Example inferAndSummarize_colors :
  fst (inferAndSummarize colorSize fresh) =
    Ok {| inputs := [("color", {| dtype := "string"; min := None; max := None;
                                  legend := Some [("red", [Fin 1; Fin 0]);
                                                  ("blue", [Fin 0; Fin 1])] |})];
          outputs := [("size", {| dtype := "number"; min := Some (Fin 3);
                                  max := Some (Fin 5); legend := None |})];
          inputUnits := 2;
          outputUnits := 1 |} /\
  fst (inferAndSummarize colorSize
         (snd (loadDataInternal
                 {| dataUrl := VStr "colors.csv"; opt_inputs := VArr [];
                    opt_outputs := VArr [] |} fresh))) =
    fst (inferAndSummarize colorSize fresh).
Proof. split; reflexivity. Qed.

(** A locator that the world does not hold is a [LoadError] of the loader. *)
Example loadDataInternal_missing :
  fst (loadDataInternal
         {| dataUrl := VStr "missing.json"; opt_inputs := VArr []; opt_outputs := VArr [] |}
         fresh) = Throw LoadError.
Proof. reflexivity. Qed.

End Closed.

End DiyNeuralNetworkSpec.

(* ================================================================== *)
(** ** Facts about objects *)
(* ================================================================== *)

Module JSMoreFacts.
Import JS JSMore.

Lemma own_property_assign {A : Type} (o : list (string * A)) (k k' : string) (v : A) :
  own_property (assign o k v) k' =
  if String.eqb k k' then Some v else own_property o k'.
Proof.
  induction o as [| [k0 v0] o IH]; simpl.
  - reflexivity.
  - destruct (String.eqb k0 k) eqn:E0; simpl.
    + apply String.eqb_eq in E0. subst k0.
      destruct (String.eqb k k'); reflexivity.
    + destruct (String.eqb k0 k') eqn:E1.
      * apply String.eqb_eq in E1. subst k0.
        rewrite String.eqb_sym in E0. rewrite E0. reflexivity.
      * exact IH.
Qed.

Lemma own_property_app {A : Type} (o1 o2 : list (string * A)) (k : string) :
  own_property (o1 ++ o2) k =
  match own_property o1 k with
  | Some v => Some v
  | None => own_property o2 k
  end.
Proof.
  induction o1 as [| [k0 v0] o1 IH]; simpl; [reflexivity |].
  destruct (String.eqb k0 k); [reflexivity | exact IH].
Qed.

Lemma own_property_fold_assign {A : Type} (props o : list (string * A)) (k : string) :
  own_property (fold_left (fun o kv => assign o (fst kv) (snd kv)) props o) k =
  match last_assigned props k with
  | Some v => Some v
  | None => own_property o k
  end.
Proof.
  unfold last_assigned. revert o. induction props as [| [k0 v0] props IH]; intros o.
  - reflexivity.
  - cbn [fold_left fst snd rev]. rewrite IH, own_property_app, own_property_assign.
    destruct (own_property (rev props) k); [reflexivity |].
    simpl. destruct (String.eqb k0 k); reflexivity.
Qed.

(** The property of an object literal is the one assigned last. *)
Lemma own_property_literal {A : Type} (props : list (string * A)) (k : string) :
  own_property (literal props) k = last_assigned props k.
Proof.
  unfold literal. rewrite own_property_fold_assign.
  destruct (last_assigned props k); reflexivity.
Qed.

(** In a literal that spreads [given] after its own properties, a property
    of [given] wins, and the literal's own stays otherwise. *)
Lemma own_property_defaults {A : Type} (defaults given : list (string * A)) (k : string) :
  own_property (literal (defaults ++ given)) k =
  match last_assigned given k with
  | Some v => Some v
  | None => last_assigned defaults k
  end.
Proof.
  rewrite own_property_literal. unfold last_assigned.
  rewrite rev_app_distr. apply own_property_app.
Qed.

Lemma own_property_perm {A : Type} (o o' : list (string * A)) (k : string) :
  Permutation o o' -> NoDup (map fst o) -> own_property o k = own_property o' k.
Proof.
  induction 1 as [| [k1 v1] o o' _ IH | [k1 v1] [k2 v2] o | o1 o2 o3 H12 IH12 H23 IH23];
    intros Hnd.
  - reflexivity.
  - simpl. destruct (String.eqb k1 k); [reflexivity |].
    apply IH. inversion Hnd; assumption.
  - simpl. destruct (String.eqb k2 k) eqn:E2, (String.eqb k1 k) eqn:E1; try reflexivity.
    apply String.eqb_eq in E1, E2. subst k1 k2.
    inversion Hnd as [| ? ? Hnotin _]. exfalso. apply Hnotin. left. reflexivity.
  - rewrite IH12 by exact Hnd. apply IH23.
    eapply Permutation_NoDup; [apply Permutation_map; exact H12 | exact Hnd].
Qed.

(** With distinct names, the last assignment is the only one. *)
Lemma last_assigned_NoDup {A : Type} (props : list (string * A)) (k : string) :
  NoDup (map fst props) -> last_assigned props k = own_property props k.
Proof.
  intros Hnd. unfold last_assigned. symmetry.
  apply own_property_perm; [apply Permutation_rev | exact Hnd].
Qed.

End JSMoreFacts.

(* ================================================================== *)
(** ** Further properties of [NeuralNetwork.predictInternal] *)
(* ================================================================== *)

Module NeuralNetworkRestSpec.
Import JS JSFacts JSMoreFacts NeuralNetwork NeuralNetworkRest Scenarios.

(** *** Reading the sample *)

Section Sample.
Context {rt : Runtime}.
Variable this : Instance.

Lemma sampleValue_object (props : list (string * value)) (prop : string) :
  sampleValue this (VObj props) prop =
  if in_dec string_dec prop (config_inputs this) then get_prop props prop else VUndef.
Proof.
  unfold sampleValue, inputData, value_at, array_get, indexOf.
  destruct (indexOf_from_spec (config_inputs this) prop 0) as [Hin Hout].
  destruct (in_dec string_dec prop (config_inputs this)) as [H | H].
  - destruct (Hin H) as [Hle Hnth].
    replace (indexOf_from (config_inputs this) prop 0 <? 0)%Z with false
      by (symmetry; apply Z.ltb_ge; exact Hle).
    rewrite nth_error_map.
    replace (Z.to_nat (indexOf_from (config_inputs this) prop 0))
      with (Z.to_nat (indexOf_from (config_inputs this) prop 0 - 0)) by (f_equal; lia).
    rewrite Hnth. reflexivity.
  - rewrite (Hout H). reflexivity.
Qed.

(** X1: for a sample given as an object, the value that the encoding reads
    for a column is the property of that name of the sample, [undefined] when
    the sample has no such property, and [undefined] for every column that
    is not among the configured inputs; for a sample given as an array it is
    the element at the position of the column among the configured
    inputs. *)
Theorem sampleValue_lookup (prop : string) :
  (forall props : list (string * value),
     sampleValue this (VObj props) prop =
     if in_dec string_dec prop (config_inputs this) then get_prop props prop else VUndef) /\
  (forall elems : list value,
     sampleValue this (VArr elems) prop =
     if in_dec string_dec prop (config_inputs this)
     then value_at elems (indexOf (config_inputs this) prop)
     else VUndef).
Proof.
  split.
  - intros props. apply sampleValue_object.
  - intros elems. unfold sampleValue, inputData.
    destruct (in_dec string_dec prop (config_inputs this)) as [H | H]; [reflexivity |].
    unfold indexOf. destruct (indexOf_from_spec (config_inputs this) prop 0) as [_ Hout].
    rewrite (Hout H). reflexivity.
Qed.

(** X2: the order in which an object sample lists its properties does not
    matter: two samples with the same properties, of distinct names, give
    the same prediction (or the same error). *)
Theorem predictInternal_property_order (props props' : list (string * value)) :
  Permutation props props' ->
  NoDup (map fst props) ->
  predictInternal this (VObj props) = predictInternal this (VObj props').
Proof.
  intros Hperm Hnd.
  assert (Hdata : inputData this (VObj props) = inputData this (VObj props')).
  { unfold inputData. apply map_ext. intros prop. unfold get_prop.
    rewrite (own_property_perm props props' prop Hperm Hnd). reflexivity. }
  unfold predictInternal, encodeInput. rewrite Hdata. reflexivity.
Qed.

(** The normalisation of [NaN] is [NaN], whatever the bounds. *)
Lemma normVal_NaN (mn mx : num) : normVal NaN mn mx = NaN.
Proof. reflexivity. Qed.

(** X3: a numeric column for which an object sample has no property is not
    an error: with recorded bounds, of any value, its cell is [NaN]. *)
Theorem encodeColumn_missing_property (props : list (string * value))
    (acc : list num) (prop : string) (cm : ColumnMeta) (mn mx : list num) :
  dtype cm = "number" ->
  inputMin this = Some mn ->
  inputMax this = Some mx ->
  own_property props prop = None ->
  encodeColumn this (inputData this (VObj props)) acc (prop, cm) = Ok (acc ++ [NaN]).
Proof.
  intros Hd Hmn Hmx Hmiss.
  pose proof (sampleValue_object props prop) as Hval. unfold sampleValue in Hval.
  unfold encodeColumn. cbn [fst snd]. rewrite Hd, Hmn, Hmx, Hval. cbn [String.eqb].
  assert (Hundef : (if in_dec string_dec prop (config_inputs this)
                    then get_prop props prop else VUndef) = VUndef).
  { destruct (in_dec string_dec prop (config_inputs this)); [| reflexivity].
    unfold get_prop. rewrite Hmiss. reflexivity. }
  rewrite Hundef. reflexivity.
Qed.

Lemma encodeColumn_other_dtype (data : list value) (acc : list num)
    (arr : string * ColumnMeta) :
  encoded_dtype arr = false -> encodeColumn this data acc arr = Ok acc.
Proof.
  unfold encoded_dtype, encodeColumn. intros H.
  apply orb_false_iff in H. destruct H as [-> ->]. reflexivity.
Qed.

Lemma forEach_encodeColumn_filter (data : list value)
    (cols : list (string * ColumnMeta)) (acc : list num) :
  forEach (encodeColumn this data) cols acc =
  forEach (encodeColumn this data) (filter encoded_dtype cols) acc.
Proof.
  revert acc. induction cols as [| c cols IH]; intros acc; [reflexivity |].
  cbn [filter]. destruct (encoded_dtype c) eqn:E; cbn [forEach].
  - destruct (encodeColumn this data acc c) as [e | acc']; [reflexivity |].
    cbn [rbind]. apply IH.
  - rewrite (encodeColumn_other_dtype data acc c E). cbn [rbind Ok]. apply IH.
Qed.

(** X4: the columns whose dtype is neither ['number'] nor ['string'] are
    passed over without an error: the sample is encoded as it would be if
    the meta data did not list them. *)
Theorem encodeInput_skips_other_dtypes (sample : value) :
  encodeInput this sample =
  encodeInput (with_inputs this (filter encoded_dtype (inputs (meta this)))) sample.
Proof.
  exact (forEach_encodeColumn_filter (inputData this sample) (inputs (meta this)) []).
Qed.

End Sample.

(** *** Errors and the shape of the result *)

Lemma map_from_throws {A B : Type} (f : A -> Z -> result B) (err : js_error)
    (arr : list A) (idx : Z) (e : js_error) :
  (forall a i e', f a i = Throw e' -> e' = err) ->
  map_from f arr idx = Throw e -> e = err.
Proof.
  intros Hf. revert idx. induction arr as [| a arr IH]; intros idx; simpl.
  - discriminate.
  - destruct (f a idx) as [e' | b] eqn:Hfa; simpl.
    + intros [= <-]. eapply Hf. exact Hfa.
    + destruct (map_from f arr (idx + 1)%Z) as [e' | bs] eqn:Hrest; simpl.
      * intros [= <-]. eapply IH. exact Hrest.
      * discriminate.
Qed.

Lemma map_from_length {A B : Type} (f : A -> Z -> result B)
    (arr : list A) (idx : Z) (bs : list B) :
  map_from f arr idx = Ok bs -> List.length bs = List.length arr.
Proof.
  revert idx bs. induction arr as [| a arr IH]; intros idx bs; simpl.
  - intros [= <-]. reflexivity.
  - destruct (f a idx) as [e | b]; simpl; [discriminate |].
    destruct (map_from f arr (idx + 1)%Z) as [e | bs'] eqn:Hrest; simpl; [discriminate |].
    intros [= <-]. simpl. f_equal. eapply IH. exact Hrest.
Qed.

Section Outcome.
Context {rt : Runtime}.
Variable this : Instance.

Lemma rankColumn_throws (predictions : list num) (arr : string * ColumnMeta)
    (i : Z) (e : js_error) :
  rankColumn predictions arr i = Throw e -> e = TypeError.
Proof.
  unfold rankColumn. destruct (legend (snd arr)) as [lg |]; [| intros [= <-]; reflexivity].
  destruct (map_indexed (labelConfidence predictions) lg) as [e' | l] eqn:H; simpl.
  - intros [= <-]. unfold map_indexed in H.
    apply (map_from_throws _ TypeError) in H; [exact H |].
    unfold labelConfidence. discriminate.
  - discriminate.
Qed.

Lemma classificationOutput_throws (predictions : list num) (e : js_error) :
  classificationOutput this predictions = Throw e -> e = TypeError.
Proof.
  unfold classificationOutput, map_indexed.
  destruct (map_from (rankColumn predictions) (outputs (meta this)) 0) as [e' | l] eqn:H;
    simpl; [| discriminate].
  intros [= <-]. apply (map_from_throws _ TypeError) in H; [exact H |].
  apply rankColumn_throws.
Qed.

Lemma regressionOutput_throws (predictions : list num) (e : js_error) :
  regressionOutput this predictions = Throw e -> e = TypeError.
Proof.
  unfold regressionOutput, map_indexed.
  destruct (map_from (regressionValue this predictions) (outputs (meta this)) 0)
    as [e' | l] eqn:H; simpl; [| discriminate].
  intros [= <-]. apply (map_from_throws _ TypeError) in H; [exact H |].
  intros a i e0. unfold regressionValue.
  destruct (outputMin this), (outputMax this); try discriminate;
    intros [= <-]; reflexivity.
Qed.

Lemma forEach_encodeColumn_TypeError (data : list value)
    (cols : list (string * ColumnMeta)) (acc : list num) (e : js_error) :
  forEach (encodeColumn this data) cols acc = Throw e -> e = TypeError.
Proof.
  revert acc. induction cols as [| c cols IH]; intros acc; simpl; [discriminate |].
  destruct (encodeColumn this data acc c) as [e' | acc'] eqn:Hc; simpl.
  - intros [= <-]. unfold encodeColumn in Hc.
    destruct (String.eqb (dtype (snd c)) "number").
    + destruct (inputMin this), (inputMax this); unfold Throw, Ok in Hc; congruence.
    + destruct (String.eqb (dtype (snd c)) "string"); [| discriminate].
      destruct (legend (snd c)) as [lg |]; [| unfold Throw in Hc; congruence].
      destruct (own_property lg _); unfold Throw, Ok in Hc; congruence.
  - apply IH.
Qed.

(** X5: [predictInternal] never hands the model a vector whose length is
    not [inputUnits]: when it returns, the sample was encoded into exactly
    [inputUnits] cells, and for the two tasks the tensor of the result is
    what the model answered to these cells and the output is that answer
    decoded by the branch of the task; for any other task the result holds
    neither tensor nor output.  The only errors it raises are the
    [TypeError] of the runtime and the shape error of the tensor library. *)
Theorem predictInternal_outcome (sample : value) :
  (forall r : Results,
     predictInternal this sample = Ok r ->
     exists xs : list num,
       encodeInput this sample = Ok xs /\
       Z.of_nat (List.length xs) = inputUnits (meta this) /\
       (task this = "classification" ->
        tensor r = Some (model_predict this xs) /\
        classificationOutput this (model_predict this xs) = Ok (output r)) /\
       (task this <> "classification" -> task this = "regression" ->
        tensor r = Some (model_predict this xs) /\
        regressionOutput this (model_predict this xs) = Ok (output r)) /\
       (task this <> "classification" -> task this <> "regression" ->
        tensor r = None /\ output r = OutNull)) /\
  (forall e : js_error,
     predictInternal this sample = Throw e -> e = TypeError \/ e = TensorShapeError).
Proof.
  unfold predictInternal, tf_tensor. split.
  - intros r. destruct (encodeInput this sample) as [e | xs]; simpl; [discriminate |].
    destruct (Z.of_nat (List.length xs) =? inputUnits (meta this))%Z eqn:Hlen;
      simpl; [| discriminate].
    apply Z.eqb_eq in Hlen. intros H. exists xs. split; [reflexivity |].
    split; [exact Hlen |].
    destruct (String.eqb (task this) "classification") eqn:Hc.
    + apply String.eqb_eq in Hc.
      destruct (classificationOutput this (model_predict this xs)) as [e | out];
        simpl in H; [discriminate |].
      injection H as <-. repeat split; try reflexivity; intros; congruence.
    + apply String.eqb_neq in Hc.
      destruct (String.eqb (task this) "regression") eqn:Hr.
      * apply String.eqb_eq in Hr.
        destruct (regressionOutput this (model_predict this xs)) as [e | out];
          simpl in H; [discriminate |].
        injection H as <-. repeat split; try reflexivity; intros; congruence.
      * apply String.eqb_neq in Hr. injection H as <-.
        repeat split; try reflexivity; intros; congruence.
  - intros e. destruct (encodeInput this sample) as [e' | xs] eqn:Henc; simpl.
    + intros [= <-]. left. eapply forEach_encodeColumn_TypeError. exact Henc.
    + destruct (Z.of_nat (List.length xs) =? inputUnits (meta this))%Z; simpl.
      * destruct (String.eqb (task this) "classification").
        -- destruct (classificationOutput this (model_predict this xs)) eqn:Hc;
             simpl; [| discriminate].
           intros [= <-]. left. eapply classificationOutput_throws. exact Hc.
        -- destruct (String.eqb (task this) "regression"); [| discriminate].
           destruct (regressionOutput this (model_predict this xs)) eqn:Hr;
             simpl; [| discriminate].
           intros [= <-]. left. eapply regressionOutput_throws. exact Hr.
      * intros [= <-]. right. reflexivity.
Qed.

(** X6: a classification whose meta data hold an output column without a
    legend (a numeric output) fails with a [TypeError], whatever the model
    answered. *)
Theorem classificationOutput_without_legend (predictions : list num)
    (arr : string * ColumnMeta) :
  In arr (outputs (meta this)) ->
  legend (snd arr) = None ->
  classificationOutput this predictions = Throw TypeError.
Proof.
  intros Hin Hleg. unfold classificationOutput, map_indexed.
  assert (H : map_from (rankColumn predictions) (outputs (meta this)) 0 = Throw TypeError).
  { generalize 0%Z as idx. revert Hin.
    induction (outputs (meta this)) as [| c cols IH]; intros Hin idx; [contradiction |].
    simpl. destruct Hin as [-> | Hin].
    - unfold rankColumn at 1. rewrite Hleg. reflexivity.
    - destruct (rankColumn predictions c idx) as [e | l] eqn:Hc; simpl.
      + apply rankColumn_throws in Hc. subst e. reflexivity.
      + rewrite (IH Hin). reflexivity. }
  rewrite H. reflexivity.
Qed.

Lemma map_from_labelConfidence (predictions : list num)
    (lg : list (string * list num)) (idx : Z) :
  exists labelled : list Labelled,
    map_from (labelConfidence predictions) lg idx = Ok labelled /\
    map label labelled = map fst lg /\
    Forall (fun e => exists i : Z, confidence e = num_at predictions i) labelled.
Proof.
  revert idx. induction lg as [| a lg IH]; intros idx; simpl.
  - exists []. repeat split. constructor.
  - destruct (IH (idx + 1)%Z) as (l & Hl & Hlab & Hconf). rewrite Hl. simpl.
    eexists. split; [reflexivity |]. split.
    + simpl. f_equal. exact Hlab.
    + constructor; [exists idx; reflexivity | exact Hconf].
Qed.

Lemma map_from_rankColumn_legends (predictions : list num)
    (cols : list (string * ColumnMeta)) (idx : Z) :
  Forall (fun c => legend (snd c) <> None) cols ->
  exists ranked, map_from (rankColumn predictions) cols idx = Ok ranked.
Proof.
  intros H. revert idx. induction H as [| c cols Hc _ IH]; intros idx; simpl.
  - eexists; reflexivity.
  - unfold rankColumn at 1. destruct (legend (snd c)) as [lg |]; [| congruence].
    destruct (map_from_labelConfidence predictions lg 0) as (l & Hl & _).
    unfold map_indexed. rewrite Hl. simpl.
    destruct (IH (idx + 1)%Z) as [r Hr]. rewrite Hr. eexists; reflexivity.
Qed.

(** X7: whatever the model answered (too few activations, [NaN]), the
    classification result lists every label of the legend of the first
    output column exactly once, and the confidence of each entry is an
    element of the answer or [undefined]. *)
Theorem classificationOutput_labels (predictions : list num)
    (prop : string) (cm : ColumnMeta) (rest : list (string * ColumnMeta))
    (lg : list (string * list num)) :
  outputs (meta this) = (prop, cm) :: rest ->
  legend cm = Some lg ->
  Forall (fun c => legend (snd c) <> None) rest ->
  exists ranked : list Labelled,
    classificationOutput this predictions = Ok (OutLabels ranked) /\
    Permutation (map label ranked) (map fst lg) /\
    Forall (fun e => exists i : Z, confidence e = num_at predictions i) ranked.
Proof.
  intros Hout Hlg Hrest.
  destruct (map_from_labelConfidence predictions lg 0) as (l & Hl & Hlab & Hconf).
  exists (sort byConfidence l). split; [| split].
  - unfold classificationOutput. unfold map_indexed at 1. rewrite Hout.
    cbn [map_from]. unfold rankColumn at 1. cbn [snd]. rewrite Hlg.
    unfold map_indexed. rewrite Hl. cbn [rbind Ok].
    destruct (map_from_rankColumn_legends predictions rest (0 + 1)%Z Hrest) as [r Hr].
    rewrite Hr. reflexivity.
  - rewrite <- Hlab. apply Permutation_map. apply sort_perm.
  - eapply Permutation_Forall; [symmetry; apply sort_perm | exact Hconf].
Qed.

End Outcome.

Section Closed.
#[local] Existing Instance integer_runtime.

Lemma predictInternal_property_order_witness :
  predictInternal mixedNet (VObj [("size", VNum (int 4)); ("color", VStr "blue")]) =
  predictInternal mixedNet (VObj [("color", VStr "blue"); ("size", VNum (int 4))]).
Proof.
  apply (predictInternal_property_order mixedNet).
  - apply perm_swap.
  - simpl. repeat constructor; simpl; intuition discriminate.
Defined.

Lemma encodeColumn_missing_property_witness :
  encodeColumn constantNet (inputData constantNet (VObj [("y", VNum (int 1))])) []
    ("x", {| dtype := "number"; legend := None |}) = Ok ([] ++ [NaN]).
Proof.
  apply (encodeColumn_missing_property constantNet [("y", VNum (int 1))] [] "x"
           {| dtype := "number"; legend := None |} [int 7] [int 7]);
    reflexivity.
Defined.

Lemma classificationOutput_without_legend_witness :
  classificationOutput numericOutputNet [Fin (1 # 2)] = Throw TypeError.
Proof.
  apply (classificationOutput_without_legend numericOutputNet [Fin (1 # 2)]
           ("y", {| dtype := "number"; legend := None |})).
  - left. reflexivity.
  - reflexivity.
Defined.

Lemma classificationOutput_labels_witness :
  exists ranked : list Labelled,
    classificationOutput tieNet [NaN] = Ok (OutLabels ranked) /\
    Permutation (map label ranked) (map fst tieLegend) /\
    Forall (fun e => exists i : Z, confidence e = num_at [NaN] i) ranked.
Proof.
  apply (classificationOutput_labels tieNet [NaN] "kind"
           {| dtype := "string"; legend := Some tieLegend |} [] tieLegend).
  - reflexivity.
  - reflexivity.
  - constructor.
Defined.

End Closed.

End NeuralNetworkRestSpec.

(* ================================================================== *)
(** ** Further properties of the older class *)
(* ================================================================== *)

Module LegacyNeuralNetworkRestSpec.
Import JS JSMore JSFacts Float32 Float32Facts LegacyNeuralNetwork LegacyNeuralNetworkRest.
Import LegacyNeuralNetworkSpec.

(** *** The factory and the constructor *)

Section Factory.
Variable tf_build : Model -> result Model.

Lemma constructor_units (options : list (string * value)) (this : Instance) :
  constructor tf_build options = Ok this ->
  inputUnits (config this) = or_else (get_prop options "inputs") DEFAULTS.inputUnits /\
  outputUnits (config this) = or_else (get_prop options "outputs") DEFAULTS.outputUnits /\
  learningRate (config this) = or_else (get_prop options "outputs") DEFAULTS.learningRate.
Proof.
  intros Hthis. destruct (constructor_config tf_build options this Hthis) as [m Hm].
  destruct (createModel_fields tf_build _ _ _ Hm) as (-> & -> & -> & _).
  repeat split.
Qed.

(** X8: the factory called with counts, and not with an options object,
    stores the first count under the name [input], which the constructor
    does not read: the first argument has no effect on the outcome, the
    network that is built has the default 2 input units, and the second
    argument sets its output units and its learning rate. *)
Theorem neuralNetwork_ignores_first_count (a b : value) :
  instanceof_Object a = false ->
  (forall this : Instance,
     neuralNetwork tf_build a b = Ok this ->
     inputUnits (config this) = DEFAULTS.inputUnits /\
     outputUnits (config this) = or_else b DEFAULTS.outputUnits /\
     learningRate (config this) = or_else b DEFAULTS.learningRate) /\
  forall a' : value,
    instanceof_Object a' = false ->
    neuralNetwork tf_build a' b = neuralNetwork tf_build a b.
Proof.
  intros Ha.
  assert (Hn : forall x, instanceof_Object x = false ->
                 neuralNetwork tf_build x b =
                 constructor tf_build [("input", x); ("outputs", b)]).
  { intros x Hx. destruct x; try reflexivity; discriminate. }
  rewrite (Hn a Ha). split.
  - intros this Hthis. exact (constructor_units _ _ Hthis).
  - intros a' Ha'. rewrite (Hn a' Ha'). reflexivity.
Qed.

(** X9: for the task ['classification'], [createModel] overwrites the
    hidden units, the two activations, the loss and the optimizer, so the
    constructor has the same outcome whatever the caller gave for
    [hiddenUnits], [activationHidden], [activationOutput], [modelLoss],
    [modelOptimizer] (and [learningRate]): the hidden layer of the instance
    that is built has 16 units. *)
Theorem constructor_classification_overrides (options : list (string * value)) :
  get_prop options "task" = VStr "classification" ->
  (forall this : Instance,
     constructor tf_build options = Ok this ->
     hiddenUnits (config this) = VNum (Fin 16)) /\
  forall options' : list (string * value),
    (forall k : string,
       k <> "hiddenUnits" -> k <> "activationHidden" -> k <> "activationOutput" ->
       k <> "modelLoss" -> k <> "modelOptimizer" -> k <> "learningRate" ->
       get_prop options' k = get_prop options k) ->
    constructor tf_build options' = constructor tf_build options.
Proof.
  intros Htask.
  assert (Hkind : forall o : list (string * value),
            get_prop o "task" = VStr "classification" ->
            task_is (initialConfig o) "regression" = false /\
            task_is (initialConfig o) "classification" = true).
  { intros o Ho. unfold task_is, initialConfig. cbn [task]. rewrite Ho.
    split; reflexivity. }
  split.
  - intros this Hthis.
    destruct (constructor_config tf_build options this Hthis) as [m Hm].
    destruct (Hkind options Htask) as [Hr Hc].
    unfold createModel in Hm. rewrite Hr, Hc in Hm.
    destruct (createModelInternal tf_build _) as [e | m']; [discriminate |].
    cbv beta iota delta [rbind Ok] in Hm. injection Hm as Hcfg _.
    rewrite <- Hcfg. reflexivity.
  - intros options' Hsame.
    assert (Htask' : get_prop options' "task" = VStr "classification")
      by (rewrite (Hsame "task") by discriminate; exact Htask).
    destruct (Hkind options Htask) as [Hr Hc].
    destruct (Hkind options' Htask') as [Hr' Hc'].
    unfold constructor, createModel. rewrite Hr, Hc, Hr', Hc'.
    unfold createModelInternal, set_classification, initialConfig.
    cbn [task debug activationHidden activationOutput inputUnits outputUnits noVal
         hiddenUnits learningRate modelMetrics modelLoss modelOptimizer batchSize
         epochs inputKeys outputKeys].
    rewrite (Hsame "task"), (Hsame "debug"), (Hsame "inputs"), (Hsame "outputs"),
      (Hsame "noVal"), (Hsame "modelMetrics"), (Hsame "batchSize"), (Hsame "epochs")
      by discriminate.
    reflexivity.
Qed.

Lemma constructor_keys (options : list (string * value)) (this : Instance) :
  constructor tf_build options = Ok this ->
  inputKeys (config this) = None /\ outputKeys (config this) = None.
Proof.
  intros Hthis. destruct (constructor_config tf_build options this Hthis) as [m Hm].
  destruct (createModel_fields tf_build _ _ _ Hm) as (_ & _ & _ & -> & ->).
  split; reflexivity.
Qed.

(** *** Loading *)

Section Loading.
Context {rt : Runtime}.
Variable csv : value -> string -> result (list Item).

(** X10: [loadDataInternal] without [outputKeys] never reads the data: the
    default of the output keys is [new Array(this.outputUnits / 2)], that is
    [new Array(NaN)], a [RangeError].  The input keys are recorded before
    (those given, or the single key 0), the output keys are not; this is
    what [loadData] does on every locator given as a string, and on an
    instance fresh from the constructor [normalize] then fails with a
    [TypeError]. *)
Theorem loadDataInternal_without_outputKeys (this : Instance) (url : value)
    (given : option (list value)) :
  let run := loadDataInternal csv this
               {| dataUrl := url; opt_inputKeys := given; opt_outputKeys := None |} in
  fst run = inl RangeError /\
  inputKeys (config (snd run)) =
    Some (map ToPropertyKey (match given with
                             | Some keys => keys
                             | None => [VNum (Fin 0)]
                             end)) /\
  outputKeys (config (snd run)) = outputKeys (config this) /\
  (forall location : string,
     loadData csv this (Locator location) =
     loadDataInternal csv this
       {| dataUrl := VStr location; opt_inputKeys := None; opt_outputKeys := None |}) /\
  (forall (options : list (string * value)) (fresh : Instance) (location : string)
          (data : list Item),
     constructor tf_build options = Ok fresh ->
     normalize (snd (loadData csv fresh (Locator location))) data = Throw TypeError).
Proof.
  cbv zeta. split; [| split; [| split; [| split]]].
  - destruct given; reflexivity.
  - destruct given; reflexivity.
  - destruct given; reflexivity.
  - reflexivity.
  - intros options fresh location data Hfresh. unfold normalize.
    destruct (constructor_keys options fresh Hfresh) as [_ Hout].
    cbn [loadData loadDataInternal keys_or_default new_Array this_inputUnits
         opt_inputKeys opt_outputKeys this_outputUnits ToNumber ndiv snd
         set_inputKeys config outputKeys].
    rewrite Hout. reflexivity.
Qed.

(** With both arrays of keys, the outcome is that of reading the locator,
    and the keys are recorded as property names. *)
Lemma loadDataInternal_with_keys (this : Instance) (url : value)
    (ik ok : list value) :
  let run := loadDataInternal csv this
               {| dataUrl := url; opt_inputKeys := Some ik; opt_outputKeys := Some ok |} in
  fst run =
    match csv url (ToPropertyKey (value_at ok 0)) with
    | inl e => inl (Js e)
    | inr data => inr data
    end /\
  inputKeys (config (snd run)) = Some (map ToPropertyKey ik) /\
  outputKeys (config (snd run)) = Some (map ToPropertyKey ok).
Proof.
  cbv zeta. cbn [loadDataInternal keys_or_default opt_inputKeys opt_outputKeys dataUrl].
  destruct (csv url (ToPropertyKey (value_at ok 0))); repeat split.
Qed.

End Loading.

End Factory.

(** *** [normalize] *)

Lemma inputCells_length (labels : list string) (data : list Item) :
  List.length (inputCells labels data) = (List.length labels * List.length data)%nat.
Proof.
  unfold inputCells. induction labels as [| l labels IH]; [reflexivity |].
  cbn [map List.concat]. rewrite length_app, length_map, IH. reflexivity.
Qed.

Lemma tf_reshape_Ok (t : tensor) (rows : nat) (cols : value) (t' : tensor) :
  tf_reshape t rows cols = Ok t' -> t' = t.
Proof.
  unfold tf_reshape. destruct cols as [| | | [q | | |] | | |]; try discriminate.
  destruct (_ && _)%bool; [| discriminate]. intros [= <-]. reflexivity.
Qed.

(** The size of a tensor after [sub] and [div]. *)
Lemma size_sub (t : tensor) (s : scalar) : size (sub t s) = size t.
Proof.
  destruct t as [cells | cells], s as [x | z]; cbn [sub size float_cells];
    rewrite ?length_map; reflexivity.
Qed.

Lemma size_div (t : tensor) (s : scalar) : size (div t s) = size t.
Proof.
  destruct t as [cells | cells], s as [x | z]; cbn [div size float_cells];
    rewrite ?length_map; reflexivity.
Qed.

(** X11: when [normalize] returns, on input cells that are finite as
    binary32 numbers, the bounds [inputMin] and [inputMax] that it returns
    are the minimum and the maximum of all the input cells as stored in the
    tensor (over all the input columns together): two of the cells, with
    every cell between them, or [NaN] both when there is no cell.  There
    is at least one input key, and the tensor of the inputs holds one cell
    per key and item. *)
Theorem normalize_input_bounds (this : Instance) (data : list Item) (r : Normalized)
    (labels : list string) (qs stored : list Q) :
  inputKeys (config this) = Some labels ->
  inputCells labels data = map Fin qs ->
  map round32 (map Fin qs) = map Fin stored ->
  normalize this data = Ok r ->
  inputMin r = F32 (reduce_min (map Fin stored)) /\
  inputMax r = F32 (reduce_max (map Fin stored)) /\
  (stored = [] -> inputMin r = F32 NaN /\ inputMax r = F32 NaN) /\
  (stored <> [] ->
   exists lo hi : Q,
     In lo stored /\ In hi stored /\
     inputMin r = F32 (Fin lo) /\ inputMax r = F32 (Fin hi) /\
     Forall (fun x => (lo <= x)%Q /\ (x <= hi)%Q) stored) /\
  size (inputs r) = (List.length labels * List.length data)%nat /\
  labels <> [].
Proof.
  intros Hkeys Hcells Hstored Hrun. unfold normalize in Hrun. cbv zeta in Hrun.
  rewrite Hkeys in Hrun.
  destruct (outputKeys (config this)) as [keys |]; [| discriminate].
  change (List.concat (map (fun header => map (fun d => cell (xs d) header) data) labels))
    with (inputCells labels data) in Hrun.
  destruct (if task_is (config this) "classification"
            then tf_oneHot (tf_tensor1d_int32 (targetColumn keys data)) (noVal (config this))
            else Ok (tf_tensor (targetColumn keys data))) as [e | outputTensor];
    [discriminate |].
  cbn [rbind] in Hrun.
  destruct (tf_reshape _ _ _) as [e | normalizedInputs] eqn:Hshape; [discriminate |].
  cbn [rbind] in Hrun. apply tf_reshape_Ok in Hshape.
  destruct labels as [| l ls]; [discriminate |].
  injection Hrun as <-. cbn [inputMin inputMax inputs].
  assert (Hsize : size (tf_tensor (inputCells (l :: ls) data)) =
                  (List.length (l :: ls) * List.length data)%nat).
  { unfold tf_tensor. cbn [size]. rewrite length_map. apply inputCells_length. }
  unfold tf_tensor in *. rewrite Hcells, Hstored in *.
  cbn [tensor_min tensor_max].
  split; [reflexivity |]. split; [reflexivity |].
  split; [| split; [| split; [| discriminate]]].
  - intros ->. split; reflexivity.
  - intros Hne.
    destruct (reduce_min_Fin stored Hne) as (lo & -> & Hinlo & Hlo).
    destruct (reduce_max_Fin stored Hne) as (hi & -> & Hinhi & Hhi).
    exists lo, hi. repeat split; try assumption.
    apply Forall_forall. intros x Hx. split; auto.
  - subst normalizedInputs. rewrite size_div, size_sub. exact Hsize.
Qed.

Lemma fold_min_bits (z : Z) (cells : list Z) :
  bit z -> Forall bit cells ->
  fold_right Z.min z cells =
  if ((0 =? z) || existsb (Z.eqb 0) cells)%Z then 0%Z else 1%Z.
Proof.
  intros Hz. induction 1 as [| x l Hx _ IH].
  - destruct Hz as [-> | ->]; reflexivity.
  - cbn [fold_right existsb]. rewrite IH.
    destruct Hx as [-> | ->]; destruct (0 =? z)%Z; destruct (existsb (Z.eqb 0) l);
      reflexivity.
Qed.

Lemma fold_max_bits (z : Z) (cells : list Z) :
  bit z -> Forall bit cells ->
  fold_right Z.max z cells =
  if ((1 =? z) || existsb (Z.eqb 1) cells)%Z then 1%Z else 0%Z.
Proof.
  intros Hz. induction 1 as [| x l Hx _ IH].
  - destruct Hz as [-> | ->]; reflexivity.
  - cbn [fold_right existsb]. rewrite IH.
    destruct Hx as [-> | ->]; destruct (1 =? z)%Z; destruct (existsb (Z.eqb 1) l);
      reflexivity.
Qed.

Lemma tensor_min_bits (l : list Z) :
  Forall bit l ->
  tensor_min (Int32 l) =
  I32 (if existsb (Z.eqb 0) l then 0 else match l with [] => 0 | _ :: _ => 1 end).
Proof.
  intros H. destruct l as [| z cells]; [reflexivity |].
  inversion H as [| ? ? Hz Hcells]; subst.
  cbn [tensor_min existsb]. rewrite (fold_min_bits z cells Hz Hcells). reflexivity.
Qed.

Lemma tensor_max_bits (l : list Z) :
  Forall bit l ->
  tensor_max (Int32 l) = I32 (if existsb (Z.eqb 1) l then 1 else 0).
Proof.
  intros H. destruct l as [| z cells]; [reflexivity |].
  inversion H as [| ? ? Hz Hcells]; subst.
  cbn [tensor_max existsb]. rewrite (fold_max_bits z cells Hz Hcells). reflexivity.
Qed.

Lemma oneHot_row_bits (depth : nat) (i : Z) : Forall bit (oneHot_row depth i).
Proof.
  unfold oneHot_row. apply Forall_forall. intros x Hx.
  apply in_map_iff in Hx. destruct Hx as (j & <- & _).
  destruct (Z.of_nat j =? i)%Z; [right | left]; reflexivity.
Qed.

Lemma flat_map_bits (depth : nat) (indices : list Z) :
  Forall bit (flat_map (oneHot_row depth) indices).
Proof.
  induction indices as [| i indices IH]; [constructor |].
  cbn [flat_map]. apply Forall_app. split; [apply oneHot_row_bits | exact IH].
Qed.

Lemma existsb_zero_row (depth : nat) (i : Z) :
  (2 <= depth)%nat -> existsb (Z.eqb 0) (oneHot_row depth i) = true.
Proof.
  intros Hd. apply existsb_exists. exists 0%Z. split; [| reflexivity].
  unfold oneHot_row. apply in_map_iff.
  destruct (Z.eq_dec i 0) as [-> | Hi].
  - exists 1%nat. split; [reflexivity | apply in_seq; lia].
  - exists 0%nat. split.
    + replace (Z.of_nat 0 =? i)%Z with false; [reflexivity |].
      symmetry. apply Z.eqb_neq. simpl. congruence.
    + apply in_seq. lia.
Qed.

Lemma existsb_one_row (depth : nat) (i : Z) :
  existsb (Z.eqb 1) (oneHot_row depth i) =
  ((0 <=? i) && (i <? Z.of_nat depth))%Z.
Proof.
  destruct ((0 <=? i) && (i <? Z.of_nat depth))%Z eqn:Hr.
  - apply andb_true_iff in Hr. destruct Hr as [H0 H1].
    apply Z.leb_le in H0. apply Z.ltb_lt in H1.
    apply existsb_exists. exists 1%Z. split; [| reflexivity].
    unfold oneHot_row. apply in_map_iff. exists (Z.to_nat i). split.
    + replace (Z.of_nat (Z.to_nat i) =? i)%Z with true; [reflexivity |].
      symmetry. apply Z.eqb_eq. lia.
    + apply in_seq. lia.
  - apply not_true_is_false. intros H. apply existsb_exists in H.
    destruct H as (x & Hx & Hone). unfold oneHot_row in Hx.
    apply in_map_iff in Hx. destruct Hx as (j & <- & Hj). apply in_seq in Hj.
    destruct (Z.of_nat j =? i)%Z eqn:E; [| discriminate].
    apply Z.eqb_eq in E. apply andb_false_iff in Hr.
    destruct Hr as [Hr | Hr]; [apply Z.leb_gt in Hr | apply Z.ltb_ge in Hr]; lia.
Qed.

Lemma existsb_flat_map {A B : Type} (p : B -> bool) (f : A -> list B) (l : list A) :
  existsb p (flat_map f l) = existsb (fun a => existsb p (f a)) l.
Proof.
  induction l as [| a l IH]; [reflexivity |].
  cbn [flat_map existsb]. rewrite existsb_app, IH. reflexivity.
Qed.

Lemma existsb_one_hot (depth : Z) (labels : list Z) :
  (0 <= depth)%Z ->
  existsb (Z.eqb 1) (flat_map (oneHot_row (Z.to_nat depth)) labels) =
  existsb (in_range depth) labels.
Proof.
  intros Hd. rewrite existsb_flat_map.
  induction labels as [| i labels IH]; [reflexivity |].
  cbn [existsb]. rewrite IH, existsb_one_row. unfold in_range.
  rewrite Z2Nat.id by exact Hd. reflexivity.
Qed.

Lemma existsb_zero_hot (depth : Z) (labels : list Z) :
  (2 <= depth)%Z -> labels <> [] ->
  existsb (Z.eqb 0) (flat_map (oneHot_row (Z.to_nat depth)) labels) = true.
Proof.
  intros Hd Hl. rewrite existsb_flat_map.
  destruct labels as [| i labels]; [congruence |].
  cbn [existsb]. rewrite existsb_zero_row by lia. reflexivity.
Qed.

(** X12: in a classification with [noVal] classes (at least 2) and at least
    one item, the one-hot targets are an [int32] tensor whose minimum is 0;
    when some label is one of the classes the maximum is 1 and [normalize]
    returns the one-hot targets unchanged; when no label is, the targets
    are all zero, the maximum is 0, and every normalized target is 0, the
    integer that an [int32] tensor stores for [0 / 0]. *)
Theorem normalize_one_hot_targets (this : Instance) (data : list Item) (r : Normalized)
    (keys : list string) (depth : Z) :
  task_is (config this) "classification" = true ->
  outputKeys (config this) = Some keys ->
  noVal (config this) = VNum (Fin (inject_Z depth)) ->
  (2 <= depth)%Z ->
  data <> [] ->
  normalize this data = Ok r ->
  let labels := tf_tensor1d_int32 (targetColumn keys data) in
  let hot := flat_map (oneHot_row (Z.to_nat depth)) labels in
  targetMin r = I32 0 /\
  (existsb (in_range depth) labels = true ->
   targetMax r = I32 1 /\ targets r = Int32 hot) /\
  (existsb (in_range depth) labels = false ->
   targetMax r = I32 0 /\ targets r = Int32 (map (fun _ => 0%Z) hot)).
Proof.
  intros Htask Hkeys Hno Hdepth Hdata Hrun. cbv zeta.
  unfold normalize in Hrun. cbv zeta in Hrun. rewrite Hkeys, Htask, Hno in Hrun.
  destruct (inputKeys (config this)) as [inputLabels |]; [| discriminate].
  unfold tf_oneHot in Hrun. cbn [inject_Z Qden Qnum] in Hrun.
  replace ((Zpos 1 =? 1) && (2 <=? depth))%Z with true in Hrun
    by (symmetry; apply andb_true_iff; split; [reflexivity | apply Z.leb_le; exact Hdepth]).
  cbn [rbind Ok] in Hrun.
  destruct (tf_reshape _ _ _) as [e | normalizedInputs]; [discriminate |].
  cbn [rbind] in Hrun.
  destruct inputLabels as [| l ls]; [discriminate |].
  injection Hrun as <-. cbn [targetMin targetMax targets].
  set (labels := tf_tensor1d_int32 (targetColumn keys data)).
  set (hot := flat_map (oneHot_row (Z.to_nat depth)) labels).
  assert (Hbits : Forall bit hot) by apply flat_map_bits.
  assert (Hzero : existsb (Z.eqb 0) hot = true).
  { apply existsb_zero_hot; [exact Hdepth |].
    unfold labels, tf_tensor1d_int32, targetColumn.
    destruct data; [congruence | discriminate]. }
  assert (Hone : existsb (Z.eqb 1) hot = existsb (in_range depth) labels)
    by (apply existsb_one_hot; lia).
  pose proof (tensor_min_bits hot Hbits) as Hmin. rewrite Hzero in Hmin.
  pose proof (tensor_max_bits hot Hbits) as Hmax. rewrite Hone in Hmax.
  cbn [tensor_min tensor_max] in Hmin, Hmax. rewrite Hmin, Hmax.
  split; [reflexivity |]. split.
  - intros Hin. rewrite Hin. split; [reflexivity |].
    cbn [sub sub_scalar div]. rewrite map_map. f_equal.
    rewrite <- (map_id hot) at 2. apply map_ext_in. intros x Hx.
    rewrite Forall_forall in Hbits. destruct (Hbits x Hx) as [-> | ->]; reflexivity.
  - intros Hout. rewrite Hout. split; [reflexivity |].
    cbn [sub sub_scalar div]. rewrite map_map. f_equal.
Qed.

(** X13: of the files given to [load], the description of the model is
    the last one whose name includes [.json], and the weights are the last
    one whose name includes [.bin] and not [.json]: a name with both counts
    as a description only, and a file of neither kind is passed over. *)
Theorem load_picks_last_files (File : Type) (name : File -> string) (files : list File) :
  fst (pickFiles File name files) =
    find (fun file => DiyNeuralNetwork.includes (name file) ".json") (rev files) /\
  snd (pickFiles File name files) =
    find (fun file => negb (DiyNeuralNetwork.includes (name file) ".json") &&
                      DiyNeuralNetwork.includes (name file) ".bin") (rev files).
Proof.
  unfold pickFiles. induction files as [| file files IH] using rev_ind.
  - split; reflexivity.
  - rewrite fold_left_app, rev_app_distr. cbn [fold_left rev app find].
    destruct IH as [IHm IHw].
    destruct (DiyNeuralNetwork.includes (name file) ".json"); cbn [negb andb fst snd].
    + split; [reflexivity | exact IHw].
    + destruct (DiyNeuralNetwork.includes (name file) ".bin"); cbn [fst snd].
      * split; [exact IHm | reflexivity].
      * split; assumption.
Qed.

Section Closed.

(** The library of the examples builds the network of the counts 4 and 3. *)
Lemma neuralNetwork_ignores_first_count_witness :
  (exists this : Instance,
     neuralNetwork checked_build (VNum (Fin 4)) (VNum (Fin 3)) = Ok this /\
     inputUnits (config this) = VNum (Fin 2) /\
     outputUnits (config this) = VNum (Fin 3) /\
     learningRate (config this) = VNum (Fin 3)) /\
  forall a' : value,
    instanceof_Object a' = false ->
    neuralNetwork checked_build a' (VNum (Fin 3)) =
    neuralNetwork checked_build (VNum (Fin 4)) (VNum (Fin 3)).
Proof.
  destruct (neuralNetwork_ignores_first_count checked_build (VNum (Fin 4)) (VNum (Fin 3))
              eq_refl) as [Hbuilt Hsame].
  split; [| exact Hsame].
  eexists. split; [reflexivity |]. apply Hbuilt. reflexivity.
Defined.

(** Output units that are not a positive integer: the factory throws, as
    the constructor does. *)
Example neuralNetwork_refused_units :
  neuralNetwork checked_build (VNum (Fin 4)) (VNum (Fin (5 # 2))) = Throw ValueError.
Proof. reflexivity. Qed.

Lemma constructor_classification_overrides_witness :
  (exists this : Instance,
     constructor checked_build
       [("task", VStr "classification"); ("hiddenUnits", VNum (Fin 64))] = Ok this /\
     hiddenUnits (config this) = VNum (Fin 16)) /\
  forall options' : list (string * value),
    (forall k : string,
       k <> "hiddenUnits" -> k <> "activationHidden" -> k <> "activationOutput" ->
       k <> "modelLoss" -> k <> "modelOptimizer" -> k <> "learningRate" ->
       get_prop options' k =
       get_prop [("task", VStr "classification"); ("hiddenUnits", VNum (Fin 64))] k) ->
    constructor checked_build options' =
    constructor checked_build
      [("task", VStr "classification"); ("hiddenUnits", VNum (Fin 64))].
Proof.
  destruct (constructor_classification_overrides checked_build
              [("task", VStr "classification"); ("hiddenUnits", VNum (Fin 64))]
              eq_refl) as [Hbuilt Hsame].
  split; [| exact Hsame].
  eexists. split; [reflexivity |]. apply Hbuilt. reflexivity.
Defined.

(** The inputs 1 and 2 of one column: the bounds are 1 and 2. *)
Lemma normalize_input_bounds_witness :
  normalize xyNet [item 1 10; item 2 20] = Ok scaled /\
  inputMin scaled = F32 (Fin 1) /\
  inputMax scaled = F32 (Fin 2) /\
  (exists lo hi : Q,
     In lo [1; 2]%Q /\ In hi [1; 2]%Q /\
     inputMin scaled = F32 (Fin lo) /\ inputMax scaled = F32 (Fin hi) /\
     Forall (fun x => (lo <= x)%Q /\ (x <= hi)%Q) [1; 2]%Q) /\
  size (inputs scaled) = 2%nat.
Proof.
  destruct (normalize_input_bounds xyNet [item 1 10; item 2 20] scaled ["x"]
              [1; 2]%Q [1; 2]%Q eq_refl eq_refl eq_refl eq_refl)
    as (Hmin & Hmax & _ & Hbounds & Hsize & _).
  split; [reflexivity |]. split; [exact Hmin |]. split; [exact Hmax |].
  split; [apply Hbounds; discriminate | exact Hsize].
Defined.

(** Without items there is no cell, and both bounds are [NaN]. *)
Example normalize_no_item :
  normalize xyNet [] =
  Ok {| inputs := Float32 [];
        targets := Float32 [];
        inputMax := F32 NaN;
        inputMin := F32 NaN;
        targetMax := F32 NaN;
        targetMin := F32 NaN |}.
Proof. reflexivity. Qed.

(** An input that is no binary32 number is stored as its neighbour:
    [2^24 + 1] as [2^24], which is then the maximum. *)
Example normalize_input_rounded :
  exists r : Normalized,
    normalize xyNet [item 1 10; item 16777217 20] = Ok r /\
    inputMax r = F32 (Fin 16777216).
Proof. eexists. split; vm_compute; reflexivity. Qed.

(** The labels 0 and 2 of three classes. *)
Lemma normalize_one_hot_targets_witness :
  normalize classNet [item 1 0; item 2 2] = Ok hotScaled /\
  targetMin hotScaled = I32 0 /\
  targetMax hotScaled = I32 1 /\
  targets hotScaled = Int32 [1; 0; 0; 0; 0; 1]%Z.
Proof.
  destruct (normalize_one_hot_targets classNet [item 1 0; item 2 2] hotScaled ["y"] 3
              eq_refl eq_refl eq_refl ltac:(lia) ltac:(discriminate) eq_refl)
    as (Hmin & Hin & _).
  destruct (Hin eq_refl) as [Hmax Htargets].
  split; [reflexivity |]. split; [exact Hmin |]. split; [exact Hmax | exact Htargets].
Defined.

(** The labels 5 and 7 are none of the three classes: every normalized
    target is 0. *)
Example normalize_labels_out_of_range :
  normalize classNet [item 1 5; item 2 7] =
  Ok {| inputs := Float32 [Fin (-1); Fin (-2)];
        targets := Int32 [0; 0; 0; 0; 0; 0]%Z;
        inputMax := F32 (Fin 2);
        inputMin := F32 (Fin 1);
        targetMax := I32 0;
        targetMin := I32 0 |}.
Proof. reflexivity. Qed.

End Closed.

End LegacyNeuralNetworkRestSpec.

(* ================================================================== *)
(** ** Further properties of [DiyNeuralNetwork] *)
(* ================================================================== *)

Module DiyNeuralNetworkRestSpec.
Import JS JSMore JSMoreFacts DiyNeuralNetwork DiyNeuralNetworkRest SpecModel.

Section Methods.
Context {ops : NeuralNetworkDataOps}.

(** Running a method on a state: every call of [NeuralNetworkData] is split
    into its two outcomes. *)
Ltac run_all :=
  unfold warmUp, createMetaDataFromData, summarizeData, await_load,
    bind, or_default, ret, lift, modify, gets, throw, Ok, Throw;
  cbn;
  repeat match goal with
         | |- context [data_createMetaDataFromData ?a] =>
             destruct (data_createMetaDataFromData a); cbn
         | |- context [getRawStats ?a ?b ?c] => destruct (getRawStats a b c); cbn
         | |- context [applyOneHotEncodingsToDataRaw ?a ?b] =>
             destruct (applyOneHotEncodingsToDataRaw a b); cbn
         end.

(** X14: [createMetaDataFromData], [summarizeData] and [warmUp] never change
    the raw data nor the console, whatever their arguments and whether they
    return or throw.  A [createMetaDataFromData] or a [summarizeData] that
    throws leaves the whole instance as it was; a [warmUp] that throws
    leaves the training data as they were, and one that returns has stored
    the encoded data that it returns. *)
Theorem methods_keep_raw_data (_dataRaw : option (list RawRecord))
    (_meta : option Meta) (s : Instance) :
  (data_raw (neuralNetworkData (snd (createMetaDataFromData _dataRaw s))) =
     data_raw (neuralNetworkData s) /\
   console (snd (createMetaDataFromData _dataRaw s)) = console s /\
   training (snd (createMetaDataFromData _dataRaw s)) = training s /\
   forall e, fst (createMetaDataFromData _dataRaw s) = inl e ->
             snd (createMetaDataFromData _dataRaw s) = s) /\
  (data_raw (neuralNetworkData (snd (summarizeData _dataRaw _meta s))) =
     data_raw (neuralNetworkData s) /\
   console (snd (summarizeData _dataRaw _meta s)) = console s /\
   training (snd (summarizeData _dataRaw _meta s)) = training s /\
   forall e, fst (summarizeData _dataRaw _meta s) = inl e ->
             snd (summarizeData _dataRaw _meta s) = s) /\
  (data_raw (neuralNetworkData (snd (warmUp _dataRaw _meta s))) =
     data_raw (neuralNetworkData s) /\
   console (snd (warmUp _dataRaw _meta s)) = console s /\
   (forall e, fst (warmUp _dataRaw _meta s) = inl e ->
              training (snd (warmUp _dataRaw _meta s)) = training s) /\
   (forall r, fst (warmUp _dataRaw _meta s) = inr r ->
              training (snd (warmUp _dataRaw _meta s)) = snd r)).
Proof.
  destruct _dataRaw, _meta; (split; [| split]); repeat split;
    try (intros x Hx; revert Hx); run_all;
    try discriminate; try reflexivity;
    try (intros [= <-]; reflexivity).
Qed.

(** X15: when the loader that the locator selects fails, [loadDataInternal]
    fails with the error of the loader and leaves the instance as it was:
    no meta data are created and nothing is written to the console.  The
    endings [.csv] and [.json] are tested before the presence of [blob]. *)
Theorem loadDataInternal_failed_load (url : string) (ins outs : value)
    (s : Instance) (e : js_error) :
  (endsWith url ".csv" = true /\
   loadCSV url ins outs (neuralNetworkData s) = Throw e) \/
  (endsWith url ".csv" = false /\ endsWith url ".json" = true /\
   loadJSON url ins outs (neuralNetworkData s) = Throw e) \/
  (endsWith url ".csv" = false /\ endsWith url ".json" = false /\
   includes url "blob" = true /\
   loadBlob url ins outs (neuralNetworkData s) = Throw e) ->
  loadDataInternal {| dataUrl := VStr url; opt_inputs := ins; opt_outputs := outs |} s =
  (Throw e, s).
Proof.
  unfold loadDataInternal. cbn [dataUrl opt_inputs opt_outputs].
  intros [(Hc & Hl) | [(Hc & Hj & Hl) | (Hc & Hj & Hb & Hl)]].
  - rewrite Hc. unfold await_load, bind, gets, lift, Ok. cbv beta iota. rewrite Hl. reflexivity.
  - rewrite Hc, Hj. unfold await_load, bind, gets, lift, Ok. cbv beta iota. rewrite Hl. reflexivity.
  - rewrite Hc, Hj, Hb. unfold await_load, bind, gets, lift, Ok. cbv beta iota. rewrite Hl. reflexivity.
Qed.

(** A locator that is not a string (the [undefined] of options that name
    no [dataUrl], a number) makes [loadDataInternal] fail with a [TypeError]
    at once. *)
Lemma loadDataInternal_not_a_string (url ins outs : value) (s : Instance) :
  (forall str : string, url <> VStr str) ->
  loadDataInternal {| dataUrl := url; opt_inputs := ins; opt_outputs := outs |} s =
  (Throw TypeError, s).
Proof.
  intros H. unfold loadDataInternal. cbn [dataUrl].
  destruct url; try reflexivity. exfalso. apply (H s0). reflexivity.
Qed.

(** *** The constructor *)

(** X16: the options of an instance are the defaults overridden by the
    options given: a property given wins, a default not given stays.  When
    the options given name no [dataUrl], or name [null], the instance is
    ready at once: nothing is loaded, the console is empty.  When they name
    a [dataUrl] that is neither [null] nor a string (as [undefined]), the
    load that the constructor starts fails with a [TypeError]. *)
Theorem constructor_options (emptyData : NeuralNetworkData)
    (given : list (string * value)) :
  let built := constructor emptyData given in
  let this := {| neuralNetworkData := emptyData; training := []; console := [] |} in
  (forall k : string,
     own_property (options built) k =
     match last_assigned given k with
     | Some v => Some v
     | None => own_property DEFAULTS k
     end) /\
  (last_assigned given "dataUrl" = None \/ last_assigned given "dataUrl" = Some VNull ->
   ready built = IsReady /\ instance built = this) /\
  (forall v : value,
     last_assigned given "dataUrl" = Some v ->
     v <> VNull -> (forall str : string, v <> VStr str) ->
     ready built = Loading (Throw TypeError) /\ instance built = this).
Proof.
  cbv zeta.
  assert (Hopt : forall k,
             own_property (literal (DEFAULTS ++ given)) k =
             match last_assigned given k with
             | Some v => Some v
             | None => own_property DEFAULTS k
             end).
  { intros k. rewrite own_property_defaults.
    destruct (last_assigned given k); [reflexivity |].
    apply last_assigned_NoDup. unfold DEFAULTS. simpl.
    repeat constructor; simpl; intuition discriminate. }
  assert (Hurl : get_prop (literal (DEFAULTS ++ given)) "dataUrl" =
                 match last_assigned given "dataUrl" with
                 | Some v => v
                 | None => VNull
                 end).
  { unfold get_prop. rewrite Hopt. destruct (last_assigned given "dataUrl"); reflexivity. }
  split; [| split].
  - intros k. unfold constructor.
    destruct (not_null _); cbn [options]; apply Hopt.
  - intros H. unfold constructor. rewrite Hurl.
    destruct H as [-> | ->]; split; reflexivity.
  - intros v Hv Hnull Hstr. unfold constructor. rewrite Hurl, Hv.
    replace (not_null v) with true by (destruct v; try reflexivity; congruence).
    cbn [ready instance].
    rewrite (loadDataInternal_not_a_string v _ _ _ Hstr). split; reflexivity.
Qed.

End Methods.

(** *** Training *)

(** X17: of the three arguments of [train], the second decides: when it is
    not a function, the options are the empty object and the first argument
    is taken for the final callback, whatever it is, so that options given
    alone are dropped; when it is a function and the first is an object,
    the first is the options and the final callback is a function.  The
    callback of the epochs is always [null] or a function. *)
Theorem trainArguments_cases (a b c : arg) :
  (typeof b <> "function" -> trainArguments a b c = (Val (VObj []), Val VNull, a)) /\
  (typeof a = "object" -> typeof b = "function" ->
   fst (fst (trainArguments a b c)) = a /\
   typeof (snd (trainArguments a b c)) = "function") /\
  (snd (fst (trainArguments a b c)) = Val VNull \/
   typeof (snd (fst (trainArguments a b c))) = "function").
Proof.
  unfold trainArguments. split; [| split].
  - intros Hb. apply String.eqb_neq in Hb. rewrite Hb.
    rewrite !andb_false_r. reflexivity.
  - intros Ha Hb. rewrite Ha, Hb. cbn [String.eqb andb].
    change (String.eqb "object" "object") with true.
    change (String.eqb "function" "function") with true. cbn [andb].
    destruct (String.eqb (typeof c) "function") eqn:Hc; cbn [fst snd].
    + apply String.eqb_eq in Hc. split; [reflexivity | exact Hc].
    + split; [reflexivity | exact Hb].
  - destruct (String.eqb (typeof a) "object") eqn:Ha,
             (String.eqb (typeof b) "function") eqn:Hb,
             (String.eqb (typeof c) "function") eqn:Hc; cbn [andb fst snd];
      try (destruct (String.eqb (typeof a) "function") eqn:Hf; cbn [andb fst snd]);
      try (left; reflexivity);
      right; apply String.eqb_eq; assumption.
Qed.

Section Training.
Variable tf_layers_dense : list (string * value) -> result Layer.
Variable tensors : result (arg * arg).

#[local] Abbreviation addDefaultLayers :=
  (DiyNeuralNetworkRest.addDefaultLayers tf_layers_dense).
#[local] Abbreviation trainInternal :=
  (DiyNeuralNetworkRest.trainInternal tf_layers_dense tensors).

Lemma addTwoLayers_events (meta : Meta) (activation : string) :
  Forall (fun ev => before_training ev /\ ev <> ConvertTrainingDataToTensors)
         (snd (addTwoLayers tf_layers_dense meta activation)).
Proof.
  unfold addTwoLayers.
  destruct (createDenseLayer tf_layers_dense _) as [e | hidden]; [constructor |].
  destruct (createDenseLayer tf_layers_dense _) as [e | output];
    repeat constructor; discriminate.
Qed.

Lemma addDefaultLayers_events (meta : Meta) (task : value) :
  Forall (fun ev => before_training ev /\ ev <> ConvertTrainingDataToTensors)
         (snd (addDefaultLayers meta task)).
Proof.
  unfold DiyNeuralNetworkRest.addDefaultLayers. destruct task; try (constructor; fail).
  destruct (String.eqb (toLowerCase s) "classification");
    [apply addTwoLayers_events |].
  destruct (String.eqb (toLowerCase s) "regression");
    [apply addTwoLayers_events |].
  repeat constructor; discriminate.
Qed.

Lemma options1_given (_options : list (string * arg)) (w : arg) (k : string) :
  k <> "whileTraining" ->
  own_property (assign (literal (trainDefaults ++ _options)) "whileTraining" w) k =
  match last_assigned _options k with
  | Some a => Some a
  | None => own_property trainDefaults k
  end.
Proof.
  intros Hk. rewrite own_property_assign.
  replace (String.eqb "whileTraining" k) with false
    by (symmetry; apply String.eqb_neq; congruence).
  rewrite own_property_defaults. destruct (last_assigned _options k); [reflexivity |].
  apply last_assigned_NoDup. unfold trainDefaults. simpl.
  repeat constructor; simpl; intuition discriminate.
Qed.

Lemma options1_tensor (_options : list (string * arg)) (w : arg) (k : string) :
  k = "inputs" \/ k = "outputs" ->
  get_arg (assign (literal (trainDefaults ++ _options)) "whileTraining" w) k =
  option_given _options k.
Proof.
  intros Hk. unfold get_arg, option_given.
  rewrite options1_given by (destruct Hk; subst k; discriminate).
  destruct (last_assigned _options k); [reflexivity |].
  destruct Hk; subst k; reflexivity.
Qed.

(** X18: when [trainInternal] returns, its last act is the one call of
    [neuralNetwork.train], with the final callback and with options in
    which [whileTraining] is the callback of the epochs given as an
    argument, or the logging default, never the option of that name; every
    other option is the caller's when given and the default (10 epochs,
    batches of 32, a validation split of 0.1, [compile] true) otherwise;
    and the training data are converted to tensors exactly when the caller
    gave neither [inputs] nor [outputs]. *)
Theorem trainInternal_options (task : value) (meta : Meta) (isLayered : value)
    (_options : list (string * arg)) (whileTrainingCb finishedTrainingCb : arg) :
  fst (trainInternal task meta isLayered _options
         whileTrainingCb finishedTrainingCb) = Ok tt ->
  exists (options : list (string * arg)) (events : list Event),
    snd (trainInternal task meta isLayered _options
           whileTrainingCb finishedTrainingCb) =
      events ++ [Train options finishedTrainingCb] /\
    Forall before_training events /\
    get_arg options "whileTraining" =
      (if is_null whileTrainingCb then logEpoch else whileTrainingCb) /\
    (forall k : string,
       k <> "whileTraining" -> k <> "inputs" -> k <> "outputs" ->
       own_property options k =
       match last_assigned _options k with
       | Some a => Some a
       | None => own_property trainDefaults k
       end) /\
    (In ConvertTrainingDataToTensors events <->
     arg_truthy (option_given _options "inputs") = false /\
     arg_truthy (option_given _options "outputs") = false).
Proof.
  unfold DiyNeuralNetworkRest.trainInternal.
  set (w := if is_null whileTrainingCb then logEpoch else whileTrainingCb).
  set (options1 := assign (literal (trainDefaults ++ _options)) "whileTraining" w).
  assert (Hin : get_arg options1 "inputs" = option_given _options "inputs")
    by (apply options1_tensor; left; reflexivity).
  assert (Hout : get_arg options1 "outputs" = option_given _options "outputs")
    by (apply options1_tensor; right; reflexivity).
  rewrite Hin, Hout.
  pose proof (addDefaultLayers_events meta task) as Hlayers.
  destruct (negb (arg_truthy (option_given _options "inputs")) &&
            negb (arg_truthy (option_given _options "outputs"))) eqn:Hcond.
  - apply andb_true_iff in Hcond. destruct Hcond as [Hi Ho].
    apply negb_true_iff in Hi, Ho.
    destruct tensors as [e | [inputs outputs]]; [discriminate |].
    destruct (if negb (truthy isLayered) then addDefaultLayers meta task else (Ok tt, []))
      as [layered events2] eqn:Hl.
    assert (H2 : Forall (fun ev => before_training ev /\
                                    ev <> ConvertTrainingDataToTensors) events2).
    { destruct (negb (truthy isLayered)); [rewrite Hl in Hlayers; exact Hlayers |].
      injection Hl as <- <-. constructor. }
    destruct layered as [e | []]; [discriminate |]. intros _.
    eexists. eexists. split; [| split; [| split; [| split]]].
    + cbn [snd]. rewrite !app_assoc. reflexivity.
    + apply Forall_app. split; [apply Forall_app; split |].
      * repeat constructor.
      * eapply Forall_impl; [| exact H2]. intros ev [H _]. exact H.
      * destruct (arg_truthy (get_arg _ "compile")); repeat constructor.
    + unfold get_arg. rewrite !own_property_assign.
      change (String.eqb "outputs" "whileTraining") with false.
      change (String.eqb "inputs" "whileTraining") with false.
      cbv iota. unfold options1. rewrite own_property_assign. reflexivity.
    + intros k Hw Hi' Ho'. rewrite !own_property_assign.
      replace (String.eqb "outputs" k) with false
        by (symmetry; apply String.eqb_neq; congruence).
      replace (String.eqb "inputs" k) with false
        by (symmetry; apply String.eqb_neq; congruence).
      apply options1_given. exact Hw.
    + split; [intros _; split; assumption |]. intros _.
      apply in_or_app. left. apply in_or_app. left. left. reflexivity.
  - destruct (if negb (truthy isLayered) then addDefaultLayers meta task else (Ok tt, []))
      as [layered events2] eqn:Hl.
    assert (H2 : Forall (fun ev => before_training ev /\
                                    ev <> ConvertTrainingDataToTensors) events2).
    { destruct (negb (truthy isLayered)); [rewrite Hl in Hlayers; exact Hlayers |].
      injection Hl as <- <-. constructor. }
    destruct layered as [e | []]; [discriminate |]. intros _.
    eexists. eexists. split; [| split; [| split; [| split]]].
    + cbn [snd app]. rewrite app_assoc. reflexivity.
    + apply Forall_app. split.
      * eapply Forall_impl; [| exact H2]. intros ev [H _]. exact H.
      * destruct (arg_truthy (get_arg _ "compile")); repeat constructor.
    + unfold get_arg, options1. rewrite own_property_assign. reflexivity.
    + intros k Hw _ _. apply options1_given. exact Hw.
    + split.
      * intros Hc. exfalso. apply in_app_or in Hc. destruct Hc as [Hc | Hc].
        -- rewrite Forall_forall in H2. destruct (H2 _ Hc) as [_ Hne]. congruence.
        -- destruct (arg_truthy (get_arg _ "compile")); simpl in Hc; intuition discriminate.
      * intros [Hi Ho]. rewrite Hi, Ho in Hcond. discriminate.
Qed.

(** X19: a network without layers and without a task name (the default
    task is [null]) cannot be trained: [trainInternal] throws, a
    [TypeError] once the training data are converted, and neither adds a
    layer, nor compiles, nor trains. *)
Theorem trainInternal_without_task (task : value) (meta : Meta) (isLayered : value)
    (_options : list (string * arg)) (whileTrainingCb finishedTrainingCb : arg) :
  truthy isLayered = false ->
  (forall name : string, task <> VStr name) ->
  let run := trainInternal task meta isLayered _options
               whileTrainingCb finishedTrainingCb in
  (exists e, fst run = Throw e) /\
  Forall (fun ev => ev = ConvertTrainingDataToTensors) (snd run) /\
  (forall p, tensors = Ok p -> fst run = Throw TypeError).
Proof.
  intros Hlay Htask. cbv zeta. unfold DiyNeuralNetworkRest.trainInternal.
  rewrite Hlay. cbn [negb].
  assert (Hadd : addDefaultLayers meta task = (Throw TypeError, [])).
  { unfold DiyNeuralNetworkRest.addDefaultLayers. destruct task; try reflexivity.
    exfalso. apply (Htask s). reflexivity. }
  rewrite Hadd.
  destruct (negb _ && negb _).
  - destruct tensors as [e | [inputs outputs]].
    + split; [eexists; reflexivity |]. split; [repeat constructor |].
      intros p Hp. discriminate.
    + split; [eexists; reflexivity |]. split; [repeat constructor |].
      intros p _. reflexivity.
  - split; [eexists; reflexivity |]. split; [constructor |].
    intros p _. reflexivity.
Qed.

End Training.

(** X20: [compile] always hands [neuralNetwork.compile] an optimizer made
    by [setOptimizerFunction], with the learning rate given, or 0.25 when
    none is ([null] or left out).  With options of the caller, their
    optimizer is used when truthy and [tf.train.sgd] otherwise, and their
    other properties pass unchanged; without, the optimizer is
    [tf.train.sgd] for the task ['classification'] and for a task that is
    neither, [tf.train.adam] for ['regression'], and a task that is neither
    compiles without a loss. *)
Theorem compile_optimizer (task : value) (_modelOptions : option (list (string * arg)))
    (_learningRate : arg) :
  let rate := if is_null (or_null _learningRate) then Val (VNum (Fin (1 # 4)))
              else _learningRate in
  let options := compile task _modelOptions _learningRate in
  (exists optimizer : arg, own_property options "optimizer" = Some (Optimizer rate optimizer)) /\
  (forall given : list (string * arg),
     _modelOptions = Some given ->
     own_property options "optimizer" =
       Some (Optimizer rate (if arg_truthy (option_given given "optimizer")
                             then option_given given "optimizer"
                             else Fun "tf.train.sgd")) /\
     forall k : string,
       k <> "optimizer" ->
       own_property options k = option_map Given (last_assigned given k)) /\
  (_modelOptions = None ->
   own_property options "optimizer" =
     Some (Optimizer rate (if task_is task "regression" && negb (task_is task "classification")
                           then Fun "tf.train.adam" else Fun "tf.train.sgd")) /\
   own_property options "loss" =
     (if task_is task "classification" then Some (Given (Val (VStr "categoricalCrossentropy")))
      else if task_is task "regression" then Some (Given (Val (VStr "meanSquaredError")))
      else None)).
Proof.
  cbv zeta. unfold compile.
  set (rate := if is_null (or_null _learningRate) then Val (VNum (Fin (1 # 4)))
               else _learningRate).
  assert (Hmap : forall (o : list (string * arg)) (k : string),
             own_property (map (fun kv => (fst kv, Given (snd kv))) o) k =
             option_map Given (own_property o k)).
  { intros o k. induction o as [| [k0 v0] o IH]; [reflexivity |].
    simpl. destruct (String.eqb k0 k); [reflexivity | exact IH]. }
  split; [| split].
  - rewrite own_property_assign. cbn [String.eqb Ascii.eqb Bool.eqb].
    destruct (arg_truthy _); eexists; reflexivity.
  - intros given ->. split.
    + rewrite own_property_assign. cbn [String.eqb Ascii.eqb Bool.eqb].
      unfold get_arg, option_given. rewrite own_property_literal.
      destruct (arg_truthy _); reflexivity.
    + intros k Hk. rewrite own_property_assign.
      replace (String.eqb "optimizer" k) with false
        by (symmetry; apply String.eqb_neq; congruence).
      rewrite Hmap, own_property_literal. reflexivity.
  - intros ->. split.
    + rewrite own_property_assign. cbn [String.eqb Ascii.eqb Bool.eqb].
      destruct (task_is task "classification");
        [rewrite Bool.andb_false_r; reflexivity |].
      destruct (task_is task "regression"); reflexivity.
    + rewrite own_property_assign.
      change (String.eqb "optimizer" "loss") with false.
      destruct (task_is task "classification"); [reflexivity |].
      destruct (task_is task "regression"); reflexivity.
Qed.

Section LetterCase.
Variable tf_layers_dense : list (string * value) -> result Layer.

(** X21: the default layers are chosen by the task in any letter case,
    the options of the compilation by the task as written.  A task that
    names one of the two in another letter case is given the layers of that
    task, with the same outcome: when the tensor library accepts them, a
    layer of 16 units with [relu] and then the output units with [softmax]
    or [sigmoid].  It is compiled as no task: without a loss and with
    [tf.train.sgd], where the task as written has a loss. *)
Theorem task_letter_case (t name : string) (meta : Meta) (_learningRate : arg) :
  name = "classification" \/ name = "regression" ->
  toLowerCase t = name ->
  t <> name ->
  let rate := if is_null (or_null _learningRate) then Val (VNum (Fin (1 # 4)))
              else _learningRate in
  let first := [("units", VNum (Fin 16)); ("activation", VStr "relu");
                ("inputShape", VArr [unit_count (inputUnits meta)])] in
  let second := [("units", unit_count (outputUnits meta));
                 ("activation",
                  VStr (if String.eqb name "classification" then "softmax"
                        else "sigmoid"))] in
  addDefaultLayers tf_layers_dense meta (VStr t) =
    addDefaultLayers tf_layers_dense meta (VStr name) /\
  (forall hidden output : Layer,
     tf_layers_dense first = Ok hidden ->
     tf_layers_dense second = Ok output ->
     addDefaultLayers tf_layers_dense meta (VStr t) =
       (Ok tt, [AddLayer hidden; AddLayer output])) /\
  compile (VStr t) None _learningRate =
    [("optimizer", Optimizer rate (Fun "tf.train.sgd"))] /\
  exists loss : arg, own_property (compile (VStr name) None _learningRate) "loss" =
                     Some (Given loss).
Proof.
  intros Hname Hlower Hne. cbv zeta.
  assert (Hc : task_is (VStr t) "classification" = false).
  { apply String.eqb_neq. intros ->. destruct Hname as [-> | ->].
    - apply Hne. reflexivity.
    - discriminate Hlower. }
  assert (Hr : task_is (VStr t) "regression" = false).
  { apply String.eqb_neq. intros ->. destruct Hname as [-> | ->].
    - discriminate Hlower.
    - apply Hne. reflexivity. }
  split; [| split; [| split]].
  - unfold addDefaultLayers. rewrite Hlower. destruct Hname as [-> | ->]; reflexivity.
  - intros hidden output Hh Ho. unfold addDefaultLayers. rewrite Hlower.
    destruct Hname as [-> | ->]; cbn [String.eqb Ascii.eqb Bool.eqb] in Ho |- *;
      unfold addTwoLayers, createDenseLayer;
      change (literal ([("units", VNum (Fin 16)); ("activation", VStr "relu")] ++
                       [("inputShape", VArr [unit_count (inputUnits meta)])]))
        with [("units", VNum (Fin 16)); ("activation", VStr "relu");
              ("inputShape", VArr [unit_count (inputUnits meta)])];
      rewrite Hh.
    + change (literal ([("units", VNum (Fin 16)); ("activation", VStr "relu")] ++
                       [("units", unit_count (outputUnits meta));
                        ("activation", VStr "softmax")]))
        with [("units", unit_count (outputUnits meta)); ("activation", VStr "softmax")].
      rewrite Ho. reflexivity.
    + change (literal ([("units", VNum (Fin 16)); ("activation", VStr "relu")] ++
                       [("units", unit_count (outputUnits meta));
                        ("activation", VStr "sigmoid")]))
        with [("units", unit_count (outputUnits meta)); ("activation", VStr "sigmoid")].
      rewrite Ho. reflexivity.
  - unfold compile. rewrite Hc, Hr. reflexivity.
  - destruct Hname as [-> | ->]; eexists; reflexivity.
Qed.

End LetterCase.

(** X22: the row that [predict] and [classify] make of an object has one
    cell for each input column of the meta data, in their order, whatever
    the object holds: a property that is no column is left out, a column
    that is no property gives [undefined], and the order of the properties
    of the object does not matter. *)
Theorem inputRow_follows_columns (meta : Meta) (props : list (string * value)) :
  List.length (inputRow meta (VObj props)) = List.length (inputs meta) /\
  (forall (i : nat) (column : string),
     nth_error (map fst (inputs meta)) i = Some column ->
     nth_error (inputRow meta (VObj props)) i = Some (get_prop props column)) /\
  (forall (k : string) (v : value),
     ~ In k (map fst (inputs meta)) ->
     inputRow meta (VObj ((k, v) :: props)) = inputRow meta (VObj props)) /\
  (forall props' : list (string * value),
     NoDup (map fst props) -> Permutation props props' ->
     inputRow meta (VObj props') = inputRow meta (VObj props)).
Proof.
  unfold inputRow. split; [| split; [| split]].
  - rewrite !length_map. reflexivity.
  - intros i column Hi. rewrite nth_error_map, Hi. reflexivity.
  - intros k v Hk. apply map_ext_in. intros column Hc.
    unfold get_prop. simpl.
    destruct (String.eqb k column) eqn:E; [| reflexivity].
    apply String.eqb_eq in E. subst column. contradiction.
  - intros props' Hnd Hp. apply map_ext. intros column.
    unfold get_prop. rewrite (own_property_perm props props' column Hp Hnd).
    reflexivity.
Qed.

Section Closed.
#[local] Existing Instance small_ops.

Lemma loadDataInternal_failed_load_witness :
  loadDataInternal
    {| dataUrl := VStr "missing.json"; opt_inputs := VArr []; opt_outputs := VArr [] |}
    fresh =
  (Throw LoadError, fresh).
Proof.
  apply (loadDataInternal_failed_load "missing.json" (VArr []) (VArr []) fresh LoadError).
  right. left. repeat split; reflexivity.
Defined.

Lemma trainInternal_options_witness :
  fst (trainInternal checked_dense (Ok (Val (VStr "xs"), Val (VStr "ys")))
         (VStr "Regression") unitMeta
         (VBool false) [("epochs", Val (VNum (Fin 20)))] (Val VNull) (Fun "done")) = Ok tt /\
  exists (options : list (string * arg)) (events : list Event),
    snd (trainInternal checked_dense (Ok (Val (VStr "xs"), Val (VStr "ys")))
           (VStr "Regression") unitMeta
           (VBool false) [("epochs", Val (VNum (Fin 20)))] (Val VNull) (Fun "done")) =
      events ++ [Train options (Fun "done")] /\
    Forall before_training events /\
    get_arg options "whileTraining" = logEpoch /\
    (forall k : string,
       k <> "whileTraining" -> k <> "inputs" -> k <> "outputs" ->
       own_property options k =
       match last_assigned [("epochs", Val (VNum (Fin 20)))] k with
       | Some a => Some a
       | None => own_property trainDefaults k
       end) /\
    (In ConvertTrainingDataToTensors events <->
     arg_truthy (option_given [("epochs", Val (VNum (Fin 20)))] "inputs") = false /\
     arg_truthy (option_given [("epochs", Val (VNum (Fin 20)))] "outputs") = false).
Proof.
  split; [reflexivity |].
  apply (trainInternal_options checked_dense (Ok (Val (VStr "xs"), Val (VStr "ys")))
           (VStr "Regression") unitMeta (VBool false)
           [("epochs", Val (VNum (Fin 20)))] (Val VNull) (Fun "done")).
  reflexivity.
Defined.

Lemma task_letter_case_witness :
  toLowerCase "Classification" = "classification" /\
  addDefaultLayers checked_dense unitMeta (VStr "Classification") =
    addDefaultLayers checked_dense unitMeta (VStr "classification") /\
  (forall hidden output : Layer,
     checked_dense [("units", VNum (Fin 16)); ("activation", VStr "relu");
                    ("inputShape", VArr [unit_count (inputUnits unitMeta)])] = Ok hidden ->
     checked_dense [("units", unit_count (outputUnits unitMeta));
                    ("activation", VStr "softmax")] = Ok output ->
     addDefaultLayers checked_dense unitMeta (VStr "Classification") =
       (Ok tt, [AddLayer hidden; AddLayer output])) /\
  compile (VStr "Classification") None (Val VUndef) =
    [("optimizer", Optimizer (Val (VNum (Fin (1 # 4)))) (Fun "tf.train.sgd"))] /\
  exists loss : arg,
    own_property (compile (VStr "classification") None (Val VUndef)) "loss" =
    Some (Given loss).
Proof.
  split; [reflexivity |].
  apply (task_letter_case checked_dense "Classification" "classification" unitMeta
           (Val VUndef)).
  - left. reflexivity.
  - reflexivity.
  - discriminate.
Defined.

(** With one input and one output unit, the two layers are accepted. *)
Example addDefaultLayers_unit_layers :
  addDefaultLayers checked_dense unitMeta (VStr "Classification") =
  (Ok tt,
   [AddLayer (Dense [("units", VNum (Fin 16)); ("activation", VStr "relu");
                     ("inputShape", VArr [unit_count 1])]);
    AddLayer (Dense [("units", unit_count 1); ("activation", VStr "softmax")])]).
Proof. reflexivity. Qed.

(** Without output units (meta data not yet created), the second layer is
    refused after the first was added. *)
Example addDefaultLayers_no_output_units :
  addDefaultLayers checked_dense emptyMeta (VStr "classification") =
  (Throw ValueError,
   [AddLayer (Dense [("units", VNum (Fin 16)); ("activation", VStr "relu");
                     ("inputShape", VArr [unit_count 0])])]).
Proof. reflexivity. Qed.

Lemma trainInternal_without_task_witness :
  truthy (VBool false) = false /\
  (exists e,
     fst (trainInternal checked_dense (Ok (Val (VStr "xs"), Val (VStr "ys"))) VNull
            unitMeta (VBool false) [] (Val VNull) (Fun "done")) = Throw e) /\
  Forall (fun ev => ev = ConvertTrainingDataToTensors)
    (snd (trainInternal checked_dense (Ok (Val (VStr "xs"), Val (VStr "ys"))) VNull
            unitMeta (VBool false) [] (Val VNull) (Fun "done"))) /\
  (forall p, Ok (Val (VStr "xs"), Val (VStr "ys")) = Ok p ->
     fst (trainInternal checked_dense (Ok (Val (VStr "xs"), Val (VStr "ys"))) VNull
            unitMeta (VBool false) [] (Val VNull) (Fun "done")) = Throw TypeError).
Proof.
  split; [reflexivity |].
  apply (trainInternal_without_task checked_dense
           (Ok (Val (VStr "xs"), Val (VStr "ys"))) VNull unitMeta
           (VBool false) [] (Val VNull) (Fun "done")).
  - reflexivity.
  - intros name. discriminate.
Defined.

End Closed.

End DiyNeuralNetworkRestSpec.

(* ================================================================== *)
(** ** The configuration of the class and the options of its training *)
(* ================================================================== *)

Module NeuralNetworkSetupSpec.
Import JS JSMore JSMoreFacts NeuralNetworkSetup.

Lemma get_arg_assign (o : list (string * arg)) (k k' : string) (v : arg) :
  get_arg (assign o k v) k' = if String.eqb k k' then v else get_arg o k'.
Proof.
  unfold get_arg. rewrite own_property_assign. destruct (String.eqb k k'); reflexivity.
Qed.

(** A falsy value of an option reads as the option left out. *)
Lemma setting_or_falsy (o : list (string * arg)) (k k' : string) (v : arg) (b : setting) :
  arg_truthy (get_arg o k) = false -> arg_truthy v = false ->
  setting_or (get_arg (assign o k v) k') b = setting_or (get_arg o k') b.
Proof.
  intros Ho Hv. rewrite get_arg_assign. unfold setting_or.
  destruct (String.eqb k k') eqn:E; [| reflexivity].
  apply String.eqb_eq in E. subst k'. rewrite Ho, Hv. reflexivity.
Qed.

(** X23: the batch size and the number of epochs that the constructor
    records, from its options or the defaults, are kept in
    [config.training]; [trainInternal] reads [config.batchSize] and
    [config.epochs], which the constructor never makes.  So, on the
    configuration as the constructor leaves it, [model.fit] receives the
    batch size and the epochs of the options of the call when these are
    truthy, and [undefined] otherwise, whatever the constructor was
    given. *)
Theorem trainInternal_configured_batchSize_unused
    (DEFAULTS given options : list (string * arg)) (whileTrainingCallback : arg) :
  let config := fst (constructor DEFAULTS given) in
  let fit := trainInternal config options whileTrainingCallback in
  fit_batchSize fit = setting_or (get_arg options "batchSize") (Plain (Val VUndef)) /\
  fit_epochs fit = setting_or (get_arg options "epochs") (Plain (Val VUndef)) /\
  exists training : list (string * setting),
    own_property config "training" = Some (Group training) /\
    get_setting training "batchSize" = option_or_default DEFAULTS given "batchSize" /\
    get_setting training "epochs" = option_or_default DEFAULTS given "epochs".
Proof.
  cbv zeta. unfold constructor, trainInternal. cbn [fit_batchSize fit_epochs].
  destruct (setting_is _ "regression");
    [| destruct (setting_is _ "classification")];
    (split; [reflexivity |]); (split; [reflexivity |]);
    eexists; (split; [reflexivity |]); split; reflexivity.
Qed.

(** X24: for the two tasks the constructor replaces the optimizer of the
    defaults by one of its own, [tf.train.adam] or [tf.train.sgd] on the
    learning rate, and for a classification also the loss and the
    activation of the output: the configuration does not depend on these
    defaults. *)
Theorem constructor_task_overrides (DEFAULTS DEFAULTS' options : list (string * arg)) :
  (forall k : string,
     k <> "modelOptimizer" -> k <> "modelLoss" -> k <> "activationOutput" ->
     get_arg DEFAULTS k = get_arg DEFAULTS' k) ->
  (option_or_default DEFAULTS options "task" = Plain (Val (VStr "classification")) ->
   constructor DEFAULTS options = constructor DEFAULTS' options) /\
  (option_or_default DEFAULTS options "task" = Plain (Val (VStr "regression")) ->
   get_arg DEFAULTS "modelLoss" = get_arg DEFAULTS' "modelLoss" ->
   get_arg DEFAULTS "activationOutput" = get_arg DEFAULTS' "activationOutput" ->
   constructor DEFAULTS options = constructor DEFAULTS' options).
Proof.
  intros Hsame.
  assert (Hk : forall k : string,
             k <> "modelOptimizer" -> k <> "modelLoss" -> k <> "activationOutput" ->
             option_or_default DEFAULTS' options k = option_or_default DEFAULTS options k).
  { intros k H1 H2 H3. unfold option_or_default. rewrite (Hsame k H1 H2 H3). reflexivity. }
  split.
  - intros Htask. unfold constructor. cbn [get_setting own_property String.eqb Ascii.eqb Bool.eqb].
    rewrite !(Hk "task"), !(Hk "hiddenUnits"), !(Hk "batchSize"), !(Hk "epochs"),
      !(Hk "learningRate"), !(Hk "modelMetrics"), !(Hk "inputs"), !(Hk "outputs"),
      !(Hk "debug"), !(Hk "activationHidden") by discriminate.
    rewrite Htask. reflexivity.
  - intros Htask Hloss Hact. unfold constructor.
    cbn [get_setting own_property String.eqb Ascii.eqb Bool.eqb].
    rewrite !(Hk "task"), !(Hk "hiddenUnits"), !(Hk "batchSize"), !(Hk "epochs"),
      !(Hk "learningRate"), !(Hk "modelMetrics"), !(Hk "inputs"), !(Hk "outputs"),
      !(Hk "debug"), !(Hk "activationHidden") by discriminate.
    rewrite Htask. unfold option_or_default. rewrite Hloss, Hact. reflexivity.
Qed.

(** X25: the constructor reads every option through [||]: a falsy value of
    an option ([0], [false], the empty string, [null], [NaN]) gives the
    configuration and the console of the option left out, so that no option
    can be set to such a value. *)
Theorem constructor_falsy_option (DEFAULTS options : list (string * arg))
    (k : string) (v : arg) :
  arg_truthy (get_arg options k) = false ->
  arg_truthy v = false ->
  constructor DEFAULTS (assign options k v) = constructor DEFAULTS options.
Proof.
  intros Ho Hv. unfold constructor, option_or_default.
  rewrite !(setting_or_falsy options k _ v _ Ho Hv). reflexivity.
Qed.

(** X26: the callback of the epochs that [model.fit] receives is a
    function whatever [trainInternal] was given, the last of the callbacks,
    and the visualisation precedes it exactly when [debug] is truthy in the
    configuration; with the configuration of the constructor, that is when
    the option or, for a falsy option, the default is truthy. *)
Theorem trainInternal_callbacks (DEFAULTS given options : list (string * arg))
    (whileTrainingCallback : arg) :
  let config := fst (constructor DEFAULTS given) in
  let debug := arg_truthy (get_arg given "debug") || arg_truthy (get_arg DEFAULTS "debug") in
  exists whileTraining : arg,
    typeof whileTraining = "function" /\
    (typeof whileTrainingCallback = "function" -> whileTraining = whileTrainingCallback) /\
    fit_callbacks (trainInternal config options whileTrainingCallback) =
      (if debug then [TrainingVis] else []) ++ [OnEpochEnd whileTraining].
Proof.
  cbv zeta. unfold trainInternal. cbn [fit_callbacks].
  assert (Hdebug : get_setting (fst (constructor DEFAULTS given)) "debug" =
                   option_or_default DEFAULTS given "debug").
  { unfold constructor.
    destruct (setting_is _ "regression");
      [| destruct (setting_is _ "classification")]; reflexivity. }
  rewrite Hdebug. unfold option_or_default, setting_or.
  eexists. split; [| split].
  - instantiate (1 := if String.eqb (typeof whileTrainingCallback) "function"
                      then whileTrainingCallback else logAccuracy).
    destruct (String.eqb (typeof whileTrainingCallback) "function") eqn:E.
    + apply String.eqb_eq. exact E.
    + reflexivity.
  - intros ->. reflexivity.
  - destruct (arg_truthy (get_arg given "debug")) eqn:Eg; cbn [setting_truthy orb].
    + rewrite Eg. reflexivity.
    + destruct (arg_truthy (get_arg DEFAULTS "debug")); reflexivity.
Qed.

Section Closed.

Lemma constructor_task_overrides_witness :
  (option_or_default someDefaults [("task", Val (VStr "classification"))] "task" =
     Plain (Val (VStr "classification")) /\
   constructor someDefaults [("task", Val (VStr "classification"))] =
   constructor otherDefaults [("task", Val (VStr "classification"))]) /\
  get_arg someDefaults "modelLoss" <> get_arg otherDefaults "modelLoss".
Proof.
  split; [| discriminate].
  split; [reflexivity |].
  refine (proj1 (constructor_task_overrides someDefaults otherDefaults
                   [("task", Val (VStr "classification"))] _) eq_refl).
  intros k H1 H2 H3. unfold get_arg, someDefaults, otherDefaults.
  cbn [own_property].
  repeat match goal with
         | |- context [String.eqb ?a k] =>
             let E := fresh "E" in
             destruct (String.eqb a k) eqn:E;
             [apply String.eqb_eq in E; subst k; try reflexivity; congruence |]
         end.
  reflexivity.
Defined.

Lemma constructor_falsy_option_witness :
  arg_truthy (get_arg [("task", Val (VStr "classification"))] "epochs") = false /\
  constructor someDefaults
    (assign [("task", Val (VStr "classification"))] "epochs" (Val (VNum (Fin 0)))) =
  constructor someDefaults [("task", Val (VStr "classification"))].
Proof.
  split; [reflexivity |].
  apply (constructor_falsy_option someDefaults [("task", Val (VStr "classification"))]
           "epochs" (Val (VNum (Fin 0)))); reflexivity.
Defined.

End Closed.

End NeuralNetworkSetupSpec.
